(** * Medx-AI: the HER2 image pipeline

  A shallow embedding of the image-validation gates
  ([apps/ai/services/image_validator.py]), of the predictor and its risk
  scorer ([apps/ai/services/her2_predictor.py]) and of the standalone
  safety wrapper ([Her2/model_safety.py]).

  Numbers.  Every finite float64 is a rational, so thresholds, ratios,
  probabilities and the risk score are exact rationals ([Q]); rounding of
  the machine arithmetic is not modelled.  The two places where the code
  leaves the rationals, [np.log] in the entropy and the square root in
  [np.std], are modelled over the reals ([R]).  Pixels, sizes and counts
  are integers. *)

From Stdlib Require Import Reals Qreals.
From Stdlib Require Lra.
From Stdlib Require Import ZArith QArith Qround Qabs Qminmax Lqa Lia List
  String Ascii DecimalString Bool.
From Stdlib Require Import Sorted.
Import ListNotations.

(** ** Python values shared by all components *)

Module Py.

(** A raised exception: its class and [str(e)]. *)
Record exn : Type := Exn { exn_class : string; exn_msg : string }.

(** The result of a call that may raise. *)
Inductive outcome (A : Type) : Type :=
| Return (a : A)
| Raise (e : exn).
Arguments Return {A} a.
Arguments Raise {A} e.

Definition bind {A B : Type} (m : outcome A) (k : A -> outcome B)
  : outcome B :=
  match m with
  | Return a => k a
  | Raise e => Raise e
  end.

(** [d[key]] and [d.get(key, default)] on a dict kept as an association
    list; the first binding of a key is the live one.  The [KeyError] of
    [dict_index] carries the key itself, as [e.args[0]] does; Python's
    [str(e)] shows its [repr], with quotes. *)
Fixpoint dict_get {V : Type} (d : list (string * V)) (key : string)
  : option V :=
  match d with
  | [] => None
  | (k, v) :: rest => if String.eqb k key then Some v else dict_get rest key
  end.

Definition dict_get_default {V : Type} (d : list (string * V))
  (key : string) (default : V) : V :=
  match dict_get d key with
  | Some v => v
  | None => default
  end.

Definition dict_index {V : Type} (d : list (string * V)) (key : string)
  : outcome V :=
  match dict_get d key with
  | Some v => Return v
  | None => Raise (Exn "KeyError" key)
  end.

(** [{**base, **overrides}]: a lookup sees the override first. *)
Definition dict_merge {V : Type} (base overrides : list (string * V))
  : list (string * V) :=
  overrides ++ base.

(** [d[key] = v] on an insertion-ordered dict. *)
Fixpoint dict_set {V : Type} (d : list (string * V)) (key : string) (v : V)
  : list (string * V) :=
  match d with
  | [] => [(key, v)]
  | (k, v0) :: rest =>
      if String.eqb k key then (k, v) :: rest
      else (k, v0) :: dict_set rest key v
  end.

Definition dict_keys {V : Type} (d : list (string * V)) : list string :=
  map fst d.

(** Strict comparison of two rationals, as a boolean. *)
Definition Qltb (a b : Q) : bool := negb (Qle_bool b a).

(** The builtins [min(a, b)] and [max(a, b)]: the first argument is kept
    unless the second is strictly smaller (larger). *)
Definition py_min (a b : Q) : Q := if Qltb b a then b else a.
Definition py_max (a b : Q) : Q := if Qltb a b then b else a.

(** [np.sum] of a vector. *)
Definition np_sum (v : list Q) : Q := fold_left Qplus v 0%Q.

Fixpoint zip_mul (a b : list Q) : list Q :=
  match a, b with
  | x :: a', y :: b' => (x * y)%Q :: zip_mul a' b'
  | _, _ => []
  end.

(** [a * b] on two one-dimensional arrays: equal lengths multiply
    elementwise, a length-one array is broadcast, anything else raises.
    The text of the [ValueError] is cut before numpy's list of the two
    shapes. *)
Definition np_mul (a b : list Q) : outcome (list Q) :=
  if Nat.eqb (List.length a) (List.length b) then Return (zip_mul a b)
  else match a, b with
       | [x], _ => Return (map (fun y => (x * y)%Q) b)
       | _, [y] => Return (map (fun x => (x * y)%Q) a)
       | _, _ => Raise (Exn "ValueError"
                          "operands could not be broadcast together")
       end.

Lemma Qltb_true (a b : Q) : Qltb a b = true <-> a < b.
Proof.
  unfold Qltb. rewrite Bool.negb_true_iff.
  split; intro H.
  - apply Qnot_le_lt. intro Hle. apply Qle_bool_iff in Hle. congruence.
  - destruct (Qle_bool b a) eqn:E; [|reflexivity].
    apply Qle_bool_iff in E. exfalso. apply (Qlt_not_le _ _ H E).
Qed.

Lemma Qltb_false (a b : Q) : Qltb a b = false <-> b <= a.
Proof.
  unfold Qltb. rewrite Bool.negb_false_iff. apply Qle_bool_iff.
Qed.

Lemma Qltb_comp (a b c d : Q) :
  (a == c)%Q -> (b == d)%Q -> Qltb a b = Qltb c d.
Proof.
  intros Hac Hbd.
  destruct (Qltb a b) eqn:E1, (Qltb c d) eqn:E2; try reflexivity.
  - apply Qltb_true in E1. apply Qltb_false in E2.
    rewrite Hac, Hbd in E1. exfalso. exact (Qlt_not_le _ _ E1 E2).
  - apply Qltb_false in E1. apply Qltb_true in E2.
    rewrite Hac, Hbd in E1. exfalso. exact (Qlt_not_le _ _ E2 E1).
Qed.

End Py.

Import Py.

Declare Scope py_scope.
Notation "x <- m ;; k" := (Py.bind m (fun x => k))
(at level 61, m at next level, right associativity) : py_scope.

(** ** The risk scorer ([HER2Predictor._calculate_risk_score]) *)

Module RiskScorer.

Local Open Scope string_scope.
Local Open Scope Q_scope.
Local Open Scope py_scope.

Definition HER2_CLASSES : list (nat * string) :=
  [ (0%nat, "HER2_0"); (1%nat, "HER2_1+");
    (2%nat, "HER2_2+"); (3%nat, "HER2_3+") ].

Definition RISK_LEVELS : list (string * string) :=
  [ ("HER2_0", "low"); ("HER2_1+", "medium");
    ("HER2_2+", "high"); ("HER2_3+", "critical") ].

Definition BASE_RISK_SCORES : list (string * Z) :=
  [ ("HER2_0", 15%Z); ("HER2_1+", 35%Z);
    ("HER2_2+", 65%Z); ("HER2_3+", 90%Z) ].

Definition risk_weights : list Q := [0; 0.1; 0.3; 0.5].

Definition _calculate_risk_score (predicted_class : string)
  (confidence : Q) (probabilities : list Q) : outcome Q :=
  base_score <- dict_index BASE_RISK_SCORES predicted_class ;;
  let confidence_adjustment := (confidence - 0.5) * 20 in
  weighted <- np_mul probabilities risk_weights ;;
  let probability_contribution := np_sum weighted * 20 in
  let risk_score :=
    inject_Z base_score + confidence_adjustment + probability_contribution in
  let risk_score := py_max 0 (py_min 100 risk_score) in
  Return risk_score.

(** The scorer as the specification words it: the base of the class, the
    confidence adjustment and the weighted probability mass, clamped. *)
Inductive her2_class : Type := HER2_0 | HER2_1 | HER2_2 | HER2_3.

Definition class_name (c : her2_class) : string :=
  match c with
  | HER2_0 => "HER2_0"
  | HER2_1 => "HER2_1+"
  | HER2_2 => "HER2_2+"
  | HER2_3 => "HER2_3+"
  end.

Definition spec_base (c : her2_class) : Q :=
  match c with
  | HER2_0 => 15
  | HER2_1 => 35
  | HER2_2 => 65
  | HER2_3 => 90
  end.

Definition spec_clamp (lo hi x : Q) : Q :=
  if Qlt_le_dec x lo then lo
  else if Qlt_le_dec hi x then hi
  else x.

Definition spec_risk_score (c : her2_class) (confidence p0 p1 p2 p3 : Q)
  : Q :=
  spec_clamp 0 100
    (spec_base c + (confidence - 0.5) * 20
     + 20 * (0 * p0 + 0.1 * p1 + 0.3 * p2 + 0.5 * p3)).

Example risk_score_her2_3_confident :
  _calculate_risk_score "HER2_3+" 0.97 [0.01; 0.01; 0.01; 0.97]
  = Return 100.
Proof. reflexivity. Qed.

Example risk_score_unknown_class :
  exists message,
    _calculate_risk_score "HER2_4" 0.97 [0.01; 0.01; 0.01; 0.97]
    = Raise (Exn "KeyError" message).
Proof. eexists. reflexivity. Qed.

(** Python's [max(0, min(100, x))] is the clamp to [0, 100]. *)
Lemma py_clamp_spec (x y : Q) :
  x == y -> py_max 0 (py_min 100 x) == spec_clamp 0 100 y.
Proof.
  intro Hxy. unfold py_max, py_min, spec_clamp.
  destruct (Qltb x 100) eqn:E1.
  - apply Qltb_true in E1.
    destruct (Qltb 0 x) eqn:E2.
    + apply Qltb_true in E2.
      destruct (Qlt_le_dec y 0); [lra|].
      destruct (Qlt_le_dec 100 y); lra.
    + apply Qltb_false in E2.
      destruct (Qlt_le_dec y 0); [lra|].
      destruct (Qlt_le_dec 100 y); lra.
  - apply Qltb_false in E1.
    destruct (Qltb 0 100) eqn:E2.
    + destruct (Qlt_le_dec y 0); [lra|].
      destruct (Qlt_le_dec 100 y); lra.
    + apply Qltb_false in E2. lra.
Qed.

Lemma spec_clamp_range (x : Q) : 0 <= spec_clamp 0 100 x <= 100.
Proof.
  unfold spec_clamp.
  destruct (Qlt_le_dec x 0); [lra|].
  destruct (Qlt_le_dec 100 x); lra.
Qed.

Lemma spec_clamp_mono (x y : Q) :
  x <= y -> spec_clamp 0 100 x <= spec_clamp 0 100 y.
Proof.
  intro H. unfold spec_clamp.
  destruct (Qlt_le_dec x 0), (Qlt_le_dec y 0); try lra;
    destruct (Qlt_le_dec 100 x), (Qlt_le_dec 100 y); lra.
Qed.

(** What the code computes on a known class and a four-element vector,
    before any rewriting of the arithmetic. *)
Lemma risk_score_unfold (c : her2_class) (confidence p0 p1 p2 p3 : Q) :
  exists raw,
    _calculate_risk_score (class_name c) confidence [p0; p1; p2; p3]
    = Return (py_max 0 (py_min 100 raw))
    /\ raw == spec_base c + (confidence - 0.5) * 20
              + 20 * (0 * p0 + 0.1 * p1 + 0.3 * p2 + 0.5 * p3).
Proof.
  destruct c; eexists; (split; [reflexivity|]);
    unfold np_sum; simpl fold_left; unfold spec_base; ring.
Qed.

(** C1. For each of the four classes, every confidence and every
    four-element probability vector, the scorer returns
    base + (confidence - 0.5) * 20 + 20 * (0 p0 + 0.1 p1 + 0.3 p2 + 0.5 p3)
    clamped to [0, 100]; the returned score lies in [0, 100]. *)
Theorem risk_score_formula (c : her2_class) (confidence p0 p1 p2 p3 : Q) :
  exists score,
    _calculate_risk_score (class_name c) confidence [p0; p1; p2; p3]
    = Return score
    /\ score == spec_risk_score c confidence p0 p1 p2 p3
    /\ 0 <= score <= 100.
Proof.
  destruct (risk_score_unfold c confidence p0 p1 p2 p3) as (raw & Hrun & Hraw).
  exists (py_max 0 (py_min 100 raw)). split; [exact Hrun|].
  assert (Heq : py_max 0 (py_min 100 raw)
                == spec_risk_score c confidence p0 p1 p2 p3)
    by (unfold spec_risk_score; apply py_clamp_spec; exact Hraw).
  split; [exact Heq|].
  rewrite Heq. apply spec_clamp_range.
Qed.

(** C9. With the confidence and the probability vector held fixed, the
    score does not decrease along HER2_0, HER2_1+, HER2_2+, HER2_3+. *)
Theorem risk_score_monotone_in_class (confidence p0 p1 p2 p3 : Q) :
  exists s0 s1 s2 s3,
    _calculate_risk_score "HER2_0" confidence [p0; p1; p2; p3] = Return s0
    /\ _calculate_risk_score "HER2_1+" confidence [p0; p1; p2; p3] = Return s1
    /\ _calculate_risk_score "HER2_2+" confidence [p0; p1; p2; p3] = Return s2
    /\ _calculate_risk_score "HER2_3+" confidence [p0; p1; p2; p3] = Return s3
    /\ s0 <= s1 /\ s1 <= s2 /\ s2 <= s3.
Proof.
  destruct (risk_score_unfold HER2_0 confidence p0 p1 p2 p3) as (r0 & H0 & E0).
  destruct (risk_score_unfold HER2_1 confidence p0 p1 p2 p3) as (r1 & H1 & E1).
  destruct (risk_score_unfold HER2_2 confidence p0 p1 p2 p3) as (r2 & H2 & E2).
  destruct (risk_score_unfold HER2_3 confidence p0 p1 p2 p3) as (r3 & H3 & E3).
  exists (py_max 0 (py_min 100 r0)), (py_max 0 (py_min 100 r1)),
         (py_max 0 (py_min 100 r2)), (py_max 0 (py_min 100 r3)).
  repeat (split; [assumption|]).
  rewrite (py_clamp_spec r0 r0), (py_clamp_spec r1 r1),
          (py_clamp_spec r2 r2), (py_clamp_spec r3 r3) by reflexivity.
  unfold spec_base in *.
  repeat split; apply spec_clamp_mono; lra.
Qed.

End RiskScorer.

(** ** String formatting ([str], ['.Nf'] and ['.N%'] in f-strings) *)

Module Fmt.

Local Open Scope string_scope.

(** [str(n)] of an integer. *)
Definition str_int (z : Z) : string := NilZero.string_of_int (Z.to_int z).

(** Rounding to the nearest integer, a tie going to the even neighbour. *)
Definition round_half_even (x : Q) : Z :=
let f := Qfloor x in
let d := (x - inject_Z f)%Q in
if Qltb d 0.5 then f
else if Qltb 0.5 d then (f + 1)%Z
else if Z.even f then f else (f + 1)%Z.

Fixpoint zeros (n : nat) : string :=
match n with
| O => ""
| S k => "0" ++ zeros k
end.

Definition pad_left_zero (width : nat) (s : string) : string :=
zeros (width - String.length s) ++ s.

(** [format(x, '.<digits>f')]. *)
Definition format_fixed (digits : nat) (x : Q) : string :=
let scale := (10 ^ Z.of_nat digits)%Z in
let n := round_half_even (Qabs x * inject_Z scale) in
let whole := str_int (n / scale) in
let body :=
  match digits with
  | O => whole
  | S _ => whole ++ "." ++ pad_left_zero digits (str_int (n mod scale))
  end in
if Qltb x 0 then "-" ++ body else body.

(** [format(x, '.<digits>%')]: the value times 100, fixed, then a percent
    sign. *)
Definition format_percent (digits : nat) (x : Q) : string :=
format_fixed digits (x * 100) ++ "%".

(** [needle in hay]. *)
Definition contains (needle hay : string) : Prop :=
exists before after, hay = before ++ needle ++ after.

Example format_percent_whitespace : format_percent 1 0.912 = "91.2%".
Proof. reflexivity. Qed.

Example format_percent_threshold : format_percent 0 0.85 = "85%".
Proof. reflexivity. Qed.

Example format_fixed_score : format_fixed 1 (1234567 # 100000) = "12.3".
Proof. reflexivity. Qed.

Example format_fixed_tie : format_fixed 2 (-(1 # 8)) = "-0.12".
Proof. reflexivity. Qed.

(** Formatting depends on the value of a rational, not on the fraction
    that represents it. *)
Lemma round_half_even_comp (x y : Q) :
  (x == y)%Q -> round_half_even x = round_half_even y.
Proof.
  intro H. unfold round_half_even.
  rewrite (Qfloor_comp x y H).
  assert (Hd : (x - inject_Z (Qfloor y) == y - inject_Z (Qfloor y))%Q)
    by (rewrite H; reflexivity).
  rewrite (Qltb_comp _ 0.5 _ 0.5 Hd (Qeq_refl _)).
  rewrite (Qltb_comp 0.5 _ 0.5 _ (Qeq_refl _) Hd).
  reflexivity.
Qed.

Lemma format_fixed_comp (digits : nat) (x y : Q) :
  (x == y)%Q -> format_fixed digits x = format_fixed digits y.
Proof.
  intro H. unfold format_fixed.
  assert (Hs : (Qabs x * inject_Z (10 ^ Z.of_nat digits)
                == Qabs y * inject_Z (10 ^ Z.of_nat digits))%Q)
    by (rewrite H; reflexivity).
  rewrite (round_half_even_comp _ _ Hs).
  rewrite (Qltb_comp x 0 y 0 H (Qeq_refl _)).
  reflexivity.
Qed.

Lemma format_percent_comp (digits : nat) (x y : Q) :
  (x == y)%Q -> format_percent digits x = format_percent digits y.
Proof.
  intro H. unfold format_percent.
  rewrite (format_fixed_comp digits (x * 100) (y * 100));
    [reflexivity | rewrite H; reflexivity].
Qed.

(** A decidable form of [contains]. *)
Fixpoint containsb (needle hay : string) : bool :=
if String.prefix needle hay then true
else match hay with
     | EmptyString => false
     | String _ rest => containsb needle rest
     end.

Lemma prefix_app (s t : string) : String.prefix s (s ++ t) = true.
Proof.
  induction s as [|c s IH]; simpl.
  - destruct t; reflexivity.
  - destruct (Ascii.ascii_dec c c) as [_ | Hc]; [exact IH | congruence].
Qed.

Lemma containsb_unfold (needle hay : string) :
  containsb needle hay
  = if String.prefix needle hay then true
    else match hay with
         | EmptyString => false
         | String _ rest => containsb needle rest
         end.
Proof. destruct hay; reflexivity. Qed.

Lemma contains_containsb (needle hay : string) :
  contains needle hay -> containsb needle hay = true.
Proof.
  intros (before & after & ->).
  induction before as [|c before IH].
  - simpl append. rewrite containsb_unfold, prefix_app. reflexivity.
  - simpl append. rewrite containsb_unfold.
    destruct (String.prefix needle (String c (before ++ needle ++ after)));
      [reflexivity | exact IH].
Qed.

End Fmt.

(** ** Images and the gates ([image_validator.py], [model_safety.py]) *)

Module Imaging.

(** One pixel of [np.array(pil_img.convert('RGB'))]: (r, g, b), each a
    [uint8]; an OpenCV pixel is (b, g, r); an HSV pixel is (h, s, v) with
    h on OpenCV's 0..180 scale. *)
Definition rgb : Type := (Z * Z * Z)%type.
Definition bgr : Type := (Z * Z * Z)%type.
Definition hsv : Type := (Z * Z * Z)%type.

(** An image is its list of rows: the array has shape
    (height, width, 3). *)
Definition pil_image : Type := list (list rgb).
Definition cv_image : Type := list (list bgr).

(** [pil_img.size], as (width, height). *)
Definition pil_size (img : pil_image) : Z * Z :=
(Z.of_nat (List.length (hd [] img)), Z.of_nat (List.length img)).

Definition is_empty {A : Type} (a : list (list A)) : bool :=
match a with
| [] => true
| [] :: _ => true
| _ => false
end.

(** [cv2.cvtColor(src, code)]: a per-pixel conversion; OpenCV asserts that
    the source is not empty. *)
Definition cvtColor {A B : Type} (code : A -> B) (src : list (list A))
  : outcome (list (list B)) :=
if is_empty src
then Raise (Exn "cv2.error"
              "(-215:Assertion failed) !_src.empty() in function 'cvtColor'")
else Return (map (map code) src).

Definition COLOR_RGB2BGR (p : rgb) : bgr :=
let '(r, g, b) := p in (b, g, r).

Definition load_image_opencv (pil_img : pil_image) : outcome cv_image :=
cvtColor COLOR_RGB2BGR pil_img.

(** The number of elements of a mask that are set ([np.sum] of a boolean
    array). *)
Definition count_true {A : Type} (mask : A -> bool) (a : list (list A)) : Z :=
Z.of_nat (List.length (filter mask (List.concat a))).

(** [a.size] of a two-dimensional array. *)
Definition array_size {A : Type} (a : list (list A)) : Z :=
Z.of_nat (List.length (List.concat a)).

(** [a.shape[0] * a.shape[1]]. *)
Definition shape_product {A : Type} (a : list (list A)) : Z :=
(Z.of_nat (List.length a) * Z.of_nat (List.length (hd [] a)))%Z.

(** A solid image of one colour. *)
Definition solid (width height : nat) (colour : rgb) : pil_image :=
repeat (repeat colour width) height.

(** OpenCV itself is not part of the repository.  Where a concrete
    conversion is needed the formulas of its documentation for 8-bit images
    are used, rounded to the nearest integer:
    Y = 0.299 R + 0.587 G + 0.114 B, and for HSV
    V = max, S = 255 (V - min) / V, H = 60 (G - B) / (V - min) (+120, +240
    by the channel of the maximum), halved to fit 0..180. *)
Definition opencv_BGR2GRAY (p : bgr) : Z :=
let '(b, g, r) := p in
((299 * r + 587 * g + 114 * b + 500) / 1000)%Z.

Definition round_div (a b : Z) : Z := ((2 * a + b) / (2 * b))%Z.

Definition opencv_BGR2HSV (p : bgr) : hsv :=
let '(b, g, r) := p in
let v := Z.max r (Z.max g b) in
let d := (v - Z.min r (Z.min g b))%Z in
let s := if (v =? 0)%Z then 0%Z else round_div (255 * d) v in
let num :=
  if (d =? 0)%Z then 0%Z
  else if (v =? r)%Z then (60 * (g - b))%Z
  else if (v =? g)%Z then (120 * d + 60 * (b - r))%Z
  else (240 * d + 60 * (r - g))%Z in
let num := if (num <? 0)%Z then (num + 360 * d)%Z else num in
let h := if (d =? 0)%Z then 0%Z else round_div num (2 * d) in
let h := if (h >=? 180)%Z then (h - 180)%Z else h in
(h, s, v).

(** [cv2.Laplacian(gray, cv2.CV_64F).var()] after OpenCV's documentation:
    the 3 by 3 aperture (0 1 0 / 1 -4 1 / 0 1 0) with the default border,
    which reflects without repeating the edge, then the population
    variance. *)
Definition reflect101 (n i : Z) : Z :=
if (n <=? 1)%Z then 0%Z
else if (i <? 0)%Z then (- i)%Z
else if (i >=? n)%Z then (2 * n - 2 - i)%Z
else i.

Definition pixel_at (a : list (list Z)) (i j : Z) : Z :=
let rows := Z.of_nat (List.length a) in
let cols := Z.of_nat (List.length (hd [] a)) in
nth (Z.to_nat (reflect101 cols j)) (nth (Z.to_nat (reflect101 rows i)) a [])
  0%Z.

Definition indices (n : nat) : list Z := map Z.of_nat (seq 0 n).

Definition laplacian (a : list (list Z)) : list (list Z) :=
map (fun i =>
       map (fun j =>
              (pixel_at a (i - 1) j + pixel_at a (i + 1) j
               + pixel_at a i (j - 1) + pixel_at a i (j + 1)
               - 4 * pixel_at a i j)%Z)
         (indices (List.length (hd [] a))))
  (indices (List.length a)).

Definition variance (l : list Z) : Q :=
let n := inject_Z (Z.of_nat (List.length l)) in
let mean := (inject_Z (fold_left Z.add l 0%Z) / n)%Q in
let mean_sq :=
  (inject_Z (fold_left Z.add (map (fun x => (x * x)%Z) l) 0%Z) / n)%Q in
(mean_sq - mean * mean)%Q.

Definition opencv_Laplacian_var (gray : list (list Z)) : Q :=
variance (List.concat (laplacian gray)).

Example laplacian_of_flat_image :
  (opencv_Laplacian_var [[7; 7; 7]; [7; 7; 7]]%Z == 0)%Q.
Proof. reflexivity. Qed.

Example laplacian_of_a_dot :
  laplacian [[0; 0; 0]; [0; 9; 0]; [0; 0; 0]]%Z
  = [[0; 18; 0]; [18; -36; 18]; [0; 18; 0]]%Z.
Proof. reflexivity. Qed.

Example gray_of_white : opencv_BGR2GRAY (255, 255, 255)%Z = 255%Z.
Proof. reflexivity. Qed.

Example hsv_of_pure_green : opencv_BGR2HSV (0, 255, 0)%Z = (60, 255, 255)%Z.
Proof. reflexivity. Qed.

Example hsv_of_pure_blue : opencv_BGR2HSV (255, 0, 0)%Z = (120, 255, 255)%Z.
Proof. reflexivity. Qed.

Lemma solid_not_empty (width height : nat) (colour : rgb) :
  (0 < width)%nat -> (0 < height)%nat ->
  is_empty (solid width height colour) = false.
Proof.
  intros Hw Hh. destruct width, height; try lia. reflexivity.
Qed.

Lemma pil_size_solid (width height : nat) (colour : rgb) :
  (0 < height)%nat ->
  pil_size (solid width height colour) = (Z.of_nat width, Z.of_nat height).
Proof.
  intro Hh. unfold pil_size, solid. rewrite repeat_length.
  destruct height; [lia|]. simpl hd. rewrite repeat_length. reflexivity.
Qed.

Lemma map_map_repeat {A B : Type} (f : A -> B) (x : A) (w h : nat) :
  map (map f) (repeat (repeat x w) h) = repeat (repeat (f x) w) h.
Proof. rewrite map_repeat, map_repeat. reflexivity. Qed.

Lemma concat_repeat_repeat {A : Type} (x : A) (w h : nat) :
  List.concat (repeat (repeat x w) h) = repeat x (h * w).
Proof.
  induction h as [|h IH]; [reflexivity|].
  simpl. rewrite IH, repeat_app. reflexivity.
Qed.

Lemma filter_repeat_true {A : Type} (p : A -> bool) (x : A) (n : nat) :
  p x = true -> filter p (repeat x n) = repeat x n.
Proof.
  intro H. induction n as [|n IH]; [reflexivity|].
  simpl. rewrite H, IH. reflexivity.
Qed.

Lemma count_true_solid {A : Type} (p : A -> bool) (x : A) (w h : nat) :
  p x = true -> count_true p (repeat (repeat x w) h) = Z.of_nat (h * w).
Proof.
  intro H. unfold count_true.
  rewrite concat_repeat_repeat, (filter_repeat_true p x _ H), repeat_length.
  reflexivity.
Qed.

Lemma array_size_solid {A : Type} (x : A) (w h : nat) :
  array_size (repeat (repeat x w) h) = Z.of_nat (h * w).
Proof.
  unfold array_size. rewrite concat_repeat_repeat, repeat_length.
  reflexivity.
Qed.

End Imaging.

Import Imaging.

Module Gates.

Local Open Scope string_scope.
Local Open Scope Q_scope.
Local Open Scope py_scope.

Section WithOpenCV.

(** The OpenCV calls of the gates, the reference corpus read when the
    module is imported, and [repr] of a float. *)
Variable COLOR_BGR2GRAY : bgr -> Z.
Variable COLOR_BGR2HSV : bgr -> hsv.
Variable Laplacian_var : list (list Z) -> Q.
Variable calcHist_normalized : list (list hsv) -> list Q.
Variable compareHist_CORREL : list Q -> list Q -> Q.
Variable REFERENCE_HISTOGRAMS : option (list (list Q)).
Variable float_repr : Q -> string.

(** Each gate returns [(is_rejected, reason_string)]. *)
Definition gate_result : Type := (bool * option string)%type.

Definition whitespace_ratio (cv_img : cv_image) (white_pixel_val : Z)
  : outcome Q :=
gray <- cvtColor COLOR_BGR2GRAY cv_img ;;
let white_pixels := count_true (fun g => (g >? white_pixel_val)%Z) gray in
let total_pixels := array_size gray in
Return (inject_Z white_pixels / inject_Z total_pixels).

Definition check_whitespace (cv_img : cv_image) (threshold : Q)
  (white_pixel_val : Z) : outcome gate_result :=
ratio <- whitespace_ratio cv_img white_pixel_val ;;
if Qltb threshold ratio
then Return (true, Some ("Too much whitespace ("
                         ++ Fmt.format_percent 1 ratio ++ " > "
                         ++ Fmt.format_percent 0 threshold ++ ")"))
else Return (false, None).

Definition check_blur (cv_img : cv_image) (threshold : Q)
  : outcome gate_result :=
gray <- cvtColor COLOR_BGR2GRAY cv_img ;;
let variance := Laplacian_var gray in
if Qltb variance threshold
then Return (true, Some ("Image is blurry (Score: "
                         ++ Fmt.format_fixed 1 variance ++ " < "
                         ++ float_repr threshold ++ ")"))
else Return (false, None).

Definition compute_histogram (cv_img : cv_image) : outcome (list Q) :=
hsv_img <- cvtColor COLOR_BGR2HSV cv_img ;;
Return (calcHist_normalized hsv_img).

(** The loop of [check_histogram_similarity]: the running maximum of the
    scores, starting from -1.0. *)
Definition max_similarity (target_hist : list Q) (refs : list (list Q)) : Q :=
fold_left
  (fun max_score ref_hist =>
     let score := compareHist_CORREL target_hist ref_hist in
     if Qltb max_score score then score else max_score)
  refs (-1).

Definition check_histogram_similarity (cv_img : cv_image) (threshold : Q)
  : outcome gate_result :=
match REFERENCE_HISTOGRAMS with
| None => Return (false, None)
| Some [] => Return (false, None)
| Some refs =>
    target_hist <- compute_histogram cv_img ;;
    let max_score := max_similarity target_hist refs in
    if Qltb max_score threshold
    then Return (true,
                 Some ("Image content does not match training data (Similarity: "
                       ++ Fmt.format_fixed 2 max_score ++ " < "
                       ++ float_repr threshold ++ ")"))
    else Return (false, None)
end.

(** The masks of [check_stain_profile], per pixel. *)
Definition valid_color_mask (p : hsv) : bool :=
let '(h, s, v) := p in (s >? 30)%Z && (v <? 235)%Z.

Definition mask_hema (p : hsv) : bool :=
let '(h, s, v) := p in (h >? 100)%Z && (h <? 170)%Z.

Definition mask_dab (p : hsv) : bool :=
let '(h, s, v) := p in (h <? 25)%Z || (h >? 160)%Z.

Definition stain_pixels (p : hsv) : bool :=
valid_color_mask p && (mask_hema p || mask_dab p).

Definition stain_coverage (cv_img : cv_image) : outcome Q :=
hsv_img <- cvtColor COLOR_BGR2HSV cv_img ;;
let count_stain := count_true stain_pixels hsv_img in
let total_pixels := shape_product hsv_img in
Return (inject_Z count_stain / inject_Z total_pixels).

Definition check_stain_profile (cv_img : cv_image) (min_stain_coverage : Q)
  : outcome gate_result :=
ratio <- stain_coverage cv_img ;;
if Qltb ratio min_stain_coverage
then Return (true, Some ("No stain detected (Coverage: "
                         ++ Fmt.format_percent 1 ratio ++ " < "
                         ++ Fmt.format_percent 0 min_stain_coverage ++ ")"))
else Return (false, None).

(** *** Properties of the gates *)

Lemma cvtColor_nonempty {A B : Type} (code : A -> B) (src : list (list A)) :
  is_empty src = false -> cvtColor code src = Return (map (map code) src).
Proof. intro H. unfold cvtColor. rewrite H. reflexivity. Qed.

Lemma is_empty_map {A B : Type} (f : A -> B) (a : list (list A)) :
  is_empty (map (map f) a) = is_empty a.
Proof. destruct a as [|[|x r] a]; reflexivity. Qed.

Lemma filter_none {A : Type} (mask : A -> bool) (l : list A) :
  (forall x, In x l -> mask x = false) -> filter mask l = [].
Proof.
  induction l as [|x l IH]; intro H; [reflexivity|].
  simpl. rewrite (H x (or_introl eq_refl)).
  apply IH. intros y Hy. apply H. right. exact Hy.
Qed.

Lemma count_true_none {A : Type} (mask : A -> bool) (a : list (list A)) :
  (forall row x, In row a -> In x row -> mask x = false) ->
  count_true mask a = 0%Z.
Proof.
  intro H. unfold count_true. rewrite filter_none; [reflexivity|].
  intros x Hx. apply in_concat in Hx. destruct Hx as (row & Hrow & Hin).
  exact (H row x Hrow Hin).
Qed.

(** On a non-empty image no gate raises. *)
Lemma check_whitespace_returns (cv_img : cv_image) (threshold : Q) (w : Z) :
  is_empty cv_img = false ->
  exists is_ws why, check_whitespace cv_img threshold w = Return (is_ws, why).
Proof.
  intro Hne. unfold check_whitespace, whitespace_ratio.
  rewrite (cvtColor_nonempty _ _ Hne). simpl.
  match goal with |- context [Qltb ?a ?b] => destruct (Qltb a b) end;
    eexists _, _; reflexivity.
Qed.

Lemma check_blur_returns (cv_img : cv_image) (threshold : Q) :
  is_empty cv_img = false ->
  exists is_blur why, check_blur cv_img threshold = Return (is_blur, why).
Proof.
  intro Hne. unfold check_blur.
  rewrite (cvtColor_nonempty _ _ Hne). simpl.
  match goal with |- context [Qltb ?a ?b] => destruct (Qltb a b) end;
    eexists _, _; reflexivity.
Qed.

Lemma check_stain_profile_returns (cv_img : cv_image) (threshold : Q) :
  is_empty cv_img = false ->
  exists is_bad why,
    check_stain_profile cv_img threshold = Return (is_bad, why).
Proof.
  intro Hne. unfold check_stain_profile, stain_coverage.
  rewrite (cvtColor_nonempty _ _ Hne). simpl.
  match goal with |- context [Qltb ?a ?b] => destruct (Qltb a b) end;
    eexists _, _; reflexivity.
Qed.

Lemma check_histogram_similarity_returns (cv_img : cv_image) (threshold : Q) :
  is_empty cv_img = false ->
  exists is_ood why,
    check_histogram_similarity cv_img threshold = Return (is_ood, why).
Proof.
  intro Hne. unfold check_histogram_similarity, compute_histogram.
  destruct REFERENCE_HISTOGRAMS as [[|ref refs]|];
    try (eexists _, _; reflexivity).
  rewrite (cvtColor_nonempty _ _ Hne). simpl bind.
  match goal with |- context [Qltb ?a ?b] => destruct (Qltb a b) end;
    eexists _, _; reflexivity.
Qed.

Example percent_of_one : Fmt.format_percent 1 1 = "100.0%".
Proof. reflexivity. Qed.

(** An image of white pixels only: the whitespace ratio is 1 and the gate
    rejects under every threshold below 1. *)
Lemma check_whitespace_white (w h : nat) (threshold : Q) :
  (0 < w)%nat -> (0 < h)%nat ->
  (COLOR_BGR2GRAY (255, 255, 255)%Z > 220)%Z ->
  threshold < 1 ->
  check_whitespace (repeat (repeat (255, 255, 255)%Z w) h) threshold 220
  = Return (true, Some ("Too much whitespace (" ++ "100.0%" ++ " > "
                        ++ Fmt.format_percent 0 threshold ++ ")")).
Proof.
  intros Hw Hh Hgray Hthr.
  unfold check_whitespace, whitespace_ratio.
  rewrite cvtColor_nonempty by (destruct w, h; try lia; reflexivity).
  rewrite map_map_repeat. simpl bind.
  rewrite count_true_solid by (apply Z.gtb_lt; lia).
  rewrite array_size_solid.
  assert (Hone : inject_Z (Z.of_nat (h * w)) / inject_Z (Z.of_nat (h * w))
                 == 1).
  { apply Qmult_inv_r. unfold Qeq. simpl. nia. }
  rewrite (Qltb_comp _ _ threshold 1 (Qeq_refl _) Hone).
  apply Qltb_true in Hthr. rewrite Hthr.
  rewrite (Fmt.format_percent_comp 1 _ 1 Hone), percent_of_one.
  reflexivity.
Qed.

Definition hue (p : hsv) : Z := let '(h, _, _) := p in h.

Lemma stain_pixels_off_band (p : hsv) :
  (25 < hue p < 100)%Z -> stain_pixels p = false.
Proof.
  destruct p as [[h s] v]. simpl. intros [Hlo Hhi].
  unfold stain_pixels, mask_hema, mask_dab.
  assert (E1 : (h >? 100)%Z = false) by (rewrite Z.gtb_ltb; apply Z.ltb_ge; lia).
  assert (E2 : (h <? 25)%Z = false) by (apply Z.ltb_ge; lia).
  assert (E3 : (h >? 160)%Z = false) by (rewrite Z.gtb_ltb; apply Z.ltb_ge; lia).
  rewrite E1, E2, E3. simpl. apply Bool.andb_false_r.
Qed.

(** C7. When every pixel's hue lies strictly between 25 and 100, outside
    both stain bands, the stain coverage is 0 whatever the saturation and
    value are, and the stain gate rejects for every positive
    [min_stain_coverage]. *)
Theorem stain_gate_rejects_off_band_hues (cv_img : cv_image)
  (min_stain_coverage : Q) :
  is_empty cv_img = false ->
  (forall row p, In row cv_img -> In p row ->
                 (25 < hue (COLOR_BGR2HSV p) < 100)%Z) ->
  exists ratio,
    stain_coverage cv_img = Return ratio
    /\ ratio == 0
    /\ (0 < min_stain_coverage ->
        exists why,
          check_stain_profile cv_img min_stain_coverage
          = Return (true, Some why)).
Proof.
  intros Hne Hhue.
  assert (Hcount : count_true stain_pixels (map (map COLOR_BGR2HSV) cv_img)
                   = 0%Z).
  { apply count_true_none. intros row x Hrow Hx.
    apply in_map_iff in Hrow. destruct Hrow as (row0 & <- & Hrow0).
    apply in_map_iff in Hx. destruct Hx as (p & <- & Hp).
    apply stain_pixels_off_band. exact (Hhue row0 p Hrow0 Hp). }
  eexists. split.
  - unfold stain_coverage. rewrite (cvtColor_nonempty _ _ Hne). simpl.
    rewrite Hcount. reflexivity.
  - split.
    + unfold Qdiv. ring.
    + intro Hpos. unfold check_stain_profile, stain_coverage.
      rewrite (cvtColor_nonempty _ _ Hne). simpl. rewrite Hcount.
      match goal with
      | |- context [Qltb ?r min_stain_coverage] =>
          assert (E : Qltb r min_stain_coverage = true)
      end.
      { apply Qltb_true. unfold Qdiv. rewrite Qmult_0_l. exact Hpos. }
      rewrite E. eexists. reflexivity.
Qed.

(** The maximum of a non-empty list of scores. *)
Definition maximum (first : Q) (others : list Q) : Q :=
fold_left Qmax others first.

Lemma fold_Qmax_lt (l : list Q) (a t : Q) :
  fold_left Qmax l a < t <-> a < t /\ Forall (fun s => s < t) l.
Proof.
  revert a. induction l as [|x l IH]; intro a; simpl.
  - split; [intro H; split; [exact H | constructor] | intros [H _]; exact H].
  - rewrite IH, Q.max_lub_lt_iff. split.
    + intros [[Ha Hx] Hl]. split; [exact Ha | constructor; assumption].
    + intros [Ha Hl]. inversion Hl; subst. repeat split; assumption.
Qed.

Lemma max_similarity_lt (target : list Q) (refs : list (list Q)) (t : Q) :
  max_similarity target refs < t
  <-> -1 < t /\ Forall (fun s => s < t) (map (compareHist_CORREL target) refs).
Proof.
  unfold max_similarity. generalize (-1). induction refs as [|r refs IH];
    intro a; simpl.
  - split; [intro H; split; [exact H | constructor] | intros [H _]; exact H].
  - rewrite IH. destruct (Qltb a (compareHist_CORREL target r)) eqn:E.
    + apply Qltb_true in E. split.
      * intros [Hs Hl]. split; [lra | constructor; assumption].
      * intros [Ha Hl]. inversion Hl; subst. split; assumption.
    + apply Qltb_false in E. split.
      * intros [Ha Hl]. split; [exact Ha | constructor; [lra | exact Hl]].
      * intros [Ha Hl]. inversion Hl; subst. split; assumption.
Qed.


End WithOpenCV.

End Gates.

(** ** The validator ([MedicalImageValidator]) *)

Module Validator.

Import Gates.

Local Open Scope string_scope.
Local Open Scope Q_scope.

(** An entry of the [checks] dict: [{'passed': .., 'value': ..}] for the
    dimensions, [{'passed': .., 'reason': ..}] for the other gates. *)
Inductive check_entry : Type :=
| CheckValue (passed : bool) (value : string)
| CheckReason (passed : bool) (reason : option string).

Definition passed (e : check_entry) : bool :=
match e with
| CheckValue p _ => p
| CheckReason p _ => p
end.

Definition checks_dict : Type := list (string * check_entry).

(** The dict returned by [validate]. *)
Record report : Type := Report {
  is_valid : bool;
  status : string;
  reason : option string;
  confidence : Q;
  checks : checks_dict
}.

Definition DEFAULT_CONFIG : list (string * Q) :=
[ ("whitespace_thresh", 0.95);
  ("blur_thresh", 20);
  ("stain_thresh", 0.02);
  ("hist_thresh", 0.5);
  ("entropy_thresh", 2.5) ].

Definition MIN_WIDTH : Z := 100.
Definition MIN_HEIGHT : Z := 100.
Definition MAX_WIDTH : Z := 100000.
Definition MAX_HEIGHT : Z := 100000.

(** [MedicalImageValidator.__init__]: [self.config]. *)
Definition init_config (config : list (string * Q)) : list (string * Q) :=
dict_merge DEFAULT_CONFIG config.

(** The body of a [try] block mutates [checks] as it goes and the [except]
    clause reads it, so the dict is threaded as state and survives a raise.
    [evaluated] is a ghost log, absent from the code: the names of the
    gates whose evaluation has started, in order. *)
Record frame : Type := Frame {
  frame_checks : checks_dict;
  evaluated : list string
}.

Definition try_body (A : Type) : Type := frame -> outcome A * frame.

Definition ret {A : Type} (a : A) : try_body A :=
fun s => (Return a, s).

Definition call {A : Type} (m : outcome A) : try_body A :=
fun s => (m, s).

Definition and_then {A B : Type} (m : try_body A) (k : A -> try_body B)
  : try_body B :=
fun s =>
  match m s with
  | (Return a, s') => k a s'
  | (Raise e, s') => (Raise e, s')
  end.

Definition set_check (name : string) (e : check_entry) : try_body unit :=
fun s => (Return tt, Frame (dict_set (frame_checks s) name e) (evaluated s)).

Definition begin_gate (name : string) : try_body unit :=
fun s => (Return tt, Frame (frame_checks s) (evaluated s ++ [name])%list).

(** [return {'is_valid': False, 'status': 'rejected', 'reason': ..,
    'confidence': 0.0, 'checks': checks}]. *)
Definition rejected (why : option string) : try_body report :=
fun s => (Return (Report false "rejected" why 0 (frame_checks s)), s).

Definition accepted : try_body report :=
fun s => (Return (Report true "valid" None 1 (frame_checks s)), s).

Declare Scope try_scope.
Notation "x <~ m ;; k" := (and_then m (fun x => k))
  (at level 61, m at next level, right associativity) : try_scope.
Local Open Scope try_scope.

(** The order in which [validate] is written. *)
Definition gate_order : list string :=
[ "dimensions"; "whitespace"; "blur"; "stain_profile";
  "histogram_similarity" ].

Definition size_text (width height : Z) : string :=
Fmt.str_int width ++ "x" ++ Fmt.str_int height.

Section WithOpenCV.

Variable COLOR_BGR2GRAY : bgr -> Z.
Variable COLOR_BGR2HSV : bgr -> hsv.
Variable Laplacian_var : list (list Z) -> Q.
Variable calcHist_normalized : list (list hsv) -> list Q.
Variable compareHist_CORREL : list Q -> list Q -> Q.
Variable REFERENCE_HISTOGRAMS : option (list (list Q)).
Variable float_repr : Q -> string.

(** Gates 2 to 5; [validate] and [validate_pil_image] carry the same
    text. *)
Definition gates_after_dimensions (cfg : list (string * Q))
  (cv_img : cv_image) : try_body report :=
_ <~ begin_gate "whitespace" ;;
threshold <~ call (dict_index cfg "whitespace_thresh") ;;
ws <~ call (check_whitespace COLOR_BGR2GRAY cv_img threshold 220) ;;
let '(is_ws, ws_reason) := ws in
_ <~ set_check "whitespace" (CheckReason (negb is_ws) ws_reason) ;;
if is_ws then rejected ws_reason else
_ <~ begin_gate "blur" ;;
threshold <~ call (dict_index cfg "blur_thresh") ;;
bl <~ call (check_blur COLOR_BGR2GRAY Laplacian_var float_repr
              cv_img threshold) ;;
let '(is_blur, blur_reason) := bl in
_ <~ set_check "blur" (CheckReason (negb is_blur) blur_reason) ;;
if is_blur then rejected blur_reason else
_ <~ begin_gate "stain_profile" ;;
threshold <~ call (dict_index cfg "stain_thresh") ;;
st <~ call (check_stain_profile COLOR_BGR2HSV cv_img threshold) ;;
let '(is_bad_stain, stain_reason) := st in
_ <~ set_check "stain_profile" (CheckReason (negb is_bad_stain) stain_reason) ;;
if is_bad_stain then rejected stain_reason else
_ <~ begin_gate "histogram_similarity" ;;
threshold <~ call (dict_index cfg "hist_thresh") ;;
ood <~ call (check_histogram_similarity COLOR_BGR2HSV calcHist_normalized
               compareHist_CORREL REFERENCE_HISTOGRAMS float_repr
               cv_img threshold) ;;
let '(is_ood, ood_reason) := ood in
_ <~ set_check "histogram_similarity" (CheckReason (negb is_ood) ood_reason) ;;
if is_ood then rejected ood_reason else
accepted.

(** The [try] block of [validate]; [opened] is what
    [Image.open(image_path).convert('RGB')] gives. *)
Definition validate_try (cfg : list (string * Q))
  (opened : outcome pil_image) : try_body report :=
pil_img <~ call opened ;;
cv_img <~ call (load_image_opencv pil_img) ;;
let '(width, height) := pil_size pil_img in
_ <~ begin_gate "dimensions" ;;
if (width <? MIN_WIDTH)%Z || (height <? MIN_HEIGHT)%Z then
  rejected (Some ("Image too small (" ++ size_text width height
                  ++ "). Minimum: " ++ size_text MIN_WIDTH MIN_HEIGHT))
else if (width >? MAX_WIDTH)%Z || (height >? MAX_HEIGHT)%Z then
  rejected (Some ("Image too large (" ++ size_text width height
                  ++ "). Maximum: " ++ size_text MAX_WIDTH MAX_HEIGHT))
else
_ <~ set_check "dimensions" (CheckValue true (size_text width height)) ;;
gates_after_dimensions cfg cv_img.

(** The [try] block of [validate_pil_image]. *)
Definition validate_pil_image_try (cfg : list (string * Q))
  (pil_img : pil_image) : try_body report :=
cv_img <~ call (load_image_opencv pil_img) ;;
let '(width, height) := pil_size pil_img in
_ <~ begin_gate "dimensions" ;;
if (width <? MIN_WIDTH)%Z || (height <? MIN_HEIGHT)%Z then
  rejected (Some ("Image too small (" ++ size_text width height ++ ")"))
else
_ <~ set_check "dimensions" (CheckValue true (size_text width height)) ;;
gates_after_dimensions cfg cv_img.

(** [try: ... except Exception as e: return {...}] with [checks = {}] at
    entry; the result comes with the ghost log. *)
Definition with_except (body : try_body report) : report * list string :=
match body (Frame [] []) with
| (Return r, s) => (r, evaluated s)
| (Raise e, s) =>
    (Report false "rejected"
       (Some ("Failed to process image: " ++ exn_msg e)) 0 (frame_checks s),
     evaluated s)
end.

Definition validate_traced (self_config : list (string * Q))
  (opened : outcome pil_image) (config : list (string * Q))
  : report * list string :=
let cfg := dict_merge self_config config in
with_except (validate_try cfg opened).

Definition validate (self_config : list (string * Q))
  (opened : outcome pil_image) (config : list (string * Q)) : report :=
fst (validate_traced self_config opened config).

Definition validate_pil_image (self_config : list (string * Q))
  (pil_img : pil_image) (config : list (string * Q)) : report :=
let cfg := dict_merge self_config config in
fst (with_except (validate_pil_image_try cfg pil_img)).

(** The part of the upload view ([PredictHER2View.post]) that sequences the
    validator and the predictor: a rejected image is answered with a 400
    and the predictor is not called.  [predict] is what
    [predictor.predict(tmp_path)] gives when it is called; the ghost log is
    extended with "predict" at the call. *)
Inductive view_step (P : Type) : Type :=
| BadRequest (error : string) (validation_status : string)
    (validation_confidence : Q) (validation_checks : checks_dict)
| Predicted (result : outcome P).
Arguments BadRequest {P}.
Arguments Predicted {P}.

Definition validate_then_predict {P : Type}
  (opened : outcome pil_image) (predict : outcome P)
  : view_step P * list string :=
let '(validation_result, log) :=
  validate_traced (init_config []) opened [] in
if negb (is_valid validation_result) then
  let error_msg :=
    match reason validation_result with
    | None | Some "" => "Invalid medical image"
    | Some r => r
    end in
  (BadRequest error_msg (status validation_result)
     (confidence validation_result) (checks validation_result), log)
else (Predicted predict, (log ++ ["predict"])%list).

Definition validate_log (self_config : list (string * Q))
  (opened : outcome pil_image) (config : list (string * Q)) : list string :=
snd (validate_traced self_config opened config).

(** *** Properties of the validator *)

Lemma dict_get_merge {V : Type} (base overrides : list (string * V))
  (key : string) :
  dict_get (dict_merge base overrides) key
  = match dict_get overrides key with
    | Some v => Some v
    | None => dict_get base key
    end.
Proof.
  unfold dict_merge. induction overrides as [|[k v] o IH]; simpl.
  - destruct (dict_get base key); reflexivity.
  - destruct (String.eqb k key); [reflexivity | exact IH].
Qed.

Lemma merged_config_has (overrides config : list (string * Q))
  (key : string) :
  In key (dict_keys DEFAULT_CONFIG) ->
  exists v, dict_get (dict_merge (init_config overrides) config) key = Some v.
Proof.
  intro Hin. rewrite dict_get_merge.
  destruct (dict_get config key); [eexists; reflexivity|].
  unfold init_config. rewrite dict_get_merge.
  destruct (dict_get overrides key); [eexists; reflexivity|].
  simpl in Hin.
  repeat (destruct Hin as [<- | Hin]; [eexists; reflexivity|]).
  contradiction.
Qed.

Lemma load_image_opencv_returns (pil_img : pil_image) :
  is_empty pil_img = false ->
  exists cv_img,
    load_image_opencv pil_img = Return cv_img /\ is_empty cv_img = false.
Proof.
  intro Hne. exists (map (map COLOR_RGB2BGR) pil_img). split.
  - apply cvtColor_nonempty. exact Hne.
  - rewrite is_empty_map. exact Hne.
Qed.

Lemma load_image_opencv_raises (pil_img : pil_image) :
  is_empty pil_img = true ->
  exists e, load_image_opencv pil_img = Raise e.
Proof.
  intro He. unfold load_image_opencv, cvtColor. rewrite He.
  eexists. reflexivity.
Qed.

(** Gates 2 to 5 on a non-empty image, spelled out: the four gate
    results, and where the run stops. *)
Lemma gates_after_dimensions_run (cfg : list (string * Q))
  (cv_img : cv_image) (c0 : checks_dict) (l0 : list string)
  (t1 t2 t3 t4 : Q) :
  dict_get cfg "whitespace_thresh" = Some t1 ->
  dict_get cfg "blur_thresh" = Some t2 ->
  dict_get cfg "stain_thresh" = Some t3 ->
  dict_get cfg "hist_thresh" = Some t4 ->
  is_empty cv_img = false ->
  exists b1 r1 b2 r2 b3 r3 b4 r4,
    check_whitespace COLOR_BGR2GRAY cv_img t1 220 = Return (b1, r1)
    /\ check_blur COLOR_BGR2GRAY Laplacian_var float_repr cv_img t2
       = Return (b2, r2)
    /\ check_stain_profile COLOR_BGR2HSV cv_img t3 = Return (b3, r3)
    /\ check_histogram_similarity COLOR_BGR2HSV calcHist_normalized
         compareHist_CORREL REFERENCE_HISTOGRAMS float_repr cv_img t4
       = Return (b4, r4)
    /\ let c1 := dict_set c0 "whitespace" (CheckReason (negb b1) r1) in
       let c2 := dict_set c1 "blur" (CheckReason (negb b2) r2) in
       let c3 := dict_set c2 "stain_profile" (CheckReason (negb b3) r3) in
       let c4 :=
         dict_set c3 "histogram_similarity" (CheckReason (negb b4) r4) in
       let l1 := (l0 ++ ["whitespace"])%list in
       let l2 := (l1 ++ ["blur"])%list in
       let l3 := (l2 ++ ["stain_profile"])%list in
       let l4 := (l3 ++ ["histogram_similarity"])%list in
       gates_after_dimensions cfg cv_img (Frame c0 l0)
       = if b1 then (Return (Report false "rejected" r1 0 c1), Frame c1 l1)
         else if b2 then (Return (Report false "rejected" r2 0 c2), Frame c2 l2)
         else if b3 then (Return (Report false "rejected" r3 0 c3), Frame c3 l3)
         else if b4 then (Return (Report false "rejected" r4 0 c4), Frame c4 l4)
         else (Return (Report true "valid" None 1 c4), Frame c4 l4).
Proof.
  intros H1 H2 H3 H4 Hne.
  destruct (check_whitespace_returns COLOR_BGR2GRAY cv_img t1 220 Hne)
    as (b1 & r1 & E1).
  destruct (check_blur_returns COLOR_BGR2GRAY Laplacian_var float_repr
              cv_img t2 Hne) as (b2 & r2 & E2).
  destruct (check_stain_profile_returns COLOR_BGR2HSV cv_img t3 Hne)
    as (b3 & r3 & E3).
  destruct (check_histogram_similarity_returns COLOR_BGR2HSV
              calcHist_normalized compareHist_CORREL REFERENCE_HISTOGRAMS
              float_repr cv_img t4 Hne) as (b4 & r4 & E4).
  exists b1, r1, b2, r2, b3, r3, b4, r4.
  repeat (split; [assumption|]).
  unfold gates_after_dimensions, and_then, call, begin_gate, set_check,
    rejected, accepted, dict_index.
  rewrite H1, H2, H3, H4, E1, E2, E3, E4. simpl.
  destruct b1; [reflexivity|].
  destruct b2; [reflexivity|].
  destruct b3; [reflexivity|].
  destruct b4; reflexivity.
Qed.

(** [validate] on a decoded, non-empty image, spelled out. *)
Lemma validate_traced_run (overrides config : list (string * Q))
  (pil_img : pil_image) :
  is_empty pil_img = false ->
  exists cv_img t1 t2 t3 t4 b1 r1 b2 r2 b3 r3 b4 r4,
    load_image_opencv pil_img = Return cv_img
    /\ dict_get (dict_merge (init_config overrides) config)
         "whitespace_thresh" = Some t1
    /\ check_whitespace COLOR_BGR2GRAY cv_img t1 220 = Return (b1, r1)
    /\ check_blur COLOR_BGR2GRAY Laplacian_var float_repr cv_img t2
       = Return (b2, r2)
    /\ check_stain_profile COLOR_BGR2HSV cv_img t3 = Return (b3, r3)
    /\ check_histogram_similarity COLOR_BGR2HSV calcHist_normalized
         compareHist_CORREL REFERENCE_HISTOGRAMS float_repr cv_img t4
       = Return (b4, r4)
    /\ validate_traced (init_config overrides) (Return pil_img) config
       = let width := fst (pil_size pil_img) in
         let height := snd (pil_size pil_img) in
         let dim := ("dimensions", CheckValue true (size_text width height)) in
         if (width <? MIN_WIDTH)%Z || (height <? MIN_HEIGHT)%Z then
           (Report false "rejected"
              (Some ("Image too small (" ++ size_text width height
                     ++ "). Minimum: " ++ size_text MIN_WIDTH MIN_HEIGHT))
              0 [],
            ["dimensions"])
         else if (width >? MAX_WIDTH)%Z || (height >? MAX_HEIGHT)%Z then
           (Report false "rejected"
              (Some ("Image too large (" ++ size_text width height
                     ++ "). Maximum: " ++ size_text MAX_WIDTH MAX_HEIGHT))
              0 [],
            ["dimensions"])
         else if b1 then
           (Report false "rejected" r1 0
              [dim; ("whitespace", CheckReason false r1)],
            ["dimensions"; "whitespace"])
         else if b2 then
           (Report false "rejected" r2 0
              [dim; ("whitespace", CheckReason true r1);
               ("blur", CheckReason false r2)],
            ["dimensions"; "whitespace"; "blur"])
         else if b3 then
           (Report false "rejected" r3 0
              [dim; ("whitespace", CheckReason true r1);
               ("blur", CheckReason true r2);
               ("stain_profile", CheckReason false r3)],
            ["dimensions"; "whitespace"; "blur"; "stain_profile"])
         else if b4 then
           (Report false "rejected" r4 0
              [dim; ("whitespace", CheckReason true r1);
               ("blur", CheckReason true r2);
               ("stain_profile", CheckReason true r3);
               ("histogram_similarity", CheckReason false r4)],
            gate_order)
         else
           (Report true "valid" None 1
              [dim; ("whitespace", CheckReason true r1);
               ("blur", CheckReason true r2);
               ("stain_profile", CheckReason true r3);
               ("histogram_similarity", CheckReason true r4)],
            gate_order).
Proof.
  intro Hne.
  destruct (load_image_opencv_returns pil_img Hne) as (cv_img & Hload & Hcv).
  set (cfg := dict_merge (init_config overrides) config).
  destruct (merged_config_has overrides config "whitespace_thresh")
    as (t1 & H1); [simpl; tauto|].
  destruct (merged_config_has overrides config "blur_thresh")
    as (t2 & H2); [simpl; tauto|].
  destruct (merged_config_has overrides config "stain_thresh")
    as (t3 & H3); [simpl; tauto|].
  destruct (merged_config_has overrides config "hist_thresh")
    as (t4 & H4); [simpl; tauto|].
  fold cfg in H1, H2, H3, H4.
  destruct (gates_after_dimensions_run cfg cv_img
              [("dimensions",
                CheckValue true (size_text (fst (pil_size pil_img))
                                   (snd (pil_size pil_img))))]
              ["dimensions"] t1 t2 t3 t4 H1 H2 H3 H4 Hcv)
    as (b1 & r1 & b2 & r2 & b3 & r3 & b4 & r4 & E1 & E2 & E3 & E4 & Hrun).
  exists cv_img, t1, t2, t3, t4, b1, r1, b2, r2, b3, r3, b4, r4.
  repeat (split; [assumption|]).
  unfold validate_traced, with_except, validate_try, and_then, call.
  fold cfg. rewrite Hload.
  unfold pil_size in *. cbn [fst snd] in *.
  cbn [begin_gate evaluated frame_checks app].
  destruct ((Z.of_nat (List.length (hd [] pil_img)) <? MIN_WIDTH)%Z
            || (Z.of_nat (List.length pil_img) <? MIN_HEIGHT)%Z);
    [reflexivity|].
  destruct ((Z.of_nat (List.length (hd [] pil_img)) >? MAX_WIDTH)%Z
            || (Z.of_nat (List.length pil_img) >? MAX_HEIGHT)%Z);
    [reflexivity|].
  cbn [set_check evaluated frame_checks dict_set].
  cbv zeta in Hrun. rewrite Hrun.
  destruct b1; [reflexivity|].
  destruct b2; [reflexivity|].
  destruct b3; [reflexivity|].
  destruct b4; reflexivity.
Qed.

Ltac each_gate H :=
  simpl in H;
  repeat (destruct H as [<- | H]; [simpl; eauto|]);
  try contradiction.

Ltac shape n :=
  exists n; cbn [fst snd];
  split; [reflexivity|];
  split; [intros g Hg; each_gate Hg|];
  split; [intros g Hg; each_gate Hg|];
  split; [cbn [is_valid]; intro;
          first [ discriminate
                | split; [reflexivity | eexists; split; reflexivity] ]|];
  cbn [is_valid status checks reason]; intro;
  first [ discriminate | split; [reflexivity|] ].

(** The run of [validate] is a prefix of the gate order; the gates before
    the last one evaluated have passed, the gates after it have no entry,
    and a rejected report carries the failing gate's reason. *)
(** The run of [validate] on a decoded image, gate by gate: each gate is
    the function of that name, called on the converted image with the
    threshold that the merged configuration holds for it. *)
Lemma validate_cascade (overrides config : list (string * Q))
  (pil_img : pil_image) :
  is_empty pil_img = false ->
  let cfg := dict_merge (init_config overrides) config in
  exists cv_img t1 t2 t3 t4 b1 r1 b2 r2 b3 r3 b4 r4,
    load_image_opencv pil_img = Return cv_img
    /\ dict_get cfg "whitespace_thresh" = Some t1
    /\ dict_get cfg "blur_thresh" = Some t2
    /\ dict_get cfg "stain_thresh" = Some t3
    /\ dict_get cfg "hist_thresh" = Some t4
    /\ check_whitespace COLOR_BGR2GRAY cv_img t1 220 = Return (b1, r1)
    /\ check_blur COLOR_BGR2GRAY Laplacian_var float_repr cv_img t2
       = Return (b2, r2)
    /\ check_stain_profile COLOR_BGR2HSV cv_img t3 = Return (b3, r3)
    /\ check_histogram_similarity COLOR_BGR2HSV calcHist_normalized
         compareHist_CORREL REFERENCE_HISTOGRAMS float_repr cv_img t4
       = Return (b4, r4)
    /\ validate_traced (init_config overrides) (Return pil_img) config
       = let width := fst (pil_size pil_img) in
         let height := snd (pil_size pil_img) in
         let dim := ("dimensions", CheckValue true (size_text width height)) in
         if (width <? MIN_WIDTH)%Z || (height <? MIN_HEIGHT)%Z then
           (Report false "rejected"
              (Some ("Image too small (" ++ size_text width height
                     ++ "). Minimum: " ++ size_text MIN_WIDTH MIN_HEIGHT))
              0 [],
            ["dimensions"])
         else if (width >? MAX_WIDTH)%Z || (height >? MAX_HEIGHT)%Z then
           (Report false "rejected"
              (Some ("Image too large (" ++ size_text width height
                     ++ "). Maximum: " ++ size_text MAX_WIDTH MAX_HEIGHT))
              0 [],
            ["dimensions"])
         else if b1 then
           (Report false "rejected" r1 0
              [dim; ("whitespace", CheckReason false r1)],
            ["dimensions"; "whitespace"])
         else if b2 then
           (Report false "rejected" r2 0
              [dim; ("whitespace", CheckReason true r1);
               ("blur", CheckReason false r2)],
            ["dimensions"; "whitespace"; "blur"])
         else if b3 then
           (Report false "rejected" r3 0
              [dim; ("whitespace", CheckReason true r1);
               ("blur", CheckReason true r2);
               ("stain_profile", CheckReason false r3)],
            ["dimensions"; "whitespace"; "blur"; "stain_profile"])
         else if b4 then
           (Report false "rejected" r4 0
              [dim; ("whitespace", CheckReason true r1);
               ("blur", CheckReason true r2);
               ("stain_profile", CheckReason true r3);
               ("histogram_similarity", CheckReason false r4)],
            gate_order)
         else
           (Report true "valid" None 1
              [dim; ("whitespace", CheckReason true r1);
               ("blur", CheckReason true r2);
               ("stain_profile", CheckReason true r3);
               ("histogram_similarity", CheckReason true r4)],
            gate_order).
Proof.
  intros Hne cfg.
  destruct (load_image_opencv_returns pil_img Hne) as (cv_img & Hload & Hcv).
  destruct (merged_config_has overrides config "whitespace_thresh")
    as (t1 & H1); [simpl; tauto|].
  destruct (merged_config_has overrides config "blur_thresh")
    as (t2 & H2); [simpl; tauto|].
  destruct (merged_config_has overrides config "stain_thresh")
    as (t3 & H3); [simpl; tauto|].
  destruct (merged_config_has overrides config "hist_thresh")
    as (t4 & H4); [simpl; tauto|].
  fold cfg in H1, H2, H3, H4.
  destruct (gates_after_dimensions_run cfg cv_img
              [("dimensions",
                CheckValue true (size_text (fst (pil_size pil_img))
                                   (snd (pil_size pil_img))))]
              ["dimensions"] t1 t2 t3 t4 H1 H2 H3 H4 Hcv)
    as (b1 & r1 & b2 & r2 & b3 & r3 & b4 & r4 & E1 & E2 & E3 & E4 & Hrun).
  exists cv_img, t1, t2, t3, t4, b1, r1, b2, r2, b3, r3, b4, r4.
  repeat (split; [assumption|]).
  unfold validate_traced, with_except, validate_try, and_then, call.
  fold cfg. rewrite Hload.
  unfold pil_size in *. cbn [fst snd] in *.
  cbn [begin_gate evaluated frame_checks app].
  destruct ((Z.of_nat (List.length (hd [] pil_img)) <? MIN_WIDTH)%Z
            || (Z.of_nat (List.length pil_img) <? MIN_HEIGHT)%Z);
    [reflexivity|].
  destruct ((Z.of_nat (List.length (hd [] pil_img)) >? MAX_WIDTH)%Z
            || (Z.of_nat (List.length pil_img) >? MAX_HEIGHT)%Z);
    [reflexivity|].
  cbn [set_check evaluated frame_checks dict_set].
  cbv zeta in Hrun. rewrite Hrun.
  destruct b1; [reflexivity|].
  destruct b2; [reflexivity|].
  destruct b3; [reflexivity|].
  destruct b4; reflexivity.
Qed.

Lemma validate_run_shape (overrides config : list (string * Q))
  (opened : outcome pil_image) :
  let r := validate (init_config overrides) opened config in
  let log := validate_log (init_config overrides) opened config in
  exists n : nat,
    log = firstn n gate_order
    /\ (forall g, In g (skipn n gate_order) -> dict_get (checks r) g = None)
    /\ (forall g, In g (firstn (n - 1) gate_order) ->
                  exists e, dict_get (checks r) g = Some e /\ passed e = true)
    /\ (is_valid r = true ->
        n = 5%nat
        /\ exists e,
             dict_get (checks r) "histogram_similarity" = Some e
             /\ passed e = true)
    /\ (is_valid r = false ->
        status r = "rejected"
        /\ ((n <= 1)%nat /\ checks r = []
            \/ (2 <= n)%nat
               /\ dict_get (checks r) (last log "")
                  = Some (CheckReason false (reason r)))).
Proof.
  cbv zeta. unfold validate, validate_log.
  destruct opened as [pil_img | e].
  2: { shape 0%nat. left. split; [lia | reflexivity]. }
  destruct (is_empty pil_img) eqn:Hempty.
  - destruct (load_image_opencv_raises pil_img Hempty) as (e & He).
    unfold validate_traced, with_except, validate_try, and_then, call.
    rewrite He. shape 0%nat. left. split; [lia | reflexivity].
  - destruct (validate_traced_run overrides config pil_img Hempty)
      as (cv_img & t1 & t2 & t3 & t4 & b1 & r1 & b2 & r2 & b3 & r3 & b4 & r4
          & _ & _ & _ & _ & _ & _ & Hrun).
    rewrite Hrun. clear Hrun. cbv zeta.
    destruct (_ || _).
    { shape 1%nat. left. split; [lia | reflexivity]. }
    destruct (_ || _).
    { shape 1%nat. left. split; [lia | reflexivity]. }
    destruct b1.
    { shape 2%nat. right. split; [lia | reflexivity]. }
    destruct b2.
    { shape 3%nat. right. split; [lia | reflexivity]. }
    destruct b3.
    { shape 4%nat. right. split; [lia | reflexivity]. }
    destruct b4.
    { shape 5%nat. right. split; [lia | reflexivity]. }
    shape 5%nat.
Qed.

Lemma In_firstn {A : Type} (n : nat) (l : list A) (x : A) :
  In x (firstn n l) -> In x l.
Proof.
  revert l. induction n as [|n IH]; intros [|y l] H; simpl in *; try tauto.
  destruct H as [H | H]; [left; exact H | right; exact (IH l H)].
Qed.

(** C3. The gates are evaluated in the order dimensions, whitespace, blur,
    stain profile, histogram similarity: the log of a run is a prefix of
    that order.  Every gate before the last one evaluated has passed; a
    rejected report has no entry for any gate after the failing one; the
    upload view calls the predictor only after a valid report, so nothing
    is extracted or classified after a gate failure.  On a decoded image
    each gate is the function of its name at the configured threshold:
    the report is that of the first of [check_whitespace], [check_blur],
    [check_stain_profile], [check_histogram_similarity], in this order,
    that rejects, with its reason and with the verdicts of the gates
    before it; it is valid exactly when the size is within the bounds and
    none of the four rejects. *)
Theorem gates_run_in_order_and_stop_at_first_failure
  (overrides config : list (string * Q)) (opened : outcome pil_image)
  (P : Type) (predict : outcome P) :
  (let r := validate (init_config overrides) opened config in
   let log := validate_log (init_config overrides) opened config in
   exists n : nat,
     log = firstn n gate_order
     /\ (forall g, In g (skipn n gate_order) -> dict_get (checks r) g = None)
     /\ (forall g, In g (firstn (n - 1) gate_order) ->
                   exists e, dict_get (checks r) g = Some e /\ passed e = true)
     /\ (is_valid r = true ->
         n = 5%nat
         /\ exists e,
              dict_get (checks r) "histogram_similarity" = Some e
              /\ passed e = true)
     /\ (is_valid r = false ->
         status r = "rejected"
         /\ ((n <= 1)%nat /\ checks r = []
             \/ (2 <= n)%nat
                /\ dict_get (checks r) (last log "")
                   = Some (CheckReason false (reason r)))))
  /\ (let r := validate (init_config []) opened [] in
      let log := validate_log (init_config []) opened [] in
      let view := validate_then_predict opened predict in
      (is_valid r = false ->
       snd view = log
       /\ ~ In "predict" (snd view)
       /\ exists error,
            fst view = BadRequest error (status r) (confidence r) (checks r))
      /\ (is_valid r = true ->
          view = (Predicted predict, (gate_order ++ ["predict"])%list)))
  /\ (forall pil_img,
        opened = Return pil_img ->
        is_empty pil_img = false ->
        let cfg := dict_merge (init_config overrides) config in
        let width := fst (pil_size pil_img) in
        let height := snd (pil_size pil_img) in
        let dim := ("dimensions", CheckValue true (size_text width height)) in
        exists cv_img t1 t2 t3 t4 b1 r1 b2 r2 b3 r3 b4 r4,
          load_image_opencv pil_img = Return cv_img
          /\ dict_get cfg "whitespace_thresh" = Some t1
          /\ dict_get cfg "blur_thresh" = Some t2
          /\ dict_get cfg "stain_thresh" = Some t3
          /\ dict_get cfg "hist_thresh" = Some t4
          /\ check_whitespace COLOR_BGR2GRAY cv_img t1 220 = Return (b1, r1)
          /\ check_blur COLOR_BGR2GRAY Laplacian_var float_repr cv_img t2
             = Return (b2, r2)
          /\ check_stain_profile COLOR_BGR2HSV cv_img t3 = Return (b3, r3)
          /\ check_histogram_similarity COLOR_BGR2HSV calcHist_normalized
               compareHist_CORREL REFERENCE_HISTOGRAMS float_repr cv_img t4
             = Return (b4, r4)
          /\ (validate (init_config overrides) opened config,
              validate_log (init_config overrides) opened config)
             = if (width <? MIN_WIDTH)%Z || (height <? MIN_HEIGHT)%Z then
                 (Report false "rejected"
                    (Some ("Image too small (" ++ size_text width height
                           ++ "). Minimum: "
                           ++ size_text MIN_WIDTH MIN_HEIGHT))
                    0 [],
                  ["dimensions"])
               else if (width >? MAX_WIDTH)%Z || (height >? MAX_HEIGHT)%Z then
                 (Report false "rejected"
                    (Some ("Image too large (" ++ size_text width height
                           ++ "). Maximum: "
                           ++ size_text MAX_WIDTH MAX_HEIGHT))
                    0 [],
                  ["dimensions"])
               else if b1 then
                 (Report false "rejected" r1 0
                    [dim; ("whitespace", CheckReason false r1)],
                  ["dimensions"; "whitespace"])
               else if b2 then
                 (Report false "rejected" r2 0
                    [dim; ("whitespace", CheckReason true r1);
                     ("blur", CheckReason false r2)],
                  ["dimensions"; "whitespace"; "blur"])
               else if b3 then
                 (Report false "rejected" r3 0
                    [dim; ("whitespace", CheckReason true r1);
                     ("blur", CheckReason true r2);
                     ("stain_profile", CheckReason false r3)],
                  ["dimensions"; "whitespace"; "blur"; "stain_profile"])
               else if b4 then
                 (Report false "rejected" r4 0
                    [dim; ("whitespace", CheckReason true r1);
                     ("blur", CheckReason true r2);
                     ("stain_profile", CheckReason true r3);
                     ("histogram_similarity", CheckReason false r4)],
                  gate_order)
               else
                 (Report true "valid" None 1
                    [dim; ("whitespace", CheckReason true r1);
                     ("blur", CheckReason true r2);
                     ("stain_profile", CheckReason true r3);
                     ("histogram_similarity", CheckReason true r4)],
                  gate_order)).
Proof.
  split; [apply validate_run_shape|].
  split.
  { cbv zeta.
    destruct (validate_run_shape [] [] opened) as (n & Hlog & _ & _ & Hok & _).
    cbv zeta in Hlog, Hok.
    unfold validate_then_predict, validate, validate_log in *.
    destruct (validate_traced (init_config []) opened []) as [r log].
    cbn [fst snd] in *. split; intro Hv; rewrite Hv; cbn [negb fst snd].
    - split; [reflexivity|]. split.
      + rewrite Hlog. intro Hin. apply In_firstn in Hin.
        simpl in Hin. intuition discriminate.
      + eexists. reflexivity.
    - destruct (Hok Hv) as (-> & _). rewrite Hlog. reflexivity. }
  intros pil_img -> Hne. cbv zeta.
  destruct (validate_cascade overrides config pil_img Hne)
    as (cv_img & t1 & t2 & t3 & t4 & b1 & r1 & b2 & r2 & b3 & r3 & b4 & r4
        & Hload & H1 & H2 & H3 & H4 & E1 & E2 & E3 & E4 & Hrun).
  exists cv_img, t1, t2, t3, t4, b1, r1, b2, r2, b3, r3, b4, r4.
  repeat (split; [assumption|]).
  unfold validate, validate_log. rewrite <- surjective_pairing.
  exact Hrun.
Qed.

(** C5, as the code has it.  The dimension gate runs first, so an
    all-white image reaches the whitespace gate only when it is at least
    100 by 100 pixels (and within the maximum); it is then rejected there,
    and the reason contains "100.0%". *)
Theorem all_white_image_rejected_at_whitespace (width height : nat) :
  (COLOR_BGR2GRAY (255, 255, 255)%Z > 220)%Z ->
  (100 <= Z.of_nat width <= 100000)%Z ->
  (100 <= Z.of_nat height <= 100000)%Z ->
  let white := solid width height (255, 255, 255)%Z in
  let r := validate (init_config []) (Return white) [] in
  validate_log (init_config []) (Return white) []
  = ["dimensions"; "whitespace"]
  /\ is_valid r = false
  /\ status r = "rejected"
  /\ reason r = Some "Too much whitespace (100.0% > 95%)"
  /\ Fmt.contains "100.0%" "Too much whitespace (100.0% > 95%)"
  /\ dict_get (checks r) "whitespace" = Some (CheckReason false (reason r)).
Proof.
  intros Hgray Hw Hh. cbv zeta.
  assert (Hne : is_empty (solid width height (255, 255, 255)%Z) = false)
    by (apply solid_not_empty; lia).
  destruct (validate_traced_run [] [] _ Hne)
    as (cv_img & t1 & t2 & t3 & t4 & b1 & r1 & b2 & r2 & b3 & r3 & b4 & r4
        & Hload & H1 & E1 & _ & _ & _ & Hrun).
  unfold load_image_opencv in Hload.
  rewrite (cvtColor_nonempty _ _ Hne) in Hload. unfold solid in Hload.
  rewrite map_map_repeat in Hload. cbn [COLOR_RGB2BGR] in Hload.
  injection Hload as <-.
  simpl in H1. injection H1 as <-.
  rewrite check_whitespace_white in E1 by (try lia; reflexivity).
  injection E1 as <- <-.
  unfold validate, validate_log. rewrite Hrun. clear Hrun.
  rewrite pil_size_solid by lia. cbn [fst snd].
  replace ((Z.of_nat width <? MIN_WIDTH)%Z || (Z.of_nat height <? MIN_HEIGHT)%Z)
    with false
    by (symmetry; apply Bool.orb_false_iff; split; apply Z.ltb_ge;
        unfold MIN_WIDTH, MIN_HEIGHT; lia).
  replace ((Z.of_nat width >? MAX_WIDTH)%Z || (Z.of_nat height >? MAX_HEIGHT)%Z)
    with false
    by (symmetry; apply Bool.orb_false_iff; split; rewrite Z.gtb_ltb;
        apply Z.ltb_ge; unfold MAX_WIDTH, MAX_HEIGHT; lia).
  cbn [fst snd is_valid status reason checks].
  repeat split.
  exists "Too much whitespace (", " > 95%)". reflexivity.
Qed.

(** C10, at the code.  An image of a rejected size gets
    [is_valid = False] and a reason that names the measured size and the
    bound, but the code returns before it writes the dimensions entry:
    [checks] is empty, where every other gate records its failure. *)
Theorem dimension_failure_leaves_checks_empty
  (overrides config : list (string * Q)) (pil_img : pil_image) :
  is_empty pil_img = false ->
  let width := fst (pil_size pil_img) in
  let height := snd (pil_size pil_img) in
  (width < MIN_WIDTH \/ height < MIN_HEIGHT
   \/ width > MAX_WIDTH \/ height > MAX_HEIGHT)%Z ->
  let r := validate (init_config overrides) (Return pil_img) config in
  is_valid r = false
  /\ status r = "rejected"
  /\ checks r = []
  /\ dict_get (checks r) "dimensions" = None
  /\ (reason r
      = Some ("Image too small (" ++ size_text width height
              ++ "). Minimum: 100x100")
      \/ reason r
         = Some ("Image too large (" ++ size_text width height
                 ++ "). Maximum: 100000x100000")).
Proof.
  intros Hne width height Hdim. cbv zeta.
  destruct (validate_traced_run overrides config pil_img Hne)
    as (cv_img & t1 & t2 & t3 & t4 & b1 & r1 & b2 & r2 & b3 & r3 & b4 & r4
        & _ & _ & _ & _ & _ & _ & Hrun).
  unfold validate. rewrite Hrun. clear Hrun. cbv zeta.
  fold width height.
  destruct ((width <? MIN_WIDTH)%Z || (height <? MIN_HEIGHT)%Z) eqn:Esmall.
  { cbn [fst is_valid status reason checks].
    repeat split. left. reflexivity. }
  destruct ((width >? MAX_WIDTH)%Z || (height >? MAX_HEIGHT)%Z) eqn:Elarge.
  { cbn [fst is_valid status reason checks].
    repeat split. right. reflexivity. }
  exfalso.
  apply Bool.orb_false_iff in Esmall. destruct Esmall as [E1 E2].
  apply Bool.orb_false_iff in Elarge. destruct Elarge as [E3 E4].
  apply Z.ltb_ge in E1, E2. rewrite Z.gtb_ltb in E3, E4.
  apply Z.ltb_ge in E3, E4. lia.
Qed.

(** [validate_pil_image] has the minimum only: its reason does not name
    the bound, and an image above the maximum passes its dimension gate. *)
Lemma validate_pil_image_dimensions (overrides config : list (string * Q))
  (pil_img : pil_image) :
  is_empty pil_img = false ->
  let width := fst (pil_size pil_img) in
  let height := snd (pil_size pil_img) in
  let r := validate_pil_image (init_config overrides) pil_img config in
  if (width <? MIN_WIDTH)%Z || (height <? MIN_HEIGHT)%Z
  then r = Report false "rejected"
             (Some ("Image too small (" ++ size_text width height ++ ")"))
             0 []
  else dict_get (checks r) "dimensions"
       = Some (CheckValue true (size_text width height)).
Proof.
  intros Hne width height. cbv zeta.
  destruct (load_image_opencv_returns pil_img Hne) as (cv_img & Hload & Hcv).
  set (cfg := dict_merge (init_config overrides) config).
  destruct (merged_config_has overrides config "whitespace_thresh")
    as (t1 & H1); [simpl; tauto|].
  destruct (merged_config_has overrides config "blur_thresh")
    as (t2 & H2); [simpl; tauto|].
  destruct (merged_config_has overrides config "stain_thresh")
    as (t3 & H3); [simpl; tauto|].
  destruct (merged_config_has overrides config "hist_thresh")
    as (t4 & H4); [simpl; tauto|].
  fold cfg in H1, H2, H3, H4.
  destruct (gates_after_dimensions_run cfg cv_img
              [("dimensions", CheckValue true (size_text width height))]
              ["dimensions"] t1 t2 t3 t4 H1 H2 H3 H4 Hcv)
    as (b1 & r1 & b2 & r2 & b3 & r3 & b4 & r4 & _ & _ & _ & _ & Hrun).
  unfold validate_pil_image, with_except, validate_pil_image_try,
    and_then, call.
  fold cfg. rewrite Hload.
  unfold pil_size in *. cbn [fst snd] in *. fold width height.
  cbn [begin_gate evaluated frame_checks app].
  destruct ((width <? MIN_WIDTH)%Z || (height <? MIN_HEIGHT)%Z);
    [reflexivity|].
  cbn [set_check evaluated frame_checks dict_set].
  cbv zeta in Hrun. rewrite Hrun.
  destruct b1; [reflexivity|].
  destruct b2; [reflexivity|].
  destruct b3; [reflexivity|].
  destruct b4; reflexivity.
Qed.

End WithOpenCV.

End Validator.

(** ** Concrete runs of the validator *)

Module Scenarios.

Import Gates Validator.

Local Open Scope string_scope.
Local Open Scope Q_scope.

(** The reference corpus is a pickle that is not part of the sources; the
    module then starts with [REFERENCE_HISTOGRAMS = None] and the histogram
    functions are never called.  Closed runs fix them to a two-bin toy
    histogram (the number of pixels of hue below 90, and of the others) and
    to the inner product as similarity.  [repr] of a threshold is written
    with one decimal, which is what Python prints for 20.0 or 0.5. *)
Definition toy_calcHist (hsv_img : list (list hsv)) : list Q :=
let low := count_true (fun p => (hue p <? 90)%Z) hsv_img in
[ inject_Z low; inject_Z (array_size hsv_img - low) ].

Definition toy_compareHist (a b : list Q) : Q := np_sum (zip_mul a b).

Definition repr_one_decimal (x : Q) : string := Fmt.format_fixed 1 x.

Definition white : rgb := (255, 255, 255)%Z.

(** [image_validator.validate] on a decoded image, with the documented
    OpenCV conversions and no reference corpus. *)
Definition run_validate (pil_img : pil_image) : report * list string :=
validate_traced opencv_BGR2GRAY opencv_BGR2HSV opencv_Laplacian_var
  toy_calcHist toy_compareHist None repr_one_decimal
  (init_config []) (Return pil_img) [].

Lemma all_white_100x100_rejected_at_whitespace :
  (opencv_BGR2GRAY (255, 255, 255)%Z > 220)%Z
  /\ (let img := solid 100 100 white in
      let r := validate opencv_BGR2GRAY opencv_BGR2HSV opencv_Laplacian_var
                 toy_calcHist toy_compareHist None repr_one_decimal
                 (init_config []) (Return img) [] in
      validate_log opencv_BGR2GRAY opencv_BGR2HSV opencv_Laplacian_var
        toy_calcHist toy_compareHist None repr_one_decimal
        (init_config []) (Return img) []
      = ["dimensions"; "whitespace"]
      /\ is_valid r = false
      /\ status r = "rejected"
      /\ reason r = Some "Too much whitespace (100.0% > 95%)"
      /\ Fmt.contains "100.0%" "Too much whitespace (100.0% > 95%)"
      /\ dict_get (checks r) "whitespace"
         = Some (CheckReason false (reason r))).
Proof.
  split; [reflexivity|].
  apply (all_white_image_rejected_at_whitespace opencv_BGR2GRAY
           opencv_BGR2HSV opencv_Laplacian_var toy_calcHist toy_compareHist
           None repr_one_decimal 100 100).
  - reflexivity.
  - lia.
  - lia.
Defined.

(** C5 as stated fails: the 50 by 50 all-white image is turned away by the
    dimension gate, the whitespace gate never runs and the reason does not
    mention a percentage. *)
Lemma white_50x50_rejected_by_dimensions :
  run_validate (solid 50 50 white)
  = (Report false "rejected"
       (Some "Image too small (50x50). Minimum: 100x100") 0 [],
     ["dimensions"])
  /\ ~ In "whitespace" (snd (run_validate (solid 50 50 white)))
  /\ ~ Fmt.contains "100.0%" "Image too small (50x50). Minimum: 100x100".
Proof.
  split; [vm_compute; reflexivity|].
  split.
  - vm_compute. intuition discriminate.
  - intro H. apply Fmt.contains_containsb in H. vm_compute in H.
    discriminate H.
Qed.

Lemma small_image_leaves_checks_empty :
  is_empty (solid 50 50 (120, 80, 160)%Z) = false
  /\ (let r := validate opencv_BGR2GRAY opencv_BGR2HSV opencv_Laplacian_var
                 toy_calcHist toy_compareHist None repr_one_decimal
                 (init_config []) (Return (solid 50 50 (120, 80, 160)%Z)) []
      in
      is_valid r = false
      /\ status r = "rejected"
      /\ checks r = []
      /\ dict_get (checks r) "dimensions" = None
      /\ (reason r
          = Some ("Image too small ("
                  ++ size_text
                       (fst (pil_size (solid 50 50 (120, 80, 160)%Z)))
                       (snd (pil_size (solid 50 50 (120, 80, 160)%Z)))
                  ++ "). Minimum: 100x100")
          \/ reason r
             = Some ("Image too large ("
                     ++ size_text
                          (fst (pil_size (solid 50 50 (120, 80, 160)%Z)))
                          (snd (pil_size (solid 50 50 (120, 80, 160)%Z)))
                     ++ "). Maximum: 100000x100000"))).
Proof.
  split; [reflexivity|].
  apply (dimension_failure_leaves_checks_empty opencv_BGR2GRAY
           opencv_BGR2HSV opencv_Laplacian_var toy_calcHist toy_compareHist
           None repr_one_decimal [] [] (solid 50 50 (120, 80, 160)%Z)).
  - reflexivity.
  - left. vm_compute. reflexivity.
Defined.

Definition green_patch : cv_image :=
[ [ (0, 255, 0)%Z; (0, 255, 0)%Z ]; [ (0, 255, 0)%Z; (0, 255, 0)%Z ] ].

Lemma pure_green_has_no_stain :
  exists ratio,
    stain_coverage opencv_BGR2HSV green_patch = Return ratio
    /\ ratio == 0
    /\ (0 < 0.02 ->
        exists why,
          check_stain_profile opencv_BGR2HSV green_patch 0.02
          = Return (true, Some why)).
Proof.
  apply (stain_gate_rejects_off_band_hues opencv_BGR2HSV green_patch 0.02).
  - reflexivity.
  - intros row p Hrow Hp. unfold green_patch in Hrow. simpl in Hrow.
    destruct Hrow as [<- | [<- | []]]; simpl in Hp;
      destruct Hp as [<- | [<- | []]]; vm_compute; split; reflexivity.
Defined.


(** A flat purple patch of 100 by 100 pixels passes the whitespace gate
    and is stopped by the blur gate: the stain and histogram gates leave no
    trace. *)
Lemma flat_image_stops_at_blur :
  exists cv_img t1 t2 why,
    load_image_opencv (solid 100 100 (120, 80, 160)%Z) = Return cv_img
    /\ check_whitespace opencv_BGR2GRAY cv_img t1 220 = Return (false, None)
    /\ check_blur opencv_BGR2GRAY opencv_Laplacian_var repr_one_decimal
         cv_img t2
       = Return (true, Some why)
    /\ run_validate (solid 100 100 (120, 80, 160)%Z)
       = (Report false "rejected" (Some why) 0
            [ ("dimensions", CheckValue true "100x100");
              ("whitespace", CheckReason true None);
              ("blur", CheckReason false (Some why)) ],
          ["dimensions"; "whitespace"; "blur"]).
Proof.
  pose proof (proj2 (proj2 (gates_run_in_order_and_stop_at_first_failure
                              opencv_BGR2GRAY opencv_BGR2HSV
                              opencv_Laplacian_var toy_calcHist
                              toy_compareHist None repr_one_decimal [] []
                              (Return (solid 100 100 (120, 80, 160)%Z))
                              unit (Return tt)))
                (solid 100 100 (120, 80, 160)%Z) eq_refl eq_refl) as Hgates.
  cbv zeta in Hgates.
  destruct Hgates
    as (cv_img & t1 & t2 & t3 & t4 & b1 & r1 & b2 & r2 & b3 & r3 & b4 & r4
        & Hload & H1 & H2 & _ & _ & E1 & E2 & _ & _ & Hrun).
  assert (Hcv : cv_img = map (map COLOR_RGB2BGR) (solid 100 100 (120, 80, 160)%Z)).
  { assert (Hne : is_empty (solid 100 100 (120, 80, 160)%Z) = false)
      by reflexivity.
    unfold load_image_opencv in Hload.
    rewrite (cvtColor_nonempty COLOR_RGB2BGR _ Hne) in Hload.
    injection Hload as <-. reflexivity. }
  unfold load_image_opencv.
  assert (Ht1 : dict_get (dict_merge (init_config []) []) "whitespace_thresh"
                = Some 0.95) by (vm_compute; reflexivity).
  assert (Ht2 : dict_get (dict_merge (init_config []) []) "blur_thresh"
                = Some 20) by (vm_compute; reflexivity).
  rewrite Ht1 in H1. injection H1 as H1.
  rewrite Ht2 in H2. injection H2 as H2.
  exists cv_img, t1, t2, "Image is blurry (Score: 0.0 < 20.0)".
  split; [exact Hload|].
  assert (Hws : b1 = false /\ r1 = None).
  { assert (Hgate : check_whitespace opencv_BGR2GRAY
                      (map (map COLOR_RGB2BGR)
                         (solid 100 100 (120, 80, 160)%Z)) 0.95 220
                    = Return (false, None))
      by (vm_compute; reflexivity).
    rewrite Hcv, <- H1, Hgate in E1. injection E1 as <- <-.
    split; reflexivity. }
  assert (Hblur : b2 = true /\ r2 = Some "Image is blurry (Score: 0.0 < 20.0)").
  { assert (Hgate : check_blur opencv_BGR2GRAY opencv_Laplacian_var
                      repr_one_decimal
                      (map (map COLOR_RGB2BGR)
                         (solid 100 100 (120, 80, 160)%Z)) 20
                    = Return (true, Some "Image is blurry (Score: 0.0 < 20.0)"))
      by (vm_compute; reflexivity).
    rewrite Hcv, <- H2, Hgate in E2. injection E2 as <- <-.
    split; reflexivity. }
  destruct Hws as [-> ->]. destruct Hblur as [-> ->].
  split; [exact E1|]. split; [exact E2|].
  transitivity
    (validate opencv_BGR2GRAY opencv_BGR2HSV opencv_Laplacian_var
       toy_calcHist toy_compareHist None repr_one_decimal (init_config [])
       (Return (solid 100 100 (120, 80, 160)%Z)) [],
     validate_log opencv_BGR2GRAY opencv_BGR2HSV opencv_Laplacian_var
       toy_calcHist toy_compareHist None repr_one_decimal (init_config [])
       (Return (solid 100 100 (120, 80, 160)%Z)) []).
  - unfold run_validate, validate, validate_log.
    exact (surjective_pairing _).
  - rewrite Hrun. vm_compute. reflexivity.
Defined.

End Scenarios.

(** ** The feature extractor ([SimpleFeatureExtractor], and the same text
    inside [safe_predict]) *)

Module Features.

Local Open Scope py_scope.
Local Open Scope R_scope.

(** [np.sum], [np.mean] and [np.std] of a flattened array. *)
Definition np_sum (a : list R) : R := fold_left Rplus a 0.

Definition np_mean (a : list R) : R := np_sum a / INR (List.length a).

Definition np_std (a : list R) : R :=
let m := np_mean a in
sqrt (np_mean (map (fun x => (x - m) * (x - m)) a)).

(** [np.sort] of integer data. *)
Fixpoint insert_sorted (x : Z) (l : list Z) : list Z :=
match l with
| [] => [x]
| y :: rest => if (x <=? y)%Z then x :: l else y :: insert_sorted x rest
end.

Definition np_sort (a : list Z) : list Z := fold_right insert_sorted [] a.

(** [np.median]: the middle element, or the mean of the two middle ones. *)
Definition np_median (a : list Z) : R :=
let s := np_sort a in
let n := List.length s in
if Nat.even n
then (IZR (nth (n / 2 - 1) s 0%Z) + IZR (nth (n / 2) s 0%Z)) / 2
else IZR (nth (n / 2) s 0%Z).

(** [np.percentile(a, q)] with the default linear interpolation: the
    position (n - 1) q / 100 in the sorted data, split into its integer
    part and the weight of the next element. *)
Definition np_percentile (a : list Z) (q : nat) : R :=
let s := np_sort a in
let n := List.length s in
let position := ((n - 1) * q)%nat in
let lower := nth (position / 100) s 0%Z in
let upper := nth (Nat.min (position / 100 + 1) (n - 1)) s 0%Z in
IZR lower + (IZR upper - IZR lower) * (INR (position mod 100) / 100).

(** [img_array[:, :, channel]], flattened. *)
Definition channel_of (channel : nat) (p : rgb) : Z :=
let '(r, g, b) := p in
match channel with
| O => r
| S O => g
| _ => b
end.

Definition channel_data (img_array : pil_image) (channel : nat) : list Z :=
map (channel_of channel) (List.concat img_array).

(** [np.mean(img_array, axis=2)]. *)
Definition gray_of (p : rgb) : R :=
let '(r, g, b) := p in (IZR r + IZR g + IZR b) / 3.

Definition mean_axis2 (img_array : pil_image) : list (list R) :=
map (map gray_of) img_array.

(** [np.gradient] along one axis of at least two samples: one-sided
    differences at the two ends, central differences inside. *)
Definition gradient_along {A : Type} (sub : A -> A -> A) (half : A -> A)
  (d : A) (f : list A) : list A :=
let n := List.length f in
map (fun i =>
       if Nat.eqb i 0 then sub (nth 1 f d) (nth 0 f d)
       else if Nat.eqb i (n - 1) then sub (nth (n - 1) f d) (nth (n - 2) f d)
       else half (sub (nth (i + 1) f d) (nth (i - 1) f d)))
  (seq 0 n).

Fixpoint row_sub (a b : list R) : list R :=
match a, b with
| x :: a', y :: b' => (x - y) :: row_sub a' b'
| _, _ => []
end.

(** Axis 0 runs over the rows, axis 1 over the columns of a row. *)
Definition gradient_axis0 (f : list (list R)) : list (list R) :=
gradient_along row_sub (map (fun x => x / 2)) [] f.

Definition gradient_axis1 (f : list (list R)) : list (list R) :=
map (gradient_along Rminus (fun x => x / 2) 0) f.

(** [np.gradient(f)] of a two-dimensional array: the pair of the gradients
    along axis 0 and axis 1; every axis needs two samples. *)
Definition np_gradient (f : list (list R))
  : outcome (list (list R) * list (list R)) :=
if (List.length f <? 2)%nat || (List.length (hd [] f) <? 2)%nat
then Raise (Exn "ValueError"
              "Shape of array too small to calculate a numerical gradient, at least (edge_order + 1) elements are required.")
else Return (gradient_axis0 f, gradient_axis1 f).

Definition mean_abs (a : list (list R)) : R :=
np_mean (map Rabs (List.concat a)).

(** The five statistics appended for one channel. *)
Definition channel_statistics (img_array : pil_image) (channel : nat)
  : list R :=
let data := channel_data img_array channel in
[ np_mean (map IZR data);
  np_std (map IZR data);
  np_median data;
  np_percentile data 25;
  np_percentile data 75 ].

(** The extraction proper, from [img_array = np.array(pil_img.convert('RGB'))]
    on: the loop over the three channels, then the four texture values. *)
Definition extract_features (img_array : pil_image) : outcome (list R) :=
let features := flat_map (channel_statistics img_array) (seq 0 3) in
let gray_img := mean_axis2 img_array in
let gray_mean := np_mean (List.concat gray_img) in
let gray_std := np_std (List.concat gray_img) in
first <- np_gradient gray_img ;;
second <- np_gradient gray_img ;;
Return (features ++ [ gray_mean; gray_std;
                      mean_abs (fst first); mean_abs (snd second) ])%list.

Definition extract_features_from_pil (pil_img : pil_image)
  : outcome (list R) :=
extract_features pil_img.

(** [extract_features_from_image]: the same on an opened file; an
    exception is logged and raised again. *)
Definition extract_features_from_image (opened : outcome pil_image)
  : outcome (list R) :=
img <- opened ;;
extract_features img.

(** The vector the specification describes, position by position. *)
Definition spec_feature_vector (img_array : pil_image) : list R :=
let red := map IZR (channel_data img_array 0) in
let green := map IZR (channel_data img_array 1) in
let blue := map IZR (channel_data img_array 2) in
let gray := mean_axis2 img_array in
[ np_mean red; np_std red; np_median (channel_data img_array 0);
  np_percentile (channel_data img_array 0) 25;
  np_percentile (channel_data img_array 0) 75;
  np_mean green; np_std green; np_median (channel_data img_array 1);
  np_percentile (channel_data img_array 1) 25;
  np_percentile (channel_data img_array 1) 75;
  np_mean blue; np_std blue; np_median (channel_data img_array 2);
  np_percentile (channel_data img_array 2) 25;
  np_percentile (channel_data img_array 2) 75;
  np_mean (List.concat gray); np_std (List.concat gray);
  mean_abs (gradient_axis0 gray); mean_abs (gradient_axis1 gray) ].

Example sort_example : np_sort [3; 1; 2; 1]%Z = [1; 1; 2; 3]%Z.
Proof. reflexivity. Qed.

Example median_of_four : np_median [4; 1; 3; 2]%Z = 5 / 2.
Proof. unfold np_median. simpl. Lra.lra. Qed.

Example percentile_25_of_five : np_percentile [10; 20; 30; 40; 50]%Z 25 = 20.
Proof. unfold np_percentile. simpl. Lra.lra. Qed.

Example percentile_75_of_four : np_percentile [1; 2; 3; 4]%Z 75 = 13 / 4.
Proof. unfold np_percentile. simpl. Lra.lra. Qed.

Example gradient_of_a_row :
  gradient_along Rminus (fun x => x / 2) 0 [1; 4; 9; 16]
  = [4 - 1; (9 - 1) / 2; (16 - 4) / 2; 16 - 9].
Proof. reflexivity. Qed.

Lemma mean_axis2_shape (img_array : pil_image) :
  List.length (mean_axis2 img_array) = List.length img_array
  /\ List.length (hd [] (mean_axis2 img_array))
     = List.length (hd [] img_array).
Proof.
  unfold mean_axis2. rewrite length_map. split; [reflexivity|].
  destruct img_array as [|row rest]; [reflexivity|].
  simpl. apply length_map.
Qed.

(** On an image of at least 2 by 2 pixels the extraction returns the
    vector of the specification. *)
Lemma extract_features_returns (img_array : pil_image) :
  (2 <= List.length img_array)%nat ->
  (2 <= List.length (hd [] img_array))%nat ->
  extract_features img_array = Return (spec_feature_vector img_array).
Proof.
  intros Hh Hw. unfold extract_features, np_gradient.
  destruct (mean_axis2_shape img_array) as [-> ->].
  replace ((List.length img_array <? 2)%nat
           || (List.length (hd [] img_array) <? 2)%nat) with false
    by (symmetry; apply Bool.orb_false_iff; split; apply Nat.ltb_ge; lia).
  reflexivity.
Qed.

(** An image with a side of fewer than two pixels makes [np.gradient]
    raise, and with it the extraction. *)
Lemma extract_features_raises (img_array : pil_image) :
  (List.length img_array < 2)%nat
  \/ (List.length (hd [] img_array) < 2)%nat ->
  exists e, extract_features img_array = Raise e.
Proof.
  intro Hsmall. unfold extract_features, np_gradient.
  destruct (mean_axis2_shape img_array) as [-> ->].
  replace ((List.length img_array <? 2)%nat
           || (List.length (hd [] img_array) <? 2)%nat) with true
    by (symmetry; apply Bool.orb_true_iff;
        destruct Hsmall; [left | right]; apply Nat.ltb_lt; lia).
  eexists. reflexivity.
Qed.


End Features.

(** ** The safety wrapper ([model_safety.safe_predict]) *)

Module ModelSafety.

Import Gates Features.

Local Open Scope string_scope.
Local Open Scope py_scope.

(** The two components of the artifact, as the capabilities the code
    uses: [scaler.transform] and [model.predict_proba], each on the single
    row [features.reshape(1, -1)] and giving the single row [[0]]. *)
Record scaler : Type := Scaler {
  n_features_in_ : nat;
  transform : list R -> outcome (list R)
}.

Record classifier : Type := Classifier {
  predict_proba : list R -> outcome (list Q)
}.

(** The dict of the artifact: a key is present or not. *)
Record model_dict : Type := ModelDict {
  md_model : option classifier;
  md_scaler : option scaler;
  md_class_names : option (list string)
}.

Definition dict_field {A : Type} (key : string) (v : option A) : outcome A :=
match v with
| Some a => Return a
| None => Raise (Exn "KeyError" key)
end.

Definition list_index {A : Type} (l : list A) (i : nat) : outcome A :=
match nth_error l i with
| Some a => Return a
| None => Raise (Exn "IndexError" "list index out of range")
end.

(** [np.argmax] (the first position of the maximum) and [np.max]. *)
Fixpoint argmax_from (best_i : nat) (best : Q) (i : nat) (a : list Q) : nat :=
match a with
| [] => best_i
| x :: rest =>
    if Qltb best x then argmax_from i x (S i) rest
    else argmax_from best_i best (S i) rest
end.

Definition np_argmax (a : list Q) : outcome nat :=
match a with
| [] => Raise (Exn "ValueError"
                 "attempt to get argmax of an empty sequence")
| x :: rest => Return (argmax_from 0 x 1 rest)
end.

Definition np_max (a : list Q) : outcome Q :=
match a with
| [] => Raise (Exn "ValueError"
                 "zero-size array to reduction operation maximum which has no identity")
| x :: rest => Return (fold_left (fun m y => if Qltb m y then y else m) rest x)
end.

(** [calculate_entropy]: minus the sum of p ln (p + 1e-10). *)
Definition epsilon : R := 1e-10.

Definition calculate_entropy (probs : list Q) : R :=
(- Features.np_sum (map (fun p => Q2R p * ln (Q2R p + epsilon)) probs))%R.

(** What [safe_predict] returns: the three shapes of its dict. *)
Inductive prediction : Type :=
| Rejected (reason : option string)
| Unknown (reason : string) (probabilities : list Q) (entropy : R)
| Success (prediction_label : string) (confidence : Q) (entropy : R)
    (probabilities : list Q) (features : list R).

Definition status_of (p : prediction) : string :=
match p with
| Rejected _ => "Rejected"
| Unknown _ _ _ => "Unknown"
| Success _ _ _ _ _ => "Success"
end.

Definition DEFAULT_SAFETY_CONFIG : list (string * Q) :=
[ ("whitespace_thresh", 0.85%Q);
  ("blur_thresh", 25%Q);
  ("entropy_thresh", 2.5%Q);
  ("stain_thresh", 0.15%Q) ].

(** [if config is None: config = {...}]. *)
Definition effective_config (config : option (list (string * Q)))
  : list (string * Q) :=
match config with
| None => DEFAULT_SAFETY_CONFIG
| Some given => given
end.

Section WithOpenCV.

Variable COLOR_BGR2GRAY : bgr -> Z.
Variable COLOR_BGR2HSV : bgr -> hsv.
Variable Laplacian_var : list (list Z) -> Q.
Variable calcHist_normalized : list (list hsv) -> list Q.
Variable compareHist_CORREL : list Q -> list Q -> Q.
Variable REFERENCE_HISTOGRAMS : option (list (list Q)).
Variable float_repr : Q -> string.

(** [format(x, '.2f')] of a float that is not a rational of the model. *)
Variable format_2f : R -> string.

Definition safe_predict (pil_img : pil_image) (model_data : model_dict)
  (config : option (list (string * Q))) : outcome prediction :=
let config := effective_config config in
cv_img <- load_image_opencv pil_img ;;
ws <- check_whitespace COLOR_BGR2GRAY cv_img
        (dict_get_default config "whitespace_thresh" 0.85%Q) 220 ;;
let '(is_ws, ws_reason) := ws in
if is_ws then Return (Rejected ws_reason) else
bl <- check_blur COLOR_BGR2GRAY Laplacian_var float_repr cv_img
        (dict_get_default config "blur_thresh" 50%Q) ;;
let '(is_blur, blur_reason) := bl in
if is_blur then Return (Rejected blur_reason) else
let stain_thresh := dict_get_default config "stain_thresh" 0.15%Q in
st <- check_stain_profile COLOR_BGR2HSV cv_img stain_thresh ;;
let '(is_bad_color, color_reason) := st in
if is_bad_color then Return (Rejected color_reason) else
let hist_thresh := dict_get_default config "hist_thresh" 0.5%Q in
ood <- check_histogram_similarity COLOR_BGR2HSV calcHist_normalized
         compareHist_CORREL REFERENCE_HISTOGRAMS float_repr
         cv_img hist_thresh ;;
let '(is_ood, ood_reason) := ood in
if is_ood then Return (Rejected ood_reason) else
model <- dict_field "model" (md_model model_data) ;;
scaler <- dict_field "scaler" (md_scaler model_data) ;;
class_names <- dict_field "class_names" (md_class_names model_data) ;;
feats_arr <- extract_features pil_img ;;
feats_scaled <- transform scaler feats_arr ;;
probs <- predict_proba model feats_scaled ;;
pred_idx <- np_argmax probs ;;
pred_label <- list_index class_names pred_idx ;;
confidence <- np_max probs ;;
let entropy := calculate_entropy probs in
let entropy_thresh := dict_get_default config "entropy_thresh" 1%Q in
if Rgt_dec entropy (Q2R entropy_thresh)
then Return (Unknown ("High Uncertainty (Entropy: " ++ format_2f entropy
                      ++ " > " ++ float_repr entropy_thresh ++ ")")
               probs entropy)
else Return (Success pred_label confidence entropy probs feats_arr).

(** The threshold the entropy is compared with. *)
Definition entropy_threshold (config : option (list (string * Q))) : Q :=
dict_get_default (effective_config config) "entropy_thresh" 1%Q.

(** A gate lets the image through. *)
Definition passes (result : outcome gate_result) : Prop :=
exists why, result = Return (false, why).


(** The other branch: at or below the threshold the outcome is Success. *)
Lemma low_entropy_gives_success (pil_img : pil_image) (cv_img : cv_image)
  (model_data : model_dict) (config : option (list (string * Q)))
  (model : classifier) (scaler_ : scaler) (class_names : list string)
  (feats scaled : list R) (probs : list Q) (pred_idx : nat)
  (pred_label : string) :
  let cfg := effective_config config in
  load_image_opencv pil_img = Return cv_img ->
  passes (check_whitespace COLOR_BGR2GRAY cv_img
            (dict_get_default cfg "whitespace_thresh" 0.85%Q) 220) ->
  passes (check_blur COLOR_BGR2GRAY Laplacian_var float_repr cv_img
            (dict_get_default cfg "blur_thresh" 50%Q)) ->
  passes (check_stain_profile COLOR_BGR2HSV cv_img
            (dict_get_default cfg "stain_thresh" 0.15%Q)) ->
  passes (check_histogram_similarity COLOR_BGR2HSV calcHist_normalized
            compareHist_CORREL REFERENCE_HISTOGRAMS float_repr cv_img
            (dict_get_default cfg "hist_thresh" 0.5%Q)) ->
  md_model model_data = Some model ->
  md_scaler model_data = Some scaler_ ->
  md_class_names model_data = Some class_names ->
  extract_features pil_img = Return feats ->
  transform scaler_ feats = Return scaled ->
  predict_proba model scaled = Return probs ->
  np_argmax probs = Return pred_idx ->
  nth_error class_names pred_idx = Some pred_label ->
  (calculate_entropy probs <= Q2R (entropy_threshold config))%R ->
  exists confidence,
    safe_predict pil_img model_data config
    = Return (Success pred_label confidence (calculate_entropy probs)
                probs feats).
Proof.
  intros cfg Hload (w1 & Hws) (w2 & Hblur) (w3 & Hstain) (w4 & Hhist)
    Hmodel Hscaler Hnames Hfeats Hscaled Hprobs Hargmax Hlabel Hentropy.
  assert (Hmax : exists confidence, np_max probs = Return confidence).
  { destruct probs as [|p rest]; [discriminate Hargmax|].
    eexists. reflexivity. }
  destruct Hmax as (confidence & Hmax).
  exists confidence.
  unfold safe_predict. fold cfg. rewrite Hload. cbn [bind].
  rewrite Hws. cbn [bind]. rewrite Hblur. cbn [bind].
  rewrite Hstain. cbn [bind]. rewrite Hhist. cbn [bind].
  rewrite Hmodel, Hscaler, Hnames. cbn [bind dict_field].
  rewrite Hfeats. cbn [bind]. rewrite Hscaled. cbn [bind].
  rewrite Hprobs. cbn [bind]. rewrite Hargmax. cbn [bind].
  unfold list_index. rewrite Hlabel. cbn [bind]. rewrite Hmax. cbn [bind].
  unfold entropy_threshold in Hentropy. fold cfg in Hentropy.
  destruct (Rgt_dec (calculate_entropy probs)
              (Q2R (dict_get_default cfg "entropy_thresh" 1%Q)))
    as [Hgt | _]; [exfalso; Lra.lra | reflexivity].
Qed.

(** A gate rejection is the same whatever [model_data] holds. *)
Lemma gate_rejection_ignores_model (pil_img : pil_image)
  (model_data other_model : model_dict)
  (config : option (list (string * Q))) (why : option string) :
  safe_predict pil_img model_data config = Return (Rejected why) ->
  safe_predict pil_img other_model config = Return (Rejected why).
Proof.
  unfold safe_predict. intro H.
  destruct (load_image_opencv pil_img) as [cv_img | e];
    cbn [bind] in H |- *; [|discriminate H].
  destruct (check_whitespace _ _ _ _) as [[[|] r1] | e];
    cbn [bind] in H |- *; [exact H | | discriminate H].
  destruct (check_blur _ _ _ _ _) as [[[|] r2] | e];
    cbn [bind] in H |- *; [exact H | | discriminate H].
  destruct (check_stain_profile _ _ _) as [[[|] r3] | e];
    cbn [bind] in H |- *; [exact H | | discriminate H].
  destruct (check_histogram_similarity _ _ _ _ _ _ _) as [[[|] r4] | e];
    cbn [bind] in H |- *; [exact H | | discriminate H].
  exfalso.
  repeat match type of H with
         | bind ?m _ = Return _ =>
             destruct m; cbn [bind] in H; [|discriminate H]
         end.
  destruct (Rgt_dec _ _); discriminate H.
Qed.

End WithOpenCV.

End ModelSafety.

(** ** Concrete runs of the extractor and of the safety wrapper *)

Module PredictionScenarios.

Import Gates Features ModelSafety Scenarios.

Local Open Scope string_scope.

(** A 2 by 2 patch of two purple tones (hue 140 on the 0..180 scale). *)
Definition purple_patch : pil_image :=
[ [ (90, 30, 120)%Z; (170, 90, 200)%Z ];
  [ (170, 90, 200)%Z; (90, 30, 120)%Z ] ].



(** A classifier that answers with the uniform vector, behind an identity
    scaler. *)
Definition uniform : list Q := [0.25; 0.25; 0.25; 0.25]%Q.

Definition uniform_model : model_dict :=
ModelDict (Some (Classifier (fun _ => Return uniform)))
  (Some (Scaler 19 (fun features => Return features)))
  (Some ["HER2_0"; "HER2_1+"; "HER2_2+"; "HER2_3+"]).

(** The entropy of the uniform vector is ln 4 up to epsilon, above 1. *)
Lemma entropy_of_uniform_above_one : (calculate_entropy uniform > 1)%R.
Proof.
  unfold calculate_entropy, uniform, Features.np_sum. simpl.
  assert (Hq : Q2R 0.25 = (1 / 4)%R) by (unfold Q2R; simpl; Lra.lra).
  rewrite Hq.
  assert (Hln : (ln (1 / 4 + epsilon) < - (1))%R).
  { rewrite <- (ln_exp (- (1))).
    apply ln_increasing; [unfold epsilon; Lra.lra|].
    rewrite exp_Ropp.
    assert (H3 : (/ 3 <= / exp 1)%R).
    { apply Rinv_le_contravar; [apply exp_pos | apply exp_le_3]. }
    unfold epsilon. Lra.lra. }
  Lra.lra.
Qed.


End PredictionScenarios.

(** ** The predictor and its lazily loaded artifact ([HER2Predictor]) *)

Module Predictor.

Import Features ModelSafety RiskScorer.

Local Open Scope string_scope.

(** What is behind the model path when a call looks at it. *)
Inductive artifact : Type :=
| Missing
| Unreadable (error : string)
| Pickled (content : model_dict).

(** The attributes [__init__] sets. *)
Record predictor : Type := PredictorState {
  _model_data : option model_dict;
  _ensemble : option classifier;
  _scaler : option scaler;
  _class_names : option (list string)
}.

Definition init : predictor := PredictorState None None None None.

(** A ghost log, absent from the code, of the accesses to the artifact:
    the [os.path.exists] probe and the [joblib.load] call. *)
Inductive access : Type := PathProbe | JoblibLoad.

Definition not_found_message : string :=
"Model file not found. Please place the model file in one of these locations: ['apps/ai/ml_models/advanced_breast_cancer_model.joblib']".

(** [_load_model]: the result, the predictor afterwards and the accesses
    made. *)
Definition _load_model (self : predictor) (at_path : artifact)
  : outcome unit * predictor * list access :=
match _model_data self with
| Some _ => (Return tt, self, [])
| None =>
    match at_path with
    | Missing =>
        (Raise (Exn "FileNotFoundError" not_found_message), self,
         [PathProbe])
    | Unreadable error =>
        (Raise (Exn "RuntimeError" ("Failed to load HER2 model: " ++ error)),
         self, [PathProbe; JoblibLoad])
    | Pickled content =>
        let loaded :=
          PredictorState (Some content) (_ensemble self) (_scaler self)
            (_class_names self) in
        match md_model content with
        | None =>
            (Raise (Exn "RuntimeError"
                      "Model file is corrupted or incompatible. Missing key: 'model'. Please retrain and save the model with correct structure."),
             loaded, [PathProbe; JoblibLoad])
        | Some model =>
            let loaded :=
              PredictorState (Some content) (Some model) (_scaler self)
                (_class_names self) in
            match md_scaler content with
            | None =>
                (Raise (Exn "RuntimeError"
                          "Model file is corrupted or incompatible. Missing key: 'scaler'. Please retrain and save the model with correct structure."),
                 loaded, [PathProbe; JoblibLoad])
            | Some scaler_ =>
                let names :=
                  match md_class_names content with
                  | Some names => names
                  | None => map snd HER2_CLASSES
                  end in
                (Return tt,
                 PredictorState (Some content) (Some model) (Some scaler_)
                   (Some names),
                 [PathProbe; JoblibLoad])
            end
        end
    end
end.

(** The dict [predict] returns. *)
Record prediction_result : Type := PredictionResult {
  her2_status : string;
  confidence : Q;
  probabilities : list (string * Q);
  risk_level : string;
  risk_score : Q;
  entropy : R;
  model_version : string
}.

Definition attribute {A : Type} (name : string) (object : option A)
  : outcome A :=
match object with
| Some a => Return a
| None => Raise (Exn "AttributeError"
                   ("'NoneType' object has no attribute '" ++ name ++ "'"))
end.

Definition int_key (d : list (nat * string)) (key : nat) : outcome string :=
match find (fun entry => Nat.eqb (fst entry) key) d with
| Some entry => Return (snd entry)
| None => Raise (Exn "KeyError" (Fmt.str_int (Z.of_nat key)))
end.

Definition _calculate_entropy (probabilities : list Q) : R :=
(- Features.np_sum
     (map (fun p => Q2R p * ln (Q2R p + 1e-10)) probabilities))%R.

Local Open Scope py_scope.

(** The [try] block of [predict], once [_load_model] has returned. *)
Definition predict_loaded (self : predictor) (opened : outcome pil_image)
  : outcome prediction_result :=
features <- extract_features_from_image opened ;;
scaler_ <- attribute "n_features_in_" (_scaler self) ;;
scaled_features <- transform scaler_ features ;;
ensemble <- attribute "predict_proba" (_ensemble self) ;;
probabilities <- predict_proba ensemble scaled_features ;;
predicted_class_idx <- np_argmax probabilities ;;
predicted_class <- int_key HER2_CLASSES predicted_class_idx ;;
confidence <- list_index probabilities predicted_class_idx ;;
risk_level <- dict_index RISK_LEVELS predicted_class ;;
risk_score <- _calculate_risk_score predicted_class confidence probabilities ;;
let entropy := _calculate_entropy probabilities in
p0 <- list_index probabilities 0 ;;
p1 <- list_index probabilities 1 ;;
p2 <- list_index probabilities 2 ;;
p3 <- list_index probabilities 3 ;;
Return (PredictionResult predicted_class confidence
          [ ("HER2_0", p0); ("HER2_1+", p1); ("HER2_2+", p2); ("HER2_3+", p3) ]
          risk_level risk_score entropy "v2.4.1").

(** [except Exception as e: raise RuntimeError(f"Prediction failed: ...")]. *)
Definition wrap_failure {A : Type} (result : outcome A) : outcome A :=
match result with
| Return a => Return a
| Raise e => Raise (Exn "RuntimeError" ("Prediction failed: " ++ exn_msg e))
end.

Definition predict (self : predictor) (at_path : artifact)
  (opened : outcome pil_image)
  : outcome prediction_result * predictor * list access :=
let '(loaded, self', accesses) := _load_model self at_path in
match loaded with
| Return _ => (wrap_failure (predict_loaded self' opened), self', accesses)
| Raise e => (wrap_failure (Raise e), self', accesses)
end.

(** A sequence of [predict] calls on one predictor, each with what is
    behind the path at that time: the results and accesses, call by call,
    and the predictor at the end. *)
Fixpoint predict_each (self : predictor)
  (calls : list (artifact * outcome pil_image))
  : list (outcome prediction_result * list access) * predictor :=
match calls with
| [] => ([], self)
| (at_path, opened) :: later =>
    let '(result, self', accesses) := predict self at_path opened in
    let '(results, final) := predict_each self' later in
    ((result, accesses) :: results, final)
end.

(** The error of a load that finds no usable artifact. *)
Definition load_error (at_path : artifact) : option string :=
match at_path with
| Missing => Some not_found_message
| Unreadable error => Some ("Failed to load HER2 model: " ++ error)
| Pickled _ => None
end.

(** The accesses of a load that finds no usable artifact. *)
Definition failed_accesses (at_path : artifact) : list access :=
match at_path with
| Missing => [PathProbe]
| _ => [PathProbe; JoblibLoad]
end.

(** *** Properties of the loader *)

Lemma predict_when_loaded (self : predictor) (content : model_dict)
  (at_path : artifact) (opened : outcome pil_image) :
  _model_data self = Some content ->
  predict self at_path opened
  = (wrap_failure (predict_loaded self opened), self, []).
Proof.
  intro Hloaded. unfold predict, _load_model. rewrite Hloaded. reflexivity.
Qed.

Lemma predict_when_unavailable (self : predictor) (at_path : artifact)
  (error : string) (opened : outcome pil_image) :
  _model_data self = None ->
  load_error at_path = Some error ->
  predict self at_path opened
  = (Raise (Exn "RuntimeError" ("Prediction failed: " ++ error)), self,
     failed_accesses at_path).
Proof.
  intros Hnone Herror. unfold predict, _load_model. rewrite Hnone.
  destruct at_path as [| message | content]; simpl in Herror;
    [injection Herror as <- | injection Herror as <- | discriminate Herror];
    reflexivity.
Qed.

Ltac through_bind H :=
  match type of H with
  | bind ?m _ = Return _ =>
      let E := fresh "E" in
      destruct m eqn:E; [cbn [bind] in H | discriminate H]
  end.

(** Whatever [predict] returns carries the four probabilities and the
    entropy of the vector the classifier gave; the dict has no status
    key. *)
Lemma predict_loaded_reports (self : predictor) (opened : outcome pil_image)
  (result : prediction_result) :
  predict_loaded self opened = Return result ->
  exists ensemble scaled probs p0 p1 p2 p3 more,
    predict_proba ensemble scaled = Return probs
    /\ probs = (p0 :: p1 :: p2 :: p3 :: more)%list
    /\ probabilities result
       = [ ("HER2_0", p0); ("HER2_1+", p1); ("HER2_2+", p2); ("HER2_3+", p3) ]
    /\ entropy result = _calculate_entropy probs.
Proof.
  unfold predict_loaded. intro H.
  do 14 through_bind H.
  injection H as <-.
  unfold list_index in *.
  match goal with
  | Hp : predict_proba ?e ?x = Return ?probs |- _ =>
      exists e, x, probs;
      destruct probs as [|q0 [|q1 [|q2 [|q3 more]]]];
      simpl in *; try discriminate
  end.
  repeat match goal with
         | Hq : Return _ = Return _ |- _ => injection Hq as <-
         end.
  exists q0, q1, q2, q3, more. repeat split; assumption.
Qed.


(** A good artifact is read by the first call and never again, whatever
    happens to the file afterwards. *)
Example good_artifact_is_loaded_once :
  map snd
    (fst (predict_each init
            [ (Pickled PredictionScenarios.uniform_model,
               Return PredictionScenarios.purple_patch);
              (Missing, Return PredictionScenarios.purple_patch);
              (Unreadable "truncated",
               Return PredictionScenarios.purple_patch) ]))
  = [ [PathProbe; JoblibLoad]; []; [] ].
Proof. reflexivity. Qed.

End Predictor.

(** ** Further properties of the gates *)

Module GateProperties.

Import Gates.

Local Open Scope string_scope.
Local Open Scope Q_scope.
Local Open Scope py_scope.

(** A gate turns the image away, with a reason. *)
Definition rejects (result : outcome gate_result) : Prop :=
exists why, result = Return (true, Some why).

(** A gate lets the image through. *)
Definition lets_through (result : outcome gate_result) : Prop :=
result = Return (false, None).

(** Every row of the array has the width of the first one. *)
Definition rectangular {A : Type} (a : list (list A)) : Prop :=
Forall (fun row => List.length row = List.length (hd [] a)) a.

Lemma array_size_pos {A : Type} (a : list (list A)) :
  is_empty a = false -> (0 < array_size a)%Z.
Proof.
  destruct a as [|[|x row] rest]; try discriminate. intros _.
  unfold array_size. simpl. lia.
Qed.

Lemma filter_length_le {A : Type} (mask : A -> bool) (l : list A) :
  (List.length (filter mask l) <= List.length l)%nat.
Proof.
  induction l as [|x l IH]; simpl; [lia|].
  destruct (mask x); simpl; lia.
Qed.

Lemma count_true_bounds {A : Type} (mask : A -> bool) (a : list (list A)) :
  (0 <= count_true mask a <= array_size a)%Z.
Proof.
  unfold count_true, array_size.
  pose proof (filter_length_le mask (List.concat a)). lia.
Qed.

Lemma array_size_rectangular {A : Type} (a : list (list A)) :
  rectangular a -> array_size a = shape_product a.
Proof.
  unfold rectangular, array_size, shape_product.
  generalize (List.length (hd [] a)). intros w Hrows.
  induction Hrows as [|row rest Hrow _ IH]; [reflexivity|].
  change (List.concat (row :: rest)) with (row ++ List.concat rest)%list.
  rewrite length_app, Hrow. cbn [List.length].
  rewrite Nat2Z.inj_add, Nat2Z.inj_succ, IH. lia.
Qed.

Lemma rectangular_map {A B : Type} (f : A -> B) (a : list (list A)) :
  rectangular a -> rectangular (map (map f) a).
Proof.
  unfold rectangular. intro H.
  assert (Hw : List.length (hd [] (map (map f) a)) = List.length (hd [] a))
    by (destruct a; [reflexivity | apply length_map]).
  rewrite Hw. apply Forall_map.
  eapply Forall_impl; [|exact H]. intros row Hrow.
  rewrite length_map. exact Hrow.
Qed.

Lemma fraction_bounds (count total : Z) :
  (0 <= count <= total)%Z -> (0 < total)%Z ->
  0 <= inject_Z count / inject_Z total <= 1.
Proof.
  intros [Hlo Hhi] Hpos.
  assert (Htotal : 0 < inject_Z total) by (unfold Qlt; simpl; lia).
  split.
  - apply Qle_shift_div_l; [exact Htotal|].
    rewrite Qmult_0_l. unfold Qle. simpl. lia.
  - apply Qle_shift_div_r; [exact Htotal|].
    rewrite Qmult_1_l. unfold Qle. simpl. lia.
Qed.

Section WithOpenCV.

Variable COLOR_BGR2GRAY : bgr -> Z.
Variable COLOR_BGR2HSV : bgr -> hsv.
Variable calcHist_normalized : list (list hsv) -> list Q.
Variable compareHist_CORREL : list Q -> list Q -> Q.
Variable float_repr : Q -> string.

(** X1. On a non-empty image the whitespace ratio is a fraction between 0
    and 1.  The gate rejects exactly when the ratio is above the
    threshold: a threshold of 1 or more lets every image through, a
    negative one rejects every image, and lowering the threshold never
    turns a rejection into a pass. *)
Theorem whitespace_gate_thresholds (cv_img : cv_image)
  (threshold lower : Q) (white_pixel_val : Z) :
  is_empty cv_img = false ->
  exists ratio,
    whitespace_ratio COLOR_BGR2GRAY cv_img white_pixel_val = Return ratio
    /\ 0 <= ratio <= 1
    /\ (rejects (check_whitespace COLOR_BGR2GRAY cv_img threshold
                   white_pixel_val)
        <-> threshold < ratio)
    /\ (lets_through (check_whitespace COLOR_BGR2GRAY cv_img threshold
                        white_pixel_val)
        <-> ratio <= threshold)
    /\ (1 <= threshold ->
        lets_through (check_whitespace COLOR_BGR2GRAY cv_img threshold
                        white_pixel_val))
    /\ (threshold < 0 ->
        rejects (check_whitespace COLOR_BGR2GRAY cv_img threshold
                   white_pixel_val))
    /\ (lower <= threshold ->
        rejects (check_whitespace COLOR_BGR2GRAY cv_img threshold
                   white_pixel_val) ->
        rejects (check_whitespace COLOR_BGR2GRAY cv_img lower
                   white_pixel_val)).
Proof.
  intro Hne.
  set (gray := map (map COLOR_BGR2GRAY) cv_img).
  set (ratio := inject_Z (count_true (fun g => (g >? white_pixel_val)%Z) gray)
                / inject_Z (array_size gray)).
  assert (Hratio : whitespace_ratio COLOR_BGR2GRAY cv_img white_pixel_val
                   = Return ratio).
  { unfold whitespace_ratio. rewrite (cvtColor_nonempty _ _ Hne). reflexivity. }
  assert (Hbounds : 0 <= ratio <= 1).
  { apply fraction_bounds; [apply count_true_bounds|].
    apply array_size_pos. unfold gray. rewrite is_empty_map. exact Hne. }
  assert (Hrej : forall t,
             rejects (check_whitespace COLOR_BGR2GRAY cv_img t white_pixel_val)
             <-> t < ratio).
  { intro t. unfold rejects, check_whitespace. rewrite Hratio. cbn [bind].
    destruct (Qltb t ratio) eqn:E.
    - apply Qltb_true in E. split; [intros _; exact E|].
      intros _. eexists. reflexivity.
    - apply Qltb_false in E. split.
      + intros (why & Hwhy). discriminate Hwhy.
      + intro Hlt. exfalso. exact (Qlt_not_le _ _ Hlt E). }
  assert (Hpass : forall t,
             lets_through (check_whitespace COLOR_BGR2GRAY cv_img t
                             white_pixel_val)
             <-> ratio <= t).
  { intro t. unfold lets_through, check_whitespace. rewrite Hratio.
    cbn [bind]. destruct (Qltb t ratio) eqn:E.
    - apply Qltb_true in E. split; [intro H; discriminate H|].
      intro Hle. exfalso. exact (Qlt_not_le _ _ E Hle).
    - apply Qltb_false in E. split; [intros _; exact E | reflexivity]. }
  exists ratio. split; [exact Hratio|]. split; [exact Hbounds|].
  split; [apply Hrej|]. split; [apply Hpass|].
  split; [|split].
  - intro H1. apply Hpass. lra.
  - intro H0. apply Hrej. lra.
  - intros Hle Hr. apply Hrej. apply Hrej in Hr. lra.
Qed.

(** X2. On a non-empty rectangular image the stain coverage is a fraction
    between 0 and 1.  The gate rejects exactly when the coverage is below
    the minimum: a minimum of 0 or less lets every image through, a
    minimum above 1 rejects every image, and raising the minimum never
    turns a rejection into a pass. *)
Theorem stain_gate_thresholds (cv_img : cv_image)
  (min_stain_coverage higher : Q) :
  is_empty cv_img = false ->
  rectangular cv_img ->
  exists ratio,
    stain_coverage COLOR_BGR2HSV cv_img = Return ratio
    /\ 0 <= ratio <= 1
    /\ (rejects (check_stain_profile COLOR_BGR2HSV cv_img min_stain_coverage)
        <-> ratio < min_stain_coverage)
    /\ (lets_through (check_stain_profile COLOR_BGR2HSV cv_img
                        min_stain_coverage)
        <-> min_stain_coverage <= ratio)
    /\ (min_stain_coverage <= 0 ->
        lets_through (check_stain_profile COLOR_BGR2HSV cv_img
                        min_stain_coverage))
    /\ (1 < min_stain_coverage ->
        rejects (check_stain_profile COLOR_BGR2HSV cv_img
                   min_stain_coverage))
    /\ (min_stain_coverage <= higher ->
        rejects (check_stain_profile COLOR_BGR2HSV cv_img
                   min_stain_coverage) ->
        rejects (check_stain_profile COLOR_BGR2HSV cv_img higher)).
Proof.
  intros Hne Hrect.
  set (hsv_img := map (map COLOR_BGR2HSV) cv_img).
  set (ratio := inject_Z (count_true stain_pixels hsv_img)
                / inject_Z (shape_product hsv_img)).
  assert (Hratio : stain_coverage COLOR_BGR2HSV cv_img = Return ratio).
  { unfold stain_coverage. rewrite (cvtColor_nonempty _ _ Hne). reflexivity. }
  assert (Hshape : shape_product hsv_img = array_size hsv_img).
  { symmetry. apply array_size_rectangular, rectangular_map, Hrect. }
  assert (Hbounds : 0 <= ratio <= 1).
  { unfold ratio. rewrite Hshape.
    apply fraction_bounds; [apply count_true_bounds|].
    apply array_size_pos. unfold hsv_img. rewrite is_empty_map. exact Hne. }
  assert (Hrej : forall m,
             rejects (check_stain_profile COLOR_BGR2HSV cv_img m)
             <-> ratio < m).
  { intro m. unfold rejects, check_stain_profile. rewrite Hratio. cbn [bind].
    destruct (Qltb ratio m) eqn:E.
    - apply Qltb_true in E. split; [intros _; exact E|].
      intros _. eexists. reflexivity.
    - apply Qltb_false in E. split.
      + intros (why & Hwhy). discriminate Hwhy.
      + intro Hlt. exfalso. exact (Qlt_not_le _ _ Hlt E). }
  assert (Hpass : forall m,
             lets_through (check_stain_profile COLOR_BGR2HSV cv_img m)
             <-> m <= ratio).
  { intro m. unfold lets_through, check_stain_profile. rewrite Hratio.
    cbn [bind]. destruct (Qltb ratio m) eqn:E.
    - apply Qltb_true in E. split; [intro H; discriminate H|].
      intro Hle. exfalso. exact (Qlt_not_le _ _ E Hle).
    - apply Qltb_false in E. split; [intros _; exact E | reflexivity]. }
  exists ratio. split; [exact Hratio|]. split; [exact Hbounds|].
  split; [apply Hrej|]. split; [apply Hpass|].
  split; [|split].
  - intro H0. apply Hpass. lra.
  - intro H1. apply Hrej. lra.
  - intros Hle Hr. apply Hrej. apply Hrej in Hr. lra.
Qed.

Lemma running_max_ge_start (score : list Q -> Q) (refs : list (list Q))
  (start : Q) :
  start <= fold_left
             (fun max_score ref_hist =>
                if Qltb max_score (score ref_hist) then score ref_hist
                else max_score)
             refs start.
Proof.
  revert start. induction refs as [|r refs IH]; intro start; simpl.
  - lra.
  - destruct (Qltb start (score r)) eqn:E.
    + apply Qltb_true in E. specialize (IH (score r)). lra.
    + apply IH.
Qed.

Lemma running_max_ge_each (score : list Q -> Q) (refs : list (list Q))
  (start : Q) (r : list Q) :
  In r refs ->
  score r <= fold_left
               (fun max_score ref_hist =>
                  if Qltb max_score (score ref_hist) then score ref_hist
                  else max_score)
               refs start.
Proof.
  revert start. induction refs as [|r0 refs IH]; intros start Hin;
    [contradiction|].
  simpl. destruct Hin as [-> | Hin]; [|apply IH; exact Hin].
  destruct (Qltb start (score r)) eqn:E.
  - apply running_max_ge_start.
  - apply Qltb_false in E.
    pose proof (running_max_ge_start score refs start). lra.
Qed.

(** X3. The histogram gate keeps the best score, never below -1.  A
    threshold of -1 or less lets every image through whatever the corpus
    holds; one reference whose score reaches the threshold is enough to
    pass; raising the threshold never turns a rejection into a pass. *)
Theorem histogram_gate_best_match (corpus : option (list (list Q)))
  (cv_img : cv_image) (threshold higher : Q) :
  is_empty cv_img = false ->
  exists target,
    compute_histogram COLOR_BGR2HSV calcHist_normalized cv_img = Return target
    /\ (forall refs, -1 <= max_similarity compareHist_CORREL target refs)
    /\ (threshold <= -1 ->
        lets_through (check_histogram_similarity COLOR_BGR2HSV
                        calcHist_normalized compareHist_CORREL corpus
                        float_repr cv_img threshold))
    /\ (forall refs ref,
          corpus = Some refs -> In ref refs ->
          threshold <= compareHist_CORREL target ref ->
          lets_through (check_histogram_similarity COLOR_BGR2HSV
                          calcHist_normalized compareHist_CORREL corpus
                          float_repr cv_img threshold))
    /\ (threshold <= higher ->
        rejects (check_histogram_similarity COLOR_BGR2HSV
                   calcHist_normalized compareHist_CORREL corpus
                   float_repr cv_img threshold) ->
        rejects (check_histogram_similarity COLOR_BGR2HSV
                   calcHist_normalized compareHist_CORREL corpus
                   float_repr cv_img higher)).
Proof.
  intro Hne.
  set (target := calcHist_normalized (map (map COLOR_BGR2HSV) cv_img)).
  assert (Htarget : compute_histogram COLOR_BGR2HSV calcHist_normalized cv_img
                    = Return target).
  { unfold compute_histogram. rewrite (cvtColor_nonempty _ _ Hne).
    reflexivity. }
  assert (Hlow : forall refs,
             -1 <= max_similarity compareHist_CORREL target refs)
    by (intro refs; apply running_max_ge_start).
  assert (Hcases : forall t,
             check_histogram_similarity COLOR_BGR2HSV calcHist_normalized
               compareHist_CORREL corpus float_repr cv_img t
             = match corpus with
               | None | Some [] => Return (false, None)
               | Some refs =>
                   if Qltb (max_similarity compareHist_CORREL target refs) t
                   then Return
                          (true,
                           Some ("Image content does not match training data (Similarity: "
                                 ++ Fmt.format_fixed 2
                                      (max_similarity compareHist_CORREL
                                         target refs)
                                 ++ " < " ++ float_repr t ++ ")"))
                   else Return (false, None)
               end).
  { intro t. unfold check_histogram_similarity.
    destruct corpus as [[|r refs]|]; try reflexivity.
    rewrite Htarget. reflexivity. }
  exists target. split; [exact Htarget|]. split; [exact Hlow|].
  split; [|split].
  - intro Ht. unfold lets_through. rewrite Hcases.
    destruct corpus as [[|r refs]|]; try reflexivity.
    destruct (Qltb _ threshold) eqn:E; [|reflexivity].
    apply Qltb_true in E. specialize (Hlow (r :: refs)). lra.
  - intros refs ref -> Hin Hscore. unfold lets_through. rewrite Hcases.
    destruct refs as [|r refs]; [reflexivity|].
    destruct (Qltb _ threshold) eqn:E; [|reflexivity].
    apply Qltb_true in E.
    pose proof (running_max_ge_each (compareHist_CORREL target)
                  (r :: refs) (-1) ref Hin) as Hmax.
    unfold max_similarity in E. lra.
  - intros Hle (why & Hwhy). unfold rejects. rewrite Hcases in *.
    destruct corpus as [[|r refs]|]; try discriminate Hwhy.
    destruct (Qltb _ threshold) eqn:E; [|discriminate Hwhy].
    apply Qltb_true in E.
    assert (E' : Qltb (max_similarity compareHist_CORREL target (r :: refs))
                   higher = true) by (apply Qltb_true; lra).
    rewrite E'. eexists. reflexivity.
Qed.

(** [check_color_profile], the older colour check that both files still
    carry: [cv2.inRange] against the tissue bounds (inclusive), then the
    mean saturation. *)
Definition inRange (lower upper p : hsv) : bool :=
let '(h, s, v) := p in
let '(lh, ls, lv) := lower in
let '(uh, us, uv) := upper in
((lh <=? h) && (h <=? uh) && (ls <=? s) && (s <=? us)
 && (lv <=? v) && (v <=? uv))%Z.

Definition saturation (p : hsv) : Z := let '(_, s, _) := p in s.

Definition check_color_profile (cv_img : cv_image) : outcome gate_result :=
hsv_img <- cvtColor COLOR_BGR2HSV cv_img ;;
let lower_tissue := (0, 20, 0)%Z in
let upper_tissue := (180, 255, 230)%Z in
let tissue_pixels := count_true (inRange lower_tissue upper_tissue) hsv_img in
if (tissue_pixels <? 100)%Z
then Return (true, Some "No tissue detected (color profile)")
else
  let sat_mean :=
    inject_Z (fold_left Z.add (map saturation (List.concat hsv_img)) 0%Z)
    / inject_Z (array_size hsv_img) in
  if Qltb sat_mean 5
  then Return (true, Some "Image is grayscale/monochrome")
  else Return (false, None).

(** X4. [check_color_profile] needs 100 tissue pixels: an image of fewer
    than 100 pixels, and an image whose pixels all have a saturation below
    20 or all a value above 230, is rejected with "No tissue detected
    (color profile)" whatever else it shows. *)
Theorem color_profile_needs_tissue (cv_img : cv_image) :
  is_empty cv_img = false ->
  (array_size cv_img < 100)%Z
  \/ (forall row p, In row cv_img -> In p row ->
        (saturation (COLOR_BGR2HSV p) < 20)%Z)
  \/ (forall row p, In row cv_img -> In p row ->
        let '(_, _, v) := COLOR_BGR2HSV p in (230 < v)%Z) ->
  check_color_profile cv_img
  = Return (true, Some "No tissue detected (color profile)").
Proof.
  intros Hne Hcases. unfold check_color_profile.
  rewrite (cvtColor_nonempty _ _ Hne). cbn [bind].
  set (hsv_img := map (map COLOR_BGR2HSV) cv_img).
  assert (Hfew : (count_true (inRange (0, 20, 0)%Z (180, 255, 230)%Z) hsv_img
                  < 100)%Z).
  { destruct Hcases as [Hsmall | [Hsat | Hval]].
    - pose proof (count_true_bounds (inRange (0, 20, 0)%Z (180, 255, 230)%Z)
                    hsv_img) as Hb.
      assert (Hsize : array_size hsv_img = array_size cv_img).
      { unfold array_size, hsv_img.
        rewrite <- concat_map, length_map. reflexivity. }
      lia.
    - rewrite count_true_none; [lia|].
      intros row x Hrow Hx. unfold hsv_img in Hrow.
      apply in_map_iff in Hrow. destruct Hrow as (row0 & <- & Hrow0).
      apply in_map_iff in Hx. destruct Hx as (p & <- & Hp).
      specialize (Hsat row0 p Hrow0 Hp).
      destruct (COLOR_BGR2HSV p) as [[h s] v]. simpl in Hsat. simpl.
      replace (20 <=? s)%Z with false by (symmetry; apply Z.leb_gt; lia).
      rewrite !Bool.andb_false_r. reflexivity.
    - rewrite count_true_none; [lia|].
      intros row x Hrow Hx. unfold hsv_img in Hrow.
      apply in_map_iff in Hrow. destruct Hrow as (row0 & <- & Hrow0).
      apply in_map_iff in Hx. destruct Hx as (p & <- & Hp).
      specialize (Hval row0 p Hrow0 Hp).
      destruct (COLOR_BGR2HSV p) as [[h s] v]. simpl.
      replace (v <=? 230)%Z with false by (symmetry; apply Z.leb_gt; lia).
      rewrite !Bool.andb_false_r. reflexivity. }
  apply Z.ltb_lt in Hfew. rewrite Hfew. reflexivity.
Qed.

End WithOpenCV.

End GateProperties.

(** ** Further properties of the validator *)

Module ValidatorProperties.

Import Gates Validator GateProperties.

Local Open Scope string_scope.
Local Open Scope Q_scope.
Local Open Scope py_scope.

(** What a gate can return: a pass without a reason, or a rejection with a
    reason that is not the empty string. *)
Definition well_shaped (result : gate_result) : Prop :=
result = (false, None)
\/ exists c rest, result = (true, Some (String c rest)).

Section WithOpenCV.

Variable COLOR_BGR2GRAY : bgr -> Z.
Variable COLOR_BGR2HSV : bgr -> hsv.
Variable Laplacian_var : list (list Z) -> Q.
Variable calcHist_normalized : list (list hsv) -> list Q.
Variable compareHist_CORREL : list Q -> list Q -> Q.
Variable REFERENCE_HISTOGRAMS : option (list (list Q)).
Variable float_repr : Q -> string.

Local Abbreviation validate_ :=
  (validate COLOR_BGR2GRAY COLOR_BGR2HSV Laplacian_var calcHist_normalized
     compareHist_CORREL REFERENCE_HISTOGRAMS float_repr).
Local Abbreviation validate_pil_image_ :=
  (validate_pil_image COLOR_BGR2GRAY COLOR_BGR2HSV Laplacian_var
     calcHist_normalized compareHist_CORREL REFERENCE_HISTOGRAMS float_repr).
Local Abbreviation validate_then_predict_ :=
  (validate_then_predict COLOR_BGR2GRAY COLOR_BGR2HSV Laplacian_var
     calcHist_normalized compareHist_CORREL REFERENCE_HISTOGRAMS float_repr).
Local Abbreviation whitespace_ t cv :=
  (check_whitespace COLOR_BGR2GRAY cv t 220).
Local Abbreviation blur_ t cv :=
  (check_blur COLOR_BGR2GRAY Laplacian_var float_repr cv t).
Local Abbreviation stain_ t cv :=
  (check_stain_profile COLOR_BGR2HSV cv t).
Local Abbreviation histogram_ t cv :=
  (check_histogram_similarity COLOR_BGR2HSV calcHist_normalized
     compareHist_CORREL REFERENCE_HISTOGRAMS float_repr cv t).

Lemma whitespace_well_shaped (cv_img : cv_image) (t : Q) (w : Z)
  (result : gate_result) :
  check_whitespace COLOR_BGR2GRAY cv_img t w = Return result ->
  well_shaped result.
Proof.
  unfold check_whitespace, whitespace_ratio, cvtColor.
  destruct (is_empty cv_img); [discriminate|]. cbn [bind].
  destruct (Qltb _ _); intro H; injection H as <-;
    [right; eexists _, _; reflexivity | left; reflexivity].
Qed.

Lemma blur_well_shaped (cv_img : cv_image) (t : Q) (result : gate_result) :
  blur_ t cv_img = Return result -> well_shaped result.
Proof.
  unfold check_blur, cvtColor.
  destruct (is_empty cv_img); [discriminate|]. cbn [bind].
  destruct (Qltb _ _); intro H; injection H as <-;
    [right; eexists _, _; reflexivity | left; reflexivity].
Qed.

Lemma stain_well_shaped (cv_img : cv_image) (t : Q) (result : gate_result) :
  stain_ t cv_img = Return result -> well_shaped result.
Proof.
  unfold check_stain_profile, stain_coverage, cvtColor.
  destruct (is_empty cv_img); [discriminate|]. cbn [bind].
  destruct (Qltb _ _); intro H; injection H as <-;
    [right; eexists _, _; reflexivity | left; reflexivity].
Qed.

Lemma histogram_well_shaped (cv_img : cv_image) (t : Q)
  (result : gate_result) :
  histogram_ t cv_img = Return result -> well_shaped result.
Proof.
  unfold check_histogram_similarity, compute_histogram, cvtColor.
  destruct REFERENCE_HISTOGRAMS as [[|ref refs]|];
    try (intro H; injection H as <-; left; reflexivity).
  destruct (is_empty cv_img); [discriminate|]. cbn [bind].
  destruct (Qltb _ _); intro H; injection H as <-;
    [right; eexists _, _; reflexivity | left; reflexivity].
Qed.

(** [validate] on a decoded, non-empty image with the four thresholds it
    looks up and the four gate results it gets. *)
Lemma validate_run (overrides config : list (string * Q))
  (pil_img : pil_image) :
  is_empty pil_img = false ->
  let cfg := dict_merge (init_config overrides) config in
  let width := fst (pil_size pil_img) in
  let height := snd (pil_size pil_img) in
  exists cv_img t1 t2 t3 t4 g1 g2 g3 g4,
    load_image_opencv pil_img = Return cv_img
    /\ dict_get cfg "whitespace_thresh" = Some t1
    /\ dict_get cfg "blur_thresh" = Some t2
    /\ dict_get cfg "stain_thresh" = Some t3
    /\ dict_get cfg "hist_thresh" = Some t4
    /\ whitespace_ t1 cv_img = Return g1 /\ well_shaped g1
    /\ blur_ t2 cv_img = Return g2 /\ well_shaped g2
    /\ stain_ t3 cv_img = Return g3 /\ well_shaped g3
    /\ histogram_ t4 cv_img = Return g4 /\ well_shaped g4
    /\ exists checks_,
         validate_ (init_config overrides) (Return pil_img) config
         = if (width <? MIN_WIDTH)%Z || (height <? MIN_HEIGHT)%Z then
             Report false "rejected"
               (Some ("Image too small (" ++ size_text width height
                      ++ "). Minimum: " ++ size_text MIN_WIDTH MIN_HEIGHT))
               0 []
           else if (width >? MAX_WIDTH)%Z || (height >? MAX_HEIGHT)%Z then
             Report false "rejected"
               (Some ("Image too large (" ++ size_text width height
                      ++ "). Maximum: " ++ size_text MAX_WIDTH MAX_HEIGHT))
               0 []
           else if fst g1 then Report false "rejected" (snd g1) 0 checks_
           else if fst g2 then Report false "rejected" (snd g2) 0 checks_
           else if fst g3 then Report false "rejected" (snd g3) 0 checks_
           else if fst g4 then Report false "rejected" (snd g4) 0 checks_
           else Report true "valid" None 1 checks_.
Proof.
  intros Hne cfg width height.
  destruct (load_image_opencv_returns pil_img Hne) as (cv_img & Hload & Hcv).
  destruct (merged_config_has overrides config "whitespace_thresh")
    as (t1 & H1); [simpl; tauto|].
  destruct (merged_config_has overrides config "blur_thresh")
    as (t2 & H2); [simpl; tauto|].
  destruct (merged_config_has overrides config "stain_thresh")
    as (t3 & H3); [simpl; tauto|].
  destruct (merged_config_has overrides config "hist_thresh")
    as (t4 & H4); [simpl; tauto|].
  fold cfg in H1, H2, H3, H4.
  destruct (gates_after_dimensions_run COLOR_BGR2GRAY COLOR_BGR2HSV
              Laplacian_var calcHist_normalized compareHist_CORREL
              REFERENCE_HISTOGRAMS float_repr cfg cv_img
              [("dimensions", CheckValue true (size_text width height))]
              ["dimensions"] t1 t2 t3 t4 H1 H2 H3 H4 Hcv)
    as (b1 & r1 & b2 & r2 & b3 & r3 & b4 & r4 & E1 & E2 & E3 & E4 & Hrun).
  exists cv_img, t1, t2, t3, t4, (b1, r1), (b2, r2), (b3, r3), (b4, r4).
  split; [exact Hload|].
  do 4 (split; [assumption|]).
  split; [exact E1|]. split; [exact (whitespace_well_shaped _ _ _ _ E1)|].
  split; [exact E2|]. split; [exact (blur_well_shaped _ _ _ E2)|].
  split; [exact E3|]. split; [exact (stain_well_shaped _ _ _ E3)|].
  split; [exact E4|]. split; [exact (histogram_well_shaped _ _ _ E4)|].
  unfold validate, validate_traced, with_except, validate_try, and_then, call.
  fold cfg. rewrite Hload.
  unfold pil_size in *. cbn [fst snd] in *. fold width height.
  cbn [begin_gate evaluated frame_checks app].
  destruct ((width <? MIN_WIDTH)%Z || (height <? MIN_HEIGHT)%Z);
    [exists []; reflexivity|].
  destruct ((width >? MAX_WIDTH)%Z || (height >? MAX_HEIGHT)%Z);
    [exists []; reflexivity|].
  cbn [set_check evaluated frame_checks dict_set].
  cbv zeta in Hrun. rewrite Hrun. cbn [fst snd].
  destruct b1; [eexists; reflexivity|].
  destruct b2; [eexists; reflexivity|].
  destruct b3; [eexists; reflexivity|].
  destruct b4; eexists; reflexivity.
Qed.

(** X5. [validate] accepts exactly the decoded images whose size is within
    the bounds and that every gate lets through at the threshold the merged
    configuration holds for it. *)
Theorem validate_accepts_iff_all_gates_pass
  (overrides config : list (string * Q)) (pil_img : pil_image) :
  is_empty pil_img = false ->
  let cfg := dict_merge (init_config overrides) config in
  let width := fst (pil_size pil_img) in
  let height := snd (pil_size pil_img) in
  exists cv_img t1 t2 t3 t4,
    load_image_opencv pil_img = Return cv_img
    /\ dict_get cfg "whitespace_thresh" = Some t1
    /\ dict_get cfg "blur_thresh" = Some t2
    /\ dict_get cfg "stain_thresh" = Some t3
    /\ dict_get cfg "hist_thresh" = Some t4
    /\ (is_valid (validate_ (init_config overrides) (Return pil_img) config)
        = true
        <-> (MIN_WIDTH <= width <= MAX_WIDTH)%Z
            /\ (MIN_HEIGHT <= height <= MAX_HEIGHT)%Z
            /\ lets_through (whitespace_ t1 cv_img)
            /\ lets_through (blur_ t2 cv_img)
            /\ lets_through (stain_ t3 cv_img)
            /\ lets_through (histogram_ t4 cv_img)).
Proof.
  intros Hne cfg width height.
  destruct (validate_run overrides config pil_img Hne)
    as (cv_img & t1 & t2 & t3 & t4 & g1 & g2 & g3 & g4 & Hload
        & H1 & H2 & H3 & H4 & E1 & W1 & E2 & W2 & E3 & W3 & E4 & W4
        & checks_ & Hv).
  exists cv_img, t1, t2, t3, t4.
  split; [exact Hload|]. do 4 (split; [assumption|]).
  rewrite Hv. clear Hv. fold width height. unfold lets_through.
  rewrite E1, E2, E3, E4.
  destruct ((width <? MIN_WIDTH)%Z || (height <? MIN_HEIGHT)%Z) eqn:Esmall.
  { split; [discriminate|]. intros (Hw & Hh & _). exfalso.
    apply Bool.orb_true_iff in Esmall.
    destruct Esmall as [E | E]; apply Z.ltb_lt in E; lia. }
  destruct ((width >? MAX_WIDTH)%Z || (height >? MAX_HEIGHT)%Z) eqn:Elarge.
  { split; [discriminate|]. intros (Hw & Hh & _). exfalso.
    apply Bool.orb_true_iff in Elarge.
    destruct Elarge as [E | E]; rewrite Z.gtb_ltb in E; apply Z.ltb_lt in E;
      lia. }
  apply Bool.orb_false_iff in Esmall. destruct Esmall as [Es1 Es2].
  apply Bool.orb_false_iff in Elarge. destruct Elarge as [El1 El2].
  apply Z.ltb_ge in Es1, Es2. rewrite Z.gtb_ltb in El1, El2.
  apply Z.ltb_ge in El1, El2.
  destruct W1 as [-> | (c1 & s1 & ->)]; cbn [fst snd];
    [|split; [discriminate | intros (_ & _ & H & _); discriminate H]].
  destruct W2 as [-> | (c2 & s2 & ->)]; cbn [fst snd];
    [|split; [discriminate | intros (_ & _ & _ & H & _); discriminate H]].
  destruct W3 as [-> | (c3 & s3 & ->)]; cbn [fst snd];
    [|split; [discriminate | intros (_ & _ & _ & _ & H & _); discriminate H]].
  destruct W4 as [-> | (c4 & s4 & ->)]; cbn [fst snd];
    [|split; [discriminate | intros (_ & _ & _ & _ & _ & H); discriminate H]].
  split; [intros _ | reflexivity].
  repeat split; (lia || reflexivity).
Qed.

Ltac rejected_fields :=
  split; [reflexivity | split; [reflexivity | eexists _, _; reflexivity]].

(** X6. The fields of a report go together: a valid report has status
    "valid", no reason and confidence 1; a rejected one has status
    "rejected", confidence 0 and a reason that is never missing or empty.
    The upload view therefore always answers with the validator's reason,
    never with its fallback text. *)
Theorem report_fields_go_together (overrides config : list (string * Q))
  (opened : outcome pil_image) (P : Type) (predict : outcome P) :
  (let r := validate_ (init_config overrides) opened config in
   (is_valid r = true ->
    status r = "valid" /\ reason r = None /\ confidence r = 1)
   /\ (is_valid r = false ->
       status r = "rejected" /\ confidence r = 0
       /\ exists c rest, reason r = Some (String c rest)))
  /\ (let r := validate_ (init_config []) opened [] in
      is_valid r = false ->
      exists why,
        reason r = Some why
        /\ fst (validate_then_predict_ opened predict)
           = @BadRequest P why "rejected" 0 (checks r)).
Proof.
  assert (Hfields : forall o c,
    let r := validate_ (init_config o) opened c in
    (is_valid r = true ->
     status r = "valid" /\ reason r = None /\ confidence r = 1)
    /\ (is_valid r = false ->
        status r = "rejected" /\ confidence r = 0
        /\ exists ch rest, reason r = Some (String ch rest))).
  { intros o c. cbv zeta.
    destruct opened as [pil_img | e].
    2: { split; [discriminate | intros _; rejected_fields]. }
    destruct (is_empty pil_img) eqn:Hempty.
    - destruct (load_image_opencv_raises pil_img Hempty) as (e & He).
      unfold validate, validate_traced, with_except, validate_try,
        and_then, call.
      rewrite He. cbn [fst is_valid status reason confidence].
      split; [discriminate | intros _; rejected_fields].
    - destruct (validate_run o c pil_img Hempty)
        as (cv_img & t1 & t2 & t3 & t4 & g1 & g2 & g3 & g4 & _
            & _ & _ & _ & _ & _ & W1 & _ & W2 & _ & W3 & _ & W4
            & checks_ & Hv).
      rewrite Hv. clear Hv.
      destruct (_ || _).
      { split; [discriminate | intros _; rejected_fields]. }
      destruct (_ || _).
      { split; [discriminate | intros _; rejected_fields]. }
      destruct W1 as [-> | (c1 & s1 & ->)]; cbn [fst snd];
        [|split; [discriminate | intros _; rejected_fields]].
      destruct W2 as [-> | (c2 & s2 & ->)]; cbn [fst snd];
        [|split; [discriminate | intros _; rejected_fields]].
      destruct W3 as [-> | (c3 & s3 & ->)]; cbn [fst snd];
        [|split; [discriminate | intros _; rejected_fields]].
      destruct W4 as [-> | (c4 & s4 & ->)]; cbn [fst snd];
        [|split; [discriminate | intros _; rejected_fields]].
      split; [intros _; repeat split; reflexivity | discriminate]. }
  split; [apply Hfields|].
  cbv zeta. intro Hinvalid.
  destruct (Hfields [] []) as [_ Hrej]. cbv zeta in Hrej.
  destruct (Hrej Hinvalid) as (Hstatus & Hconf & ch & rest & Hreason).
  exists (String ch rest). split; [exact Hreason|].
  unfold validate_then_predict, validate in *.
  destruct (validate_traced _ _ _ _ _ _ _ (init_config []) opened [])
    as [r log].
  cbn [fst] in *. rewrite Hinvalid, Hreason, Hstatus, Hconf. reflexivity.
Qed.

(** X7. [validate_pil_image] and [validate] agree on every decoded image
    whose size is within the bounds; on an image above the maximum
    [validate] rejects for its size while [validate_pil_image], which has
    no maximum, records the dimensions as passed. *)
Theorem validate_pil_image_agrees_within_bounds
  (overrides config : list (string * Q)) (pil_img : pil_image) :
  is_empty pil_img = false ->
  let width := fst (pil_size pil_img) in
  let height := snd (pil_size pil_img) in
  (MIN_WIDTH <= width)%Z ->
  (MIN_HEIGHT <= height)%Z ->
  ((width <= MAX_WIDTH)%Z -> (height <= MAX_HEIGHT)%Z ->
   validate_pil_image_ (init_config overrides) pil_img config
   = validate_ (init_config overrides) (Return pil_img) config)
  /\ ((MAX_WIDTH < width)%Z \/ (MAX_HEIGHT < height)%Z ->
      validate_ (init_config overrides) (Return pil_img) config
      = Report false "rejected"
          (Some ("Image too large (" ++ size_text width height
                 ++ "). Maximum: 100000x100000"))
          0 []
      /\ dict_get
           (checks (validate_pil_image_ (init_config overrides) pil_img
                      config))
           "dimensions"
         = Some (CheckValue true (size_text width height))).
Proof.
  intros Hne width height Hw Hh.
  assert (Esmall : (width <? MIN_WIDTH)%Z || (height <? MIN_HEIGHT)%Z = false)
    by (apply Bool.orb_false_iff; split; apply Z.ltb_ge; assumption).
  split.
  - intros Hwmax Hhmax.
    assert (Elarge : (width >? MAX_WIDTH)%Z || (height >? MAX_HEIGHT)%Z
                     = false)
      by (apply Bool.orb_false_iff; split; rewrite Z.gtb_ltb;
          apply Z.ltb_ge; assumption).
    destruct (load_image_opencv_returns pil_img Hne) as (cv_img & Hload & _).
    unfold validate_pil_image, validate, validate_traced, with_except,
      validate_pil_image_try, validate_try, and_then, call.
    rewrite Hload. unfold pil_size in *. cbn [fst snd] in *.
    fold width height.
    cbn [begin_gate evaluated frame_checks app].
    rewrite Esmall, Elarge.
    cbn [set_check evaluated frame_checks dict_set].
    destruct (gates_after_dimensions _ _ _ _ _ _ _ _ _ _) as [[r | e] s];
      reflexivity.
  - intro Hover.
    assert (Elarge : (width >? MAX_WIDTH)%Z || (height >? MAX_HEIGHT)%Z
                     = true)
      by (apply Bool.orb_true_iff; destruct Hover; [left | right];
          rewrite Z.gtb_ltb; apply Z.ltb_lt; assumption).
    split.
    + destruct (validate_run overrides config pil_img Hne)
        as (cv_img & t1 & t2 & t3 & t4 & g1 & g2 & g3 & g4 & _
            & _ & _ & _ & _ & _ & _ & _ & _ & _ & _ & _ & _
            & checks_ & Hv).
      rewrite Hv. fold width height. rewrite Esmall, Elarge. reflexivity.
    + pose proof (validate_pil_image_dimensions COLOR_BGR2GRAY COLOR_BGR2HSV
                    Laplacian_var calcHist_normalized compareHist_CORREL
                    REFERENCE_HISTOGRAMS float_repr overrides config pil_img
                    Hne) as Hdim.
      cbv zeta in Hdim. fold width height in Hdim.
      rewrite Esmall in Hdim. exact Hdim.
Qed.

(** X8. The thresholds are layered: a value given per call wins over one
    given to the constructor, which wins over the default, and the five
    default keys are always defined.  Giving the overrides per call or to
    the constructor makes no difference to the report. *)
Theorem configuration_layers (ctor call : list (string * Q))
  (opened : outcome pil_image) :
  (forall key,
     dict_get (dict_merge (init_config ctor) call) key
     = match dict_get call key with
       | Some v => Some v
       | None => match dict_get ctor key with
                 | Some v => Some v
                 | None => dict_get DEFAULT_CONFIG key
                 end
       end)
  /\ (forall key, In key (dict_keys DEFAULT_CONFIG) ->
        exists v, dict_index (dict_merge (init_config ctor) call) key
                  = Return v)
  /\ validate_ (init_config ctor) opened call
     = validate_ (init_config (dict_merge ctor call)) opened [].
Proof.
  split; [|split].
  - intro key. unfold init_config. rewrite !dict_get_merge. reflexivity.
  - intros key Hkey.
    destruct (merged_config_has ctor call key Hkey) as (v & Hv).
    exists v. unfold dict_index. rewrite Hv. reflexivity.
  - unfold validate, validate_traced, init_config, dict_merge.
    rewrite app_nil_l, app_assoc. reflexivity.
Qed.

End WithOpenCV.

End ValidatorProperties.

(** ** Further properties of the safety wrapper *)

Module SafetyProperties.

Import Gates Features ModelSafety GateProperties ValidatorProperties.

Local Open Scope string_scope.
Local Open Scope py_scope.

(** [np.argmax] and [np.max] find a largest entry. *)
Lemma argmax_from_largest (rest before : list Q) (best_i : nat) (best : Q) :
  nth_error (before ++ rest) best_i = Some best ->
  (forall p, In p before -> (p <= best)%Q) ->
  exists m,
    nth_error (before ++ rest)
      (argmax_from best_i best (List.length before) rest) = Some m
    /\ forall p, In p (before ++ rest) -> (p <= m)%Q.
Proof.
  revert before best_i best.
  induction rest as [|x rest IH]; intros before best_i best Hbest Hbefore.
  - exists best. split; [exact Hbest|].
    intros p Hp. rewrite app_nil_r in Hp. exact (Hbefore p Hp).
  - simpl argmax_from.
    replace (before ++ x :: rest)%list with ((before ++ [x]) ++ rest)%list
      in * by (rewrite <- app_assoc; reflexivity).
    replace (S (List.length before)) with (List.length (before ++ [x]))
      by (rewrite length_app; simpl; lia).
    destruct (Qltb best x) eqn:E.
    + apply Qltb_true in E. apply IH.
      * rewrite nth_error_app1 by (rewrite length_app; simpl; lia).
        rewrite nth_error_app2 by lia.
        rewrite Nat.sub_diag. reflexivity.
      * intros p Hp. apply in_app_or in Hp. destruct Hp as [Hp | [<- | []]].
        -- specialize (Hbefore p Hp). lra.
        -- lra.
    + apply Qltb_false in E. apply IH; [exact Hbest|].
      intros p Hp. apply in_app_or in Hp. destruct Hp as [Hp | [<- | []]].
      * exact (Hbefore p Hp).
      * exact E.
Qed.

Lemma np_argmax_largest (probs : list Q) (idx : nat) :
  np_argmax probs = Return idx ->
  exists m,
    nth_error probs idx = Some m /\ forall p, In p probs -> (p <= m)%Q.
Proof.
  destruct probs as [|x rest]; [discriminate|].
  intro H. injection H as <-.
  apply (argmax_from_largest rest [x] 0 x); [reflexivity|].
  intros p [<- | []]. lra.
Qed.

Lemma np_max_largest (probs : list Q) (m : Q) :
  np_max probs = Return m -> forall p, In p probs -> (p <= m)%Q.
Proof.
  destruct probs as [|x rest]; [discriminate|].
  intro H. injection H as <-.
  assert (Hfold : forall l start,
             (start <= fold_left (fun m y => if Qltb m y then y else m)
                         l start)%Q
             /\ forall p, In p l ->
                  (p <= fold_left (fun m y => if Qltb m y then y else m)
                          l start)%Q).
  { induction l as [|y l IH]; intro start; simpl.
    - split; [lra | intros p []].
    - destruct (Qltb start y) eqn:E.
      + apply Qltb_true in E. destruct (IH y) as [H1 H2]. split; [lra|].
        intros p [<- | Hp]; [exact H1 | exact (H2 p Hp)].
      + apply Qltb_false in E. destruct (IH start) as [H1 H2].
        split; [exact H1|].
        intros p [<- | Hp]; [lra | exact (H2 p Hp)]. }
  destruct (Hfold rest x) as [Hstart Heach].
  intros p [<- | Hp]; [exact Hstart | exact (Heach p Hp)].
Qed.

(** Bounds on the exponential, by squaring 1 + 1/32 <= exp (1/32) five
    times. *)
Lemma exp_double (x c : R) :
  (0 <= c -> c <= exp x -> c * c <= exp (x + x))%R.
Proof.
  intros Hc Hx. rewrite exp_plus.
  apply Rmult_le_compat; assumption.
Qed.

Lemma exp_1_lower : (8 / 3 < exp 1)%R.
Proof.
  assert (H0 : (33 / 32 <= exp (1 / 32))%R).
  { pose proof (exp_ineq1_le (1 / 32)). Lra.lra. }
  assert (H1 : (10634 / 10000 <= exp (1 / 16))%R).
  { pose proof (exp_double (1 / 32) (33 / 32) ltac:(Lra.lra) H0) as H.
    replace (1 / 32 + 1 / 32)%R with (1 / 16)%R in H by Lra.lra. Lra.lra. }
  assert (H2 : (11308 / 10000 <= exp (1 / 8))%R).
  { pose proof (exp_double (1 / 16) (10634 / 10000) ltac:(Lra.lra) H1) as H.
    replace (1 / 16 + 1 / 16)%R with (1 / 8)%R in H by Lra.lra. Lra.lra. }
  assert (H3 : (12787 / 10000 <= exp (1 / 4))%R).
  { pose proof (exp_double (1 / 8) (11308 / 10000) ltac:(Lra.lra) H2) as H.
    replace (1 / 8 + 1 / 8)%R with (1 / 4)%R in H by Lra.lra. Lra.lra. }
  assert (H4 : (16350 / 10000 <= exp (1 / 2))%R).
  { pose proof (exp_double (1 / 4) (12787 / 10000) ltac:(Lra.lra) H3) as H.
    replace (1 / 4 + 1 / 4)%R with (1 / 2)%R in H by Lra.lra. Lra.lra. }
  pose proof (exp_double (1 / 2) (16350 / 10000) ltac:(Lra.lra) H4) as H.
  replace (1 / 2 + 1 / 2)%R with 1%R in H by Lra.lra. Lra.lra.
Qed.

Lemma exp_minus_1_upper : (exp (- (1)) < 3 / 8)%R.
Proof.
  rewrite exp_Ropp.
  pose proof exp_1_lower as H.
  assert (Hpos : (0 < exp 1)%R) by apply exp_pos.
  apply (Rmult_lt_reg_r (exp 1)); [exact Hpos|].
  rewrite Rinv_l by Lra.lra. Lra.lra.
Qed.

(** The largest value of - q ln q is 1 / e. *)
Lemma minus_ln_bound (q : R) :
  (0 < q -> - ln q <= exp (- (1)) * / q)%R.
Proof.
  intro Hq.
  pose proof (exp_ineq1_le (- ln q - 1)) as H.
  replace (- ln q - 1)%R with (- ln q + - (1))%R in H at 2 by Lra.lra.
  rewrite exp_plus, exp_Ropp, (exp_ln q Hq) in H. Lra.lra.
Qed.

Lemma entropy_term_bound (p eps : R) :
  (0 <= p -> 0 < eps -> - (p * ln (p + eps)) <= exp (- (1)))%R.
Proof.
  intros Hp Heps.
  assert (Hq : (0 < p + eps)%R) by Lra.lra.
  pose proof (minus_ln_bound (p + eps) Hq) as H.
  pose proof (exp_pos (- (1))) as He.
  destruct (Rle_or_lt 0 (ln (p + eps))) as [Hnonneg | Hneg].
  - assert ((0 <= p * ln (p + eps))%R)
      by (apply Rmult_le_pos; assumption).
    Lra.lra.
  - assert (H1 : (p * - ln (p + eps) <= (p + eps) * - ln (p + eps))%R).
    { apply Rmult_le_compat_r; Lra.lra. }
    assert (H2 : ((p + eps) * - ln (p + eps)
                  <= (p + eps) * (exp (- (1)) * / (p + eps)))%R).
    { apply Rmult_le_compat_l; Lra.lra. }
    replace ((p + eps) * (exp (- (1)) * / (p + eps)))%R
      with (exp (- (1))) in H2 by (field; Lra.lra).
    Lra.lra.
Qed.

Lemma Q2R_nonneg (p : Q) : (0 <= p)%Q -> (0 <= Q2R p)%R.
Proof.
  intro H. apply Qle_Rle in H.
  replace (Q2R 0) with 0%R in H by (unfold Q2R; simpl; Lra.lra).
  exact H.
Qed.

(** The entropy of n non-negative entries is at most n / e. *)
Lemma entropy_upper_bound (probs : list Q) :
  Forall (fun p => (0 <= p)%Q) probs ->
  (calculate_entropy probs <= INR (List.length probs) * exp (- (1)))%R.
Proof.
  intro Hnonneg. unfold calculate_entropy, Features.np_sum.
  assert (Hacc : forall acc,
             (- fold_left Rplus
                  (map (fun p => Q2R p * ln (Q2R p + epsilon)) probs) acc
              <= - acc + INR (List.length probs) * exp (- (1)))%R).
  { induction Hnonneg as [|p rest Hp _ IH]; intro acc.
    - simpl. Lra.lra.
    - cbn [map fold_left List.length]. rewrite S_INR.
      specialize (IH (acc + Q2R p * ln (Q2R p + epsilon))%R).
      pose proof (entropy_term_bound (Q2R p) epsilon (Q2R_nonneg p Hp)
                    ltac:(unfold epsilon; Lra.lra)) as Hterm.
      Lra.lra. }
  specialize (Hacc 0%R). Lra.lra.
Qed.

Section WithOpenCV.

Variable COLOR_BGR2GRAY : bgr -> Z.
Variable COLOR_BGR2HSV : bgr -> hsv.
Variable Laplacian_var : list (list Z) -> Q.
Variable calcHist_normalized : list (list hsv) -> list Q.
Variable compareHist_CORREL : list Q -> list Q -> Q.
Variable REFERENCE_HISTOGRAMS : option (list (list Q)).
Variable float_repr : Q -> string.
Variable format_2f : R -> string.

Local Abbreviation safe_predict_ :=
  (safe_predict COLOR_BGR2GRAY COLOR_BGR2HSV Laplacian_var
     calcHist_normalized compareHist_CORREL REFERENCE_HISTOGRAMS float_repr
     format_2f).

(** The classifier of the artifact answered with this vector. *)
Definition classifier_gave (model_data : model_dict) (pil_img : pil_image)
  (probs : list Q) : Prop :=
exists model scaler_ feats scaled,
  md_model model_data = Some model
  /\ md_scaler model_data = Some scaler_
  /\ extract_features pil_img = Return feats
  /\ transform scaler_ feats = Return scaled
  /\ predict_proba model scaled = Return probs.

Ltac through H :=
  match type of H with
  | bind ?m _ = Return _ =>
      let E := fresh "E" in
      destruct m eqn:E; cbn [bind] in H; [|discriminate H]
  end.

(** What each shape of the result tells about the run. *)
Lemma safe_predict_inversion (pil_img : pil_image) (model_data : model_dict)
  (config : option (list (string * Q))) (result : prediction) :
  safe_predict_ pil_img model_data config = Return result ->
  match result with
  | Rejected why => exists c rest, why = Some (String c rest)
  | Unknown _ probs e =>
      classifier_gave model_data pil_img probs
      /\ e = calculate_entropy probs
      /\ (e > Q2R (entropy_threshold config))%R
  | Success label conf e probs feats =>
      classifier_gave model_data pil_img probs
      /\ extract_features pil_img = Return feats
      /\ e = calculate_entropy probs
      /\ (e <= Q2R (entropy_threshold config))%R
      /\ (forall p, In p probs -> (p <= conf)%Q)
      /\ exists names idx m,
           md_class_names model_data = Some names
           /\ nth_error names idx = Some label
           /\ nth_error probs idx = Some m
           /\ forall p, In p probs -> (p <= m)%Q
  end.
Proof.
  unfold safe_predict. intro H.
  through H.
  match type of H with
  | bind ?m _ = Return _ =>
      destruct m as [g | ?] eqn:Ews; cbn [bind] in H; [|discriminate H];
      destruct (whitespace_well_shaped _ _ _ _ _ Ews) as [-> | (? & ? & ->)];
      [| injection H as <-; eexists _, _; reflexivity]
  end.
  match type of H with
  | bind ?m _ = Return _ =>
      destruct m as [g | ?] eqn:Ebl; cbn [bind] in H; [|discriminate H];
      destruct (blur_well_shaped _ _ _ _ _ _ Ebl) as [-> | (? & ? & ->)];
      [| injection H as <-; eexists _, _; reflexivity]
  end.
  match type of H with
  | bind ?m _ = Return _ =>
      destruct m as [g | ?] eqn:Est; cbn [bind] in H; [|discriminate H];
      destruct (stain_well_shaped _ _ _ _ Est) as [-> | (? & ? & ->)];
      [| injection H as <-; eexists _, _; reflexivity]
  end.
  match type of H with
  | bind ?m _ = Return _ =>
      destruct m as [g | ?] eqn:Eh; cbn [bind] in H; [|discriminate H];
      destruct (histogram_well_shaped _ _ _ _ _ _ _ _ Eh)
        as [-> | (? & ? & ->)];
      [| injection H as <-; eexists _, _; reflexivity]
  end.
  unfold dict_field in H.
  destruct (md_model model_data) as [model|] eqn:Emodel;
    cbn [bind] in H; [|discriminate H].
  destruct (md_scaler model_data) as [scaler_|] eqn:Escaler;
    cbn [bind] in H; [|discriminate H].
  destruct (md_class_names model_data) as [names|] eqn:Enames;
    cbn [bind] in H; [|discriminate H].
  destruct (extract_features pil_img) as [feats|] eqn:Efeats;
    cbn [bind] in H; [|discriminate H].
  destruct (transform scaler_ feats) as [scaled|] eqn:Escaled;
    cbn [bind] in H; [|discriminate H].
  destruct (predict_proba model scaled) as [probs|] eqn:Eprobs;
    cbn [bind] in H; [|discriminate H].
  destruct (np_argmax probs) as [idx|] eqn:Eidx;
    cbn [bind] in H; [|discriminate H].
  unfold list_index in H.
  destruct (nth_error names idx) as [label|] eqn:Elabel;
    cbn [bind] in H; [|discriminate H].
  destruct (np_max probs) as [conf|] eqn:Econf;
    cbn [bind] in H; [|discriminate H].
  assert (Hgave : classifier_gave model_data pil_img probs).
  { exists model, scaler_, feats, scaled. repeat split; assumption. }
  fold (entropy_threshold config) in H.
  destruct (Rgt_dec _ _) as [Hgt | Hle]; injection H as <-.
  - repeat split; assumption.
  - destruct (np_argmax_largest probs idx Eidx) as (m & Hm & Hmax).
    split; [exact Hgave|]. split; [reflexivity|]. split; [reflexivity|].
    split; [Lra.lra|]. split; [exact (np_max_largest probs conf Econf)|].
    exists names, idx, m. repeat split; assumption.
Qed.

(** X9. The status of a result tells what happened.  A rejection carries
    a reason that is not empty.  Unknown and Success both report the
    vector the classifier gave and its entropy, which is above the
    threshold for Unknown and at or below it for Success; a Success also
    reports the extracted features, a confidence that no probability
    exceeds, and the class name at a position of a largest probability. *)
Theorem safe_predict_status_is_sound (pil_img : pil_image)
  (model_data : model_dict) (config : option (list (string * Q)))
  (result : prediction) :
  safe_predict_ pil_img model_data config = Return result ->
  (status_of result = "Rejected" ->
   exists c rest, result = Rejected (Some (String c rest)))
  /\ (status_of result = "Unknown" ->
      exists reason probs,
        result = Unknown reason probs (calculate_entropy probs)
        /\ classifier_gave model_data pil_img probs
        /\ (calculate_entropy probs > Q2R (entropy_threshold config))%R)
  /\ (status_of result = "Success" ->
      exists label conf probs feats,
        result = Success label conf (calculate_entropy probs) probs feats
        /\ classifier_gave model_data pil_img probs
        /\ extract_features pil_img = Return feats
        /\ (calculate_entropy probs <= Q2R (entropy_threshold config))%R
        /\ (forall p, In p probs -> (p <= conf)%Q)
        /\ exists names idx m,
             md_class_names model_data = Some names
             /\ nth_error names idx = Some label
             /\ nth_error probs idx = Some m
             /\ forall p, In p probs -> (p <= m)%Q).
Proof.
  intro Hrun. pose proof (safe_predict_inversion _ _ _ _ Hrun) as Hinv.
  destruct result as [why | reason probs e | label conf e probs feats];
    cbn [status_of].
  - split; [intros _ | split; discriminate].
    destruct Hinv as (c & rest & ->). eexists _, _. reflexivity.
  - split; [discriminate|]. split; [intros _ | discriminate].
    destruct Hinv as (Hgave & -> & Hgt).
    exists reason, probs. repeat split; assumption.
  - split; [discriminate|]. split; [discriminate | intros _].
    destruct Hinv as (Hgave & Hfeats & -> & Hle & Hconf & Hlabel).
    exists label, conf, probs, feats. repeat split; assumption.
Qed.

Ltac not_passed :=
  match goal with
  | Hp : passes _ |- _ =>
      let w := fresh in destruct Hp as (w & Hp); discriminate Hp
  end.

Ltac passed := eexists; reflexivity.

Ltac gate_decides H :=
  first [ injection H as <-; reflexivity | not_passed | discriminate H ].

Ltac rejected_here :=
  let H := fresh "H" in
  split;
  [ intro H; injection H as <-;
    first [ left; reflexivity
          | right; left; split; [passed | reflexivity]
          | right; right; left;
            split; [passed | split; [passed | reflexivity]]
          | right; right; right;
            split; [passed | split; [passed | split; [passed | reflexivity]]] ]
  | intros [H | [(? & H) | [(? & ? & H) | (? & ? & ? & H)]]];
    gate_decides H ].

Ltac raised_here :=
  let H := fresh "H" in
  split;
  [ intro H; discriminate H
  | intros [H | [(? & H) | [(? & ? & H) | (? & ? & ? & H)]]];
    gate_decides H ].

(** X10. A rejection of [safe_predict] is decided by the gates alone.  On
    a decoded image the result is [Rejected why] exactly when the first of
    [check_whitespace], [check_blur], [check_stain_profile] and
    [check_histogram_similarity], in this order and at the configured
    thresholds, that does not let the image through rejects it with the
    reason [why]; when the image cannot be converted the conversion's
    exception is raised.  Neither side mentions [model_data] or the
    extractor: a rejection is the same with any other [model_data], and a
    missing key or a failing extraction never takes its place. *)
Theorem rejection_is_decided_by_the_gates (pil_img : pil_image)
  (model_data : model_dict) (config : option (list (string * Q)))
  (why : option string) :
  (forall cv_img,
     load_image_opencv pil_img = Return cv_img ->
     let cfg := effective_config config in
     let whitespace :=
       check_whitespace COLOR_BGR2GRAY cv_img
         (dict_get_default cfg "whitespace_thresh" 0.85%Q) 220 in
     let blur :=
       check_blur COLOR_BGR2GRAY Laplacian_var float_repr cv_img
         (dict_get_default cfg "blur_thresh" 50%Q) in
     let stain :=
       check_stain_profile COLOR_BGR2HSV cv_img
         (dict_get_default cfg "stain_thresh" 0.15%Q) in
     let histogram :=
       check_histogram_similarity COLOR_BGR2HSV calcHist_normalized
         compareHist_CORREL REFERENCE_HISTOGRAMS float_repr cv_img
         (dict_get_default cfg "hist_thresh" 0.5%Q) in
     safe_predict_ pil_img model_data config = Return (Rejected why)
     <-> whitespace = Return (true, why)
         \/ (passes whitespace /\ blur = Return (true, why))
         \/ (passes whitespace /\ passes blur /\ stain = Return (true, why))
         \/ (passes whitespace /\ passes blur /\ passes stain
             /\ histogram = Return (true, why)))
  /\ (forall e,
        load_image_opencv pil_img = Raise e ->
        safe_predict_ pil_img model_data config = Raise e)
  /\ (forall other_model,
        safe_predict_ pil_img model_data config = Return (Rejected why) ->
        safe_predict_ pil_img other_model config = Return (Rejected why)).
Proof.
  split; [|split].
  - intros cv_img Hload. cbv zeta. unfold safe_predict. rewrite Hload.
    cbn [bind].
    destruct (check_whitespace _ _ _ _) as [[[|] r1] | e1]; cbn [bind];
      [rejected_here | | raised_here].
    destruct (check_blur _ _ _ _ _) as [[[|] r2] | e2]; cbn [bind];
      [rejected_here | | raised_here].
    destruct (check_stain_profile _ _ _) as [[[|] r3] | e3]; cbn [bind];
      [rejected_here | | raised_here].
    destruct (check_histogram_similarity _ _ _ _ _ _ _) as [[[|] r4] | e4];
      cbn [bind]; [rejected_here | | raised_here].
    split.
    + intro H. exfalso.
      repeat match type of H with
             | bind ?m _ = Return _ =>
                 destruct m; cbn [bind] in H; [|discriminate H]
             end.
      destruct (Rgt_dec _ _); discriminate H.
    + intros [H | [(? & H) | [(? & ? & H) | (? & ? & ? & H)]]];
        discriminate H.
  - intros e Hload. unfold safe_predict. rewrite Hload. reflexivity.
  - intros other_model Hrejected.
    exact (gate_rejection_ignores_model _ _ _ _ _ _ _ _ _ _ _ _ _ Hrejected).
Qed.

(** X11. The entropy of at most four non-negative probabilities is at
    most 4 / e, below 1.5.  So with an entropy threshold of 1.5 or more,
    which includes the 2.5 of the default configuration, a classifier
    that answers with at most four non-negative probabilities never
    gets the status Unknown. *)
Theorem unknown_is_out_of_reach (pil_img : pil_image)
  (model_data : model_dict) (config : option (list (string * Q)))
  (result : prediction) :
  (forall model scaled probs,
     md_model model_data = Some model ->
     predict_proba model scaled = Return probs ->
     (List.length probs <= 4)%nat /\ Forall (fun p => (0 <= p)%Q) probs) ->
  (1.5 <= entropy_threshold config)%Q ->
  safe_predict_ pil_img model_data config = Return result ->
  status_of result <> "Unknown".
Proof.
  intros Hmodel Hthreshold Hrun Hstatus.
  pose proof (safe_predict_inversion _ _ _ _ Hrun) as Hinv.
  destruct result as [why | reason probs e | label conf e probs feats];
    try discriminate Hstatus.
  destruct Hinv as ((model & scaler_ & feats & scaled & Hm & _ & _ & _ & Hp)
                    & -> & Hgt).
  destruct (Hmodel model scaled probs Hm Hp) as [Hlen Hnonneg].
  pose proof (entropy_upper_bound probs Hnonneg) as Hbound.
  pose proof exp_minus_1_upper as He.
  pose proof (exp_pos (- (1))) as Hpos.
  assert (Hn : (INR (List.length probs) <= 4)%R).
  { replace 4%R with (INR 4) by (simpl; Lra.lra). apply le_INR. exact Hlen. }
  assert (Hprod : (INR (List.length probs) * exp (- (1))
                   <= 4 * exp (- (1)))%R)
    by (apply Rmult_le_compat_r; Lra.lra).
  apply Qle_Rle in Hthreshold.
  replace (Q2R 1.5) with (3 / 2)%R in Hthreshold
    by (unfold Q2R; simpl; Lra.lra).
  Lra.lra.
Qed.

End WithOpenCV.

End SafetyProperties.

(** ** Further properties of the risk scorer *)

Module RiskProperties.

Import RiskScorer.

Local Open Scope string_scope.
Local Open Scope Q_scope.
Local Open Scope py_scope.

Lemma clamped_in_range (x : Q) : 0 <= py_max 0 (py_min 100 x) <= 100.
Proof.
  rewrite (py_clamp_spec x x (Qeq_refl x)). apply spec_clamp_range.
Qed.

Lemma known_class (predicted_class : string) (base : Z) :
  dict_get BASE_RISK_SCORES predicted_class = Some base ->
  exists c, predicted_class = class_name c.
Proof.
  unfold BASE_RISK_SCORES. cbn [dict_get].
  destruct (String.eqb "HER2_0" predicted_class) eqn:E0;
    [apply String.eqb_eq in E0; exists HER2_0; symmetry; exact E0|].
  destruct (String.eqb "HER2_1+" predicted_class) eqn:E1;
    [apply String.eqb_eq in E1; exists HER2_1; symmetry; exact E1|].
  destruct (String.eqb "HER2_2+" predicted_class) eqn:E2;
    [apply String.eqb_eq in E2; exists HER2_2; symmetry; exact E2|].
  destruct (String.eqb "HER2_3+" predicted_class) eqn:E3;
    [apply String.eqb_eq in E3; exists HER2_3; symmetry; exact E3|].
  intro H. discriminate H.
Qed.

(** X12. The scorer returns a score, always within [0, 100], exactly when
    the class is one of the four names and the vector has four entries (or
    one, which numpy broadcasts).  An unknown class raises a [KeyError]
    before the vector is looked at; a known class with a vector of another
    length raises a [ValueError].  Only the class of the exception is
    stated, not its text. *)
Theorem risk_score_error_behaviour (predicted_class : string)
  (confidence : Q) (probabilities : list Q) :
  (dict_get BASE_RISK_SCORES predicted_class = None ->
   exists message,
     _calculate_risk_score predicted_class confidence probabilities
     = Raise (Exn "KeyError" message))
  /\ (forall base,
        dict_get BASE_RISK_SCORES predicted_class = Some base ->
        (exists c, predicted_class = class_name c)
        /\ (List.length probabilities = 4%nat
            \/ List.length probabilities = 1%nat ->
            exists score,
              _calculate_risk_score predicted_class confidence probabilities
              = Return score
              /\ 0 <= score <= 100)
        /\ (List.length probabilities <> 4%nat ->
            List.length probabilities <> 1%nat ->
            exists message,
              _calculate_risk_score predicted_class confidence probabilities
              = Raise (Exn "ValueError" message))).
Proof.
  split.
  - intro Hnone. unfold _calculate_risk_score, dict_index.
    rewrite Hnone. eexists. reflexivity.
  - intros base Hbase. split; [exact (known_class _ _ Hbase)|].
    unfold _calculate_risk_score, dict_index. rewrite Hbase. cbn [bind].
    split.
    + intros [H4 | H1].
      * unfold np_mul. rewrite H4. cbn [risk_weights List.length Nat.eqb bind].
        eexists. split; [reflexivity | apply clamped_in_range].
      * destruct probabilities as [|x [|y rest]]; try discriminate H1.
        cbn [np_mul risk_weights List.length Nat.eqb bind].
        eexists. split; [reflexivity | apply clamped_in_range].
    + intros H4 H1. unfold np_mul.
      destruct (Nat.eqb (List.length probabilities) (List.length risk_weights))
        eqn:E.
      * apply Nat.eqb_eq in E. contradiction.
      * destruct probabilities as [|x [|y rest]];
          [eexists; reflexivity | | eexists; reflexivity].
        exfalso. apply H1. reflexivity.
Qed.

(** X13. For a confidence in [0, 1] and four non-negative probabilities
    that sum to 1, the confidence moves the score by at most 10 and the
    probability mass adds at most 10: the score lies between base - 10 and
    base + 20, where base is the class's entry of [BASE_RISK_SCORES], and
    never above 100.  So a HER2_0 prediction never scores above 35 and a
    HER2_3+ prediction never below 80. *)
Theorem risk_score_band (c : her2_class) (confidence p0 p1 p2 p3 : Q) :
  0 <= confidence <= 1 ->
  0 <= p0 -> 0 <= p1 -> 0 <= p2 -> 0 <= p3 ->
  p0 + p1 + p2 + p3 == 1 ->
  exists base score,
    dict_get BASE_RISK_SCORES (class_name c) = Some base
    /\ _calculate_risk_score (class_name c) confidence [p0; p1; p2; p3]
       = Return score
    /\ inject_Z base - 10 <= score
    /\ score <= inject_Z base + 20
    /\ score <= 100
    /\ (c = HER2_0 -> score <= 35)
    /\ (c = HER2_3 -> 80 <= score).
Proof.
  intros Hconf H0 H1 H2 H3 Hsum.
  destruct (risk_score_unfold c confidence p0 p1 p2 p3) as (raw & Hrun & Hraw).
  assert (Hbase : exists base,
             dict_get BASE_RISK_SCORES (class_name c) = Some base
             /\ inject_Z base == spec_base c)
    by (destruct c; eexists; split; reflexivity).
  destruct Hbase as (base & Hget & Hbase).
  exists base, (py_max 0 (py_min 100 raw)).
  split; [exact Hget|]. split; [exact Hrun|].
  rewrite (py_clamp_spec raw raw (Qeq_refl raw)). rewrite Hbase.
  assert (Hrange : 15 <= spec_base c <= 90) by (destruct c; simpl; lra).
  unfold spec_clamp.
  destruct (Qlt_le_dec raw 0); [|destruct (Qlt_le_dec 100 raw)];
    (split; [|split; [|split; [|split]]]);
    try (intros ->; simpl spec_base in * ); lra.
Qed.

End RiskProperties.

(** ** Further properties of the predictor and of the upload view *)

Module PredictorProperties.

Import Features ModelSafety RiskScorer Predictor SafetyProperties
  RiskProperties.

Local Open Scope string_scope.
Local Open Scope py_scope.

(** [class_map] of [_generate_and_upload_gradcam] and the index it hands
    to the Grad-CAM generator: [class_map.get(her2_status, 0)]. *)
Definition class_map : list (string * nat) :=
[ ("HER2_0", 0%nat); ("HER2_1+", 1%nat);
  ("HER2_2+", 2%nat); ("HER2_3+", 3%nat) ].

Definition gradcam_class_index (her2_status_ : string) : nat :=
dict_get_default class_map her2_status_ 0%nat.

Lemma risk_score_in_range (predicted_class : string) (confidence_ : Q)
  (probs : list Q) (score : Q) :
  _calculate_risk_score predicted_class confidence_ probs = Return score ->
  (0 <= score <= 100)%Q.
Proof.
  unfold _calculate_risk_score. intro H.
  destruct (dict_index BASE_RISK_SCORES predicted_class);
    cbn [bind] in H; [|discriminate H].
  destruct (np_mul probs risk_weights); cbn [bind] in H; [|discriminate H].
  injection H as <-. apply clamped_in_range.
Qed.

Lemma int_key_classes (idx : nat) (name : string) :
  int_key HER2_CLASSES idx = Return name ->
  (idx < 4)%nat
  /\ nth_error (map snd HER2_CLASSES) idx = Some name
  /\ gradcam_class_index name = idx.
Proof.
  destruct idx as [|[|[|[|idx]]]]; intro H; try discriminate H;
    injection H as <-; repeat split; lia.
Qed.

(** What a returned result of [predict] was made from. *)
Lemma predict_loaded_inversion (self : predictor)
  (opened : outcome pil_image) (result : prediction_result) :
  predict_loaded self opened = Return result ->
  exists scaler_ ensemble features scaled p0 p1 p2 p3 idx,
    _scaler self = Some scaler_
    /\ _ensemble self = Some ensemble
    /\ extract_features_from_image opened = Return features
    /\ transform scaler_ features = Return scaled
    /\ predict_proba ensemble scaled = Return [p0; p1; p2; p3]
    /\ np_argmax [p0; p1; p2; p3] = Return idx
    /\ int_key HER2_CLASSES idx = Return (her2_status result)
    /\ nth_error [p0; p1; p2; p3] idx = Some (confidence result)
    /\ dict_get RISK_LEVELS (her2_status result) = Some (risk_level result)
    /\ _calculate_risk_score (her2_status result) (confidence result)
         [p0; p1; p2; p3]
       = Return (risk_score result)
    /\ probabilities result
       = [ ("HER2_0", p0); ("HER2_1+", p1); ("HER2_2+", p2); ("HER2_3+", p3) ]
    /\ entropy result = _calculate_entropy [p0; p1; p2; p3]
    /\ model_version result = "v2.4.1".
Proof.
  unfold predict_loaded. intro H.
  destruct (extract_features_from_image opened) as [features|] eqn:Efeat;
    cbn [bind] in H; [|discriminate H].
  unfold attribute in H.
  destruct (_scaler self) as [scaler_|] eqn:Escaler;
    cbn [bind] in H; [|discriminate H].
  destruct (transform scaler_ features) as [scaled|] eqn:Escaled;
    cbn [bind] in H; [|discriminate H].
  destruct (_ensemble self) as [ensemble|] eqn:Eens;
    cbn [bind] in H; [|discriminate H].
  destruct (predict_proba ensemble scaled) as [probs|] eqn:Eprobs;
    cbn [bind] in H; [|discriminate H].
  destruct (np_argmax probs) as [idx|] eqn:Eidx;
    cbn [bind] in H; [|discriminate H].
  destruct (int_key HER2_CLASSES idx) as [name|] eqn:Ename;
    cbn [bind] in H; [|discriminate H].
  unfold list_index in H.
  destruct (nth_error probs idx) as [conf|] eqn:Econf;
    cbn [bind] in H; [|discriminate H].
  unfold dict_index in H.
  destruct (dict_get RISK_LEVELS name) as [level|] eqn:Elevel;
    cbn [bind] in H; [|discriminate H].
  destruct (_calculate_risk_score name conf probs) as [score|] eqn:Escore;
    cbn [bind] in H; [|discriminate H].
  assert (Hlen : List.length probs = 4%nat).
  { unfold _calculate_risk_score in Escore.
    destruct (dict_index BASE_RISK_SCORES name);
      cbn [bind] in Escore; [|discriminate Escore].
    destruct probs as [|q0 [|q1 [|q2 [|q3 [|q4 more]]]]];
      simpl in H; try discriminate H; try reflexivity.
    discriminate Escore. }
  destruct probs as [|q0 [|q1 [|q2 [|q3 [|q4 more]]]]];
    try discriminate Hlen.
  cbn [nth_error bind] in H. injection H as <-.
  exists scaler_, ensemble, features, scaled, q0, q1, q2, q3, idx.
  cbn [her2_status confidence risk_level risk_score probabilities entropy
         model_version].
  repeat split; assumption.
Qed.

(** A [predict] call that returns has a loaded predictor behind it and
    returns what the [try] block computed on it. *)
Lemma predict_returns (self self' : predictor) (at_path : artifact)
  (opened : outcome pil_image) (result : prediction_result)
  (accesses : list access) :
  predict self at_path opened = (Return result, self', accesses) ->
  predict_loaded self' opened = Return result.
Proof.
  unfold predict.
  destruct (_load_model self at_path) as [[loaded after] made].
  destruct loaded as [[] | e]; intro H; injection H as Hresult <- _;
    [|discriminate Hresult].
  destruct (predict_loaded after opened); [exact Hresult|].
  discriminate Hresult.
Qed.

(** X14. What [predict] returns is consistent with the image and with the
    artifact: the loaded scaler and classifier, applied to the features of
    the opened image, gave exactly four probabilities, which are reported
    under the four class names in order; the reported class is the one at
    the position [np.argmax] finds, the confidence is that probability, so
    no reported probability exceeds it; the risk level is the one tabled
    for the class, the risk score is the scorer's value for class,
    confidence and vector and lies in [0, 100]. *)
Theorem predict_result_is_consistent (self self' : predictor)
  (at_path : artifact) (opened : outcome pil_image)
  (result : prediction_result) (accesses : list access) :
  predict self at_path opened = (Return result, self', accesses) ->
  exists scaler_ ensemble features scaled p0 p1 p2 p3 idx,
    _scaler self' = Some scaler_
    /\ _ensemble self' = Some ensemble
    /\ extract_features_from_image opened = Return features
    /\ transform scaler_ features = Return scaled
    /\ predict_proba ensemble scaled = Return [p0; p1; p2; p3]
    /\ probabilities result
       = [ ("HER2_0", p0); ("HER2_1+", p1); ("HER2_2+", p2); ("HER2_3+", p3) ]
    /\ np_argmax [p0; p1; p2; p3] = Return idx
    /\ (idx < 4)%nat
    /\ nth_error (map snd HER2_CLASSES) idx = Some (her2_status result)
    /\ nth_error [p0; p1; p2; p3] idx = Some (confidence result)
    /\ (forall name p, In (name, p) (probabilities result) ->
          (p <= confidence result)%Q)
    /\ dict_get RISK_LEVELS (her2_status result) = Some (risk_level result)
    /\ _calculate_risk_score (her2_status result) (confidence result)
         [p0; p1; p2; p3]
       = Return (risk_score result)
    /\ (0 <= risk_score result <= 100)%Q
    /\ model_version result = "v2.4.1".
Proof.
  intro Hcall. pose proof (predict_returns _ _ _ _ _ _ Hcall) as H.
  destruct (predict_loaded_inversion self' opened result H)
    as (scaler_ & ensemble & features & scaled & p0 & p1 & p2 & p3 & idx
        & Hscaler & Hensemble & Hfeatures & Hscaled & Hgave & Hidx & Hname
        & Hconf & Hlevel & Hscore & Hprobs & _ & Hversion).
  destruct (int_key_classes idx _ Hname) as (Hlt & Hnth & _).
  destruct (np_argmax_largest _ _ Hidx) as (m & Hm & Hmax).
  rewrite Hconf in Hm. injection Hm as <-.
  exists scaler_, ensemble, features, scaled, p0, p1, p2, p3, idx.
  do 10 (split; [assumption|]). split.
  - intros name p Hin. rewrite Hprobs in Hin. apply Hmax.
    simpl in Hin. simpl.
    destruct Hin as [Hin | [Hin | [Hin | [Hin | []]]]];
      injection Hin as _ <-; tauto.
  - split; [exact Hlevel|]. split; [exact Hscore|].
    split; [|exact Hversion].
    exact (risk_score_in_range _ _ _ _ Hscore).
Qed.

(** X15. The class index the upload view hands to the Grad-CAM generator
    is the position [predict] took the class name from: [class_map] undoes
    [HER2_CLASSES], so the index is the argmax of the probabilities.  A
    status outside the four names silently becomes index 0. *)
Theorem gradcam_index_is_the_argmax :
  (forall idx name,
     int_key HER2_CLASSES idx = Return name ->
     gradcam_class_index name = idx)
  /\ (forall name,
        dict_get class_map name = None -> gradcam_class_index name = 0%nat)
  /\ (forall self opened result,
        predict_loaded self opened = Return result ->
        exists probs,
          List.length probs = 4%nat
          /\ map snd (probabilities result) = probs
          /\ np_argmax probs
             = Return (gradcam_class_index (her2_status result))).
Proof.
  split; [|split].
  - intros idx name H. exact (proj2 (proj2 (int_key_classes idx name H))).
  - intros name H. unfold gradcam_class_index, dict_get_default.
    rewrite H. reflexivity.
  - intros self opened result H.
    destruct (predict_loaded_inversion self opened result H)
      as (scaler_ & ensemble & features & scaled & p0 & p1 & p2 & p3 & idx
          & _ & _ & _ & _ & _ & Hidx & Hname & _ & _ & _ & Hprobs & _).
    exists [p0; p1; p2; p3]. split; [reflexivity|].
    split; [rewrite Hprobs; reflexivity|].
    rewrite (proj2 (proj2 (int_key_classes idx _ Hname))). exact Hidx.
Qed.

(** A predictor that holds an artifact but no scaler fails every call
    without looking at the file. *)
Lemma predict_without_scaler (self : predictor) (content : model_dict)
  (calls : list (artifact * outcome pil_image)) :
  _model_data self = Some content ->
  _scaler self = None ->
  Forall (fun call_result =>
            snd call_result = []
            /\ exists message,
                 fst call_result = Raise (Exn "RuntimeError" message))
    (fst (predict_each self calls)).
Proof.
  intros Hdata Hscaler.
  induction calls as [|[at_path opened] later IH]; [constructor|].
  simpl. rewrite (predict_when_loaded self content at_path opened Hdata).
  destruct (predict_each self later) as [results final].
  constructor; [|exact IH]. cbn [fst snd]. split; [reflexivity|].
  unfold predict_loaded.
  destruct (extract_features_from_image opened); cbn [bind wrap_failure];
    [|eexists; reflexivity].
  rewrite Hscaler. cbn [attribute bind wrap_failure]. eexists. reflexivity.
Qed.

(** X16. An artifact that unpickles but lacks the 'model' or the 'scaler'
    key is kept all the same: the first call raises the "corrupted or
    incompatible" error, and from then on no call probes the path or calls
    [joblib.load] again, and every call fails, even after the file has
    been replaced by a good one. *)
Theorem incomplete_artifact_is_kept (content : model_dict)
  (opened : outcome pil_image)
  (calls : list (artifact * outcome pil_image)) :
  md_model content = None \/ md_scaler content = None ->
  exists key self',
    predict init (Pickled content) opened
    = (Raise (Exn "RuntimeError"
                ("Prediction failed: Model file is corrupted or incompatible. Missing key: '"
                 ++ key
                 ++ "'. Please retrain and save the model with correct structure.")),
       self', [PathProbe; JoblibLoad])
    /\ (key = "model" \/ key = "scaler")
    /\ _model_data self' = Some content
    /\ Forall (fun call_result =>
                 snd call_result = []
                 /\ exists message,
                      fst call_result = Raise (Exn "RuntimeError" message))
         (fst (predict_each self' calls)).
Proof.
  intro Hmissing. unfold predict, _load_model. cbn [init _model_data].
  destruct (md_model content) as [model|] eqn:Emodel.
  - destruct (md_scaler content) as [scaler_|] eqn:Escaler.
    + destruct Hmissing; discriminate.
    + eexists "scaler", _. split; [reflexivity|].
      split; [right; reflexivity|]. split; [reflexivity|].
      apply (predict_without_scaler _ content); reflexivity.
  - eexists "model", _. split; [reflexivity|].
    split; [left; reflexivity|]. split; [reflexivity|].
    apply (predict_without_scaler _ content); reflexivity.
Qed.

(** One term of the entropy is at least minus the probability times
    1e-10: the logarithm is taken of at most 1 + 1e-10. *)
Lemma entropy_term_lower_bound (p : Q) :
  (0 <= p)%Q -> (p <= 1)%Q ->
  (Q2R p * ln (Q2R p + 1e-10) <= 1e-10)%R.
Proof.
  intros H0 H1. apply Qle_Rle in H0, H1.
  replace (Q2R 0) with 0%R in H0 by (unfold Q2R; simpl; Lra.lra).
  replace (Q2R 1) with 1%R in H1 by (unfold Q2R; simpl; Lra.lra).
  assert (Hln : (ln (Q2R p + 1e-10) <= 1e-10)%R).
  { apply Rle_trans with (r2 := ln (1 + 1e-10)).
    - destruct (Rle_lt_or_eq_dec _ _ H1) as [Hlt | Heq].
      + apply Rlt_le, ln_increasing; Lra.lra.
      + rewrite Heq. apply Rle_refl.
    - rewrite <- (ln_exp 1e-10) at 2.
      apply Rlt_le, ln_increasing; [Lra.lra|].
      apply exp_ineq1. Lra.lra. }
  Lra.nra.
Qed.

(** X22. The entropy [predict] reports is that of the four reported
    probabilities, which are the classifier's answer.  When each of them
    lies in [0, 1] the entropy is below 1.5 (it is at most 4 / e) and not
    below -5e-10: the 1e-10 added inside the logarithm can push a term
    below zero, by about 1e-10 per class at most.  Over the reals the
    entropy of [1, 0, 0, 0] is -ln (1 + 1e-10); the bounds leave the room
    that the rounding of [1.0 + 1e-10] in floating point needs. *)
Theorem reported_entropy_range (self self' : predictor) (at_path : artifact)
  (opened : outcome pil_image) (result : prediction_result)
  (accesses : list access) :
  predict self at_path opened = (Return result, self', accesses) ->
  (forall name p, In (name, p) (probabilities result) -> (0 <= p <= 1)%Q) ->
  entropy result = _calculate_entropy (map snd (probabilities result))
  /\ (exists ensemble scaled,
        _ensemble self' = Some ensemble
        /\ predict_proba ensemble scaled
           = Return (map snd (probabilities result)))
  /\ (- 5e-10 <= entropy result < 3 / 2)%R.
Proof.
  intros Hcall Hrange. pose proof (predict_returns _ _ _ _ _ _ Hcall) as Hrun.
  destruct (predict_loaded_inversion self' opened result Hrun)
    as (scaler_ & ensemble & features & scaled & p0 & p1 & p2 & p3 & idx
        & _ & Hensemble & _ & _ & Hgave & _ & _ & _ & _ & _ & Hprobs
        & Hentropy & _).
  rewrite Hprobs in Hrange |- *. rewrite Hentropy. cbn [map snd].
  split; [reflexivity|].
  split; [exists ensemble, scaled; split; assumption|].
  assert (H0 : (0 <= p0 <= 1)%Q) by (apply (Hrange "HER2_0"); simpl; tauto).
  assert (H1 : (0 <= p1 <= 1)%Q) by (apply (Hrange "HER2_1+"); simpl; tauto).
  assert (H2 : (0 <= p2 <= 1)%Q) by (apply (Hrange "HER2_2+"); simpl; tauto).
  assert (H3 : (0 <= p3 <= 1)%Q) by (apply (Hrange "HER2_3+"); simpl; tauto).
  split.
  - pose proof (entropy_term_lower_bound p0 (proj1 H0) (proj2 H0)) as T0.
    pose proof (entropy_term_lower_bound p1 (proj1 H1) (proj2 H1)) as T1.
    pose proof (entropy_term_lower_bound p2 (proj1 H2) (proj2 H2)) as T2.
    pose proof (entropy_term_lower_bound p3 (proj1 H3) (proj2 H3)) as T3.
    unfold _calculate_entropy, Features.np_sum. simpl. Lra.lra.
  - assert (Hall : Forall (fun p => (0 <= p)%Q) [p0; p1; p2; p3])
      by (repeat constructor; tauto).
    pose proof (entropy_upper_bound _ Hall) as Hbound.
    pose proof exp_minus_1_upper as He.
    change (_calculate_entropy [p0; p1; p2; p3])
      with (calculate_entropy [p0; p1; p2; p3]).
    replace (INR (List.length [p0; p1; p2; p3])) with 4%R in Hbound
      by (simpl; Lra.lra).
    Lra.lra.
Qed.


End PredictorProperties.

(** ** Her2/streamlit_app.py: per-feature perturbation importance *)

Module Importance.

Import ModelSafety SafetyProperties.

Local Open Scope string_scope.
Local Open Scope Q_scope.
Local Open Scope py_scope.

(** [f = feats.copy(); f[i] = v], for an index within the vector. *)
Definition set_item (feats : list R) (i : nat) (v : R) : list R :=
(firstn i feats ++ v :: skipn (S i) feats)%list.

(** [model.predict_proba(scaler.transform(f.reshape(1, -1)))[0][idx]]. *)
Definition class_probability (model : classifier) (scaler_ : scaler)
  (f : list R) (target_class_idx : nat) : outcome Q :=
scaled <- transform scaler_ f ;;
probs <- predict_proba model scaled ;;
list_index probs target_class_idx.

(** The body of the loop, for the feature at position [i]. *)
Definition importance_of (model : classifier) (scaler_ : scaler)
  (feats : list R) (target_class_idx : nat) (delta_frac : R) (base_prob : Q)
  (i : nat) : outcome Q :=
x <- list_index feats i ;;
let delta := Rmax 1e-6 (Rabs x * delta_frac) in
p_up <- class_probability model scaler_ (set_item feats i (x + delta)%R)
          target_class_idx ;;
p_dn <- class_probability model scaler_ (set_item feats i (x - delta)%R)
          target_class_idx ;;
Return (py_max (Qabs (base_prob - p_up)) (Qabs (base_prob - p_dn))).

(** A [for] loop that appends one value per item and stops at the first
    exception. *)
Fixpoint for_each {A B : Type} (body : A -> outcome B) (items : list A)
  : outcome (list B) :=
match items with
| [] => Return []
| item :: later =>
    value <- body item ;;
    values <- for_each body later ;;
    Return (value :: values)
end.

Definition per_feature_importance (model_data : model_dict) (feats : list R)
  (target_class_idx : nat) (delta_frac : R) : outcome (list Q) :=
model <- dict_field "model" (md_model model_data) ;;
scaler_ <- dict_field "scaler" (md_scaler model_data) ;;
base_prob <- class_probability model scaler_ feats target_class_idx ;;
importances <-
  for_each (importance_of model scaler_ feats target_class_idx delta_frac
              base_prob)
    (seq 0 (List.length feats)) ;;
top <- np_max importances ;;
if Qltb 0 top
then Return (map (fun imp => imp / top) importances)
else Return importances.

Lemma for_each_length {A B : Type} (body : A -> outcome B) (items : list A)
  (values : list B) :
  for_each body items = Return values ->
  List.length values = List.length items.
Proof.
  revert values. induction items as [|item later IH]; intros values H.
  - injection H as <-. reflexivity.
  - cbn [for_each] in H.
    destruct (body item); cbn [bind] in H; [|discriminate H].
    destruct (for_each body later) as [vs|]; cbn [bind] in H;
      [|discriminate H].
    injection H as <-. simpl. rewrite (IH vs eq_refl). reflexivity.
Qed.

Lemma for_each_all {A B : Type} (body : A -> outcome B) (holds : B -> Prop)
  (items : list A) (values : list B) :
  (forall item value, body item = Return value -> holds value) ->
  for_each body items = Return values ->
  Forall holds values.
Proof.
  intro Hbody. revert values.
  induction items as [|item later IH]; intros values H.
  - injection H as <-. constructor.
  - cbn [for_each] in H.
    destruct (body item) as [v|] eqn:Ev; cbn [bind] in H; [|discriminate H].
    destruct (for_each body later) as [vs|]; cbn [bind] in H;
      [|discriminate H].
    injection H as <-. constructor; [exact (Hbody item v Ev)|].
    apply IH. reflexivity.
Qed.

Lemma py_max_abs_nonneg (a b : Q) : 0 <= py_max (Qabs a) (Qabs b).
Proof.
  unfold py_max. destruct (Qltb (Qabs a) (Qabs b)); apply Qabs_nonneg.
Qed.

Lemma importance_nonneg (model : classifier) (scaler_ : scaler)
  (feats : list R) (target_class_idx : nat) (delta_frac : R) (base_prob : Q)
  (i : nat) (imp : Q) :
  importance_of model scaler_ feats target_class_idx delta_frac base_prob i
  = Return imp ->
  0 <= imp.
Proof.
  unfold importance_of. intro H.
  destruct (list_index feats i); cbn [bind] in H; [|discriminate H].
  destruct (class_probability _ _ _ _); cbn [bind] in H; [|discriminate H].
  destruct (class_probability _ _ _ _); cbn [bind] in H; [|discriminate H].
  injection H as <-.
  exact (py_max_abs_nonneg (base_prob - _) (base_prob - _)).
Qed.

Lemma np_max_attained (a : list Q) (m : Q) :
  np_max a = Return m -> In m a.
Proof.
  destruct a as [|x rest]; [discriminate|].
  intro H. injection H as <-.
  assert (Hfold : forall l start,
             fold_left (fun m y => if Qltb m y then y else m) l start = start
             \/ In (fold_left (fun m y => if Qltb m y then y else m) l start)
                  l).
  { induction l as [|y l IH]; intro start; [left; reflexivity|].
    cbn [fold_left]. destruct (Qltb start y).
    - destruct (IH y) as [-> | Hin]; right; [left; reflexivity|].
      right. exact Hin.
    - destruct (IH start) as [-> | Hin]; [left; reflexivity|].
      right. right. exact Hin. }
  destruct (Hfold rest x) as [-> | Hin]; [left; reflexivity|].
  right. exact Hin.
Qed.

(** X17. The importances that [per_feature_importance] returns: one per
    feature, each between 0 and 1.  Unless no perturbation moved the
    probability of the target class, in which case every importance is 0,
    the largest is exactly 1.  A call that returns was given at least one
    feature. *)
Theorem importances_are_normalised (model_data : model_dict)
  (feats : list R) (target_class_idx : nat) (delta_frac : R)
  (importances : list Q) :
  per_feature_importance model_data feats target_class_idx delta_frac
  = Return importances ->
  List.length importances = List.length feats
  /\ feats <> []
  /\ Forall (fun imp => 0 <= imp <= 1) importances
  /\ ((exists imp, In imp importances /\ imp == 1)
      \/ Forall (fun imp => imp == 0) importances).
Proof.
  unfold per_feature_importance. intro H.
  destruct (dict_field "model" _) as [model|]; cbn [bind] in H;
    [|discriminate H].
  destruct (dict_field "scaler" _) as [scaler_|]; cbn [bind] in H;
    [|discriminate H].
  destruct (class_probability model scaler_ feats target_class_idx)
    as [base_prob|]; cbn [bind] in H; [|discriminate H].
  destruct (for_each _ _) as [raw|] eqn:Eraw; cbn [bind] in H;
    [|discriminate H].
  destruct (np_max raw) as [top|] eqn:Etop; cbn [bind] in H;
    [|discriminate H].
  pose proof (for_each_length _ _ _ Eraw) as Hlen.
  rewrite length_seq in Hlen.
  pose proof (for_each_all _ (fun imp => 0 <= imp) _ _
                (importance_nonneg model scaler_ feats target_class_idx
                   delta_frac base_prob) Eraw) as Hnonneg.
  pose proof (np_max_largest raw top Etop) as Hlargest.
  pose proof (np_max_attained raw top Etop) as Hattained.
  assert (Hfeats : feats <> []).
  { intros ->. destruct raw; [discriminate Etop | discriminate Hlen]. }
  rewrite Forall_forall in Hnonneg.
  destruct (Qltb 0 top) eqn:Epos; injection H as <-.
  - apply Qltb_true in Epos.
    split; [rewrite length_map; exact Hlen|]. split; [exact Hfeats|].
    split.
    + apply Forall_forall. intros v Hv. apply in_map_iff in Hv.
      destruct Hv as (imp & <- & Himp). split.
      * apply Qle_shift_div_l; [exact Epos|].
        rewrite Qmult_0_l. exact (Hnonneg imp Himp).
      * apply Qle_shift_div_r; [exact Epos|].
        rewrite Qmult_1_l. exact (Hlargest imp Himp).
    + left. exists (top / top). split.
      * apply in_map_iff. exists top. split; [reflexivity | exact Hattained].
      * field. intro Hzero. rewrite Hzero in Epos.
        exact (Qlt_irrefl 0 Epos).
  - apply Qltb_false in Epos.
    split; [exact Hlen|]. split; [exact Hfeats|].
    assert (Hzero : forall imp, In imp raw -> imp == 0).
    { intros imp Himp. apply Qle_antisym; [|exact (Hnonneg imp Himp)].
      apply (Qle_trans _ top); [exact (Hlargest imp Himp) | exact Epos]. }
    split.
    + apply Forall_forall. intros imp Himp. rewrite (Hzero imp Himp).
      split; [apply Qle_refl | discriminate].
    + right. apply Forall_forall. exact Hzero.
Qed.

End Importance.

(** ** apps/ai/views.py: the notification sent to the assigned doctor *)

Module Notifications.

Import ModelSafety RiskScorer Predictor PredictorProperties.

Local Open Scope string_scope.
Local Open Scope py_scope.

(** [Notification.LEVEL_*] of apps/notifications/models.py. *)
Definition LEVEL_INFO : string := "info".
Definition LEVEL_SUCCESS : string := "success".
Definition LEVEL_WARNING : string := "warning".
Definition LEVEL_ERROR : string := "error".

(** [str.upper] on ASCII text. *)
Definition upper_char (c : ascii) : ascii :=
let n := nat_of_ascii c in
if (97 <=? n)%nat && (n <=? 122)%nat then ascii_of_nat (n - 32) else c.

Fixpoint upper (s : string) : string :=
match s with
| EmptyString => EmptyString
| String c rest => String (upper_char c) (upper rest)
end.

(** The level and the title the view chooses from the stored risk level. *)
Definition notification_for (risk_level_ : string) : string * string :=
if String.eqb risk_level_ "critical" || String.eqb risk_level_ "high"
then
  ((if String.eqb risk_level_ "critical" then LEVEL_ERROR else LEVEL_WARNING),
   upper risk_level_ ++ " risk prediction")
else (LEVEL_SUCCESS, "HER2 prediction completed").

(** X18. The notification follows the predicted class: for a result of
    [predict] the doctor is sent an error-level "CRITICAL risk prediction"
    exactly for HER2_3+, a warning-level "HIGH risk prediction" exactly for
    HER2_2+, and the success-level "HER2 prediction completed" for HER2_0
    and HER2_1+, whose medium risk raises no alert. *)
Theorem notification_follows_class (self : predictor)
  (opened : outcome pil_image) (result : prediction_result) :
  predict_loaded self opened = Return result ->
  (her2_status result = "HER2_3+"
   /\ notification_for (risk_level result)
      = (LEVEL_ERROR, "CRITICAL risk prediction"))
  \/ (her2_status result = "HER2_2+"
      /\ notification_for (risk_level result)
         = (LEVEL_WARNING, "HIGH risk prediction"))
  \/ ((her2_status result = "HER2_1+" /\ risk_level result = "medium"
       \/ her2_status result = "HER2_0" /\ risk_level result = "low")
      /\ notification_for (risk_level result)
         = (LEVEL_SUCCESS, "HER2 prediction completed")).
Proof.
  intro H.
  destruct (predict_loaded_inversion self opened result H)
    as (scaler_ & ensemble & features & scaled & p0 & p1 & p2 & p3 & idx
        & _ & _ & _ & _ & _ & _ & Hname & _ & Hlevel & _).
  destruct idx as [|[|[|[|idx]]]]; try discriminate Hname;
    injection Hname as Hname; rewrite <- Hname in Hlevel |- *;
    injection Hlevel as Hlevel; rewrite <- Hlevel.
  - right. right. split; [right; split; reflexivity | reflexivity].
  - right. right. split; [left; split; reflexivity | reflexivity].
  - right. left. split; reflexivity.
  - left. split; reflexivity.
Qed.

End Notifications.

(** ** Properties of the feature vector *)

Module FeatureProperties.

Import Features.

Local Open Scope R_scope.

(** *** Sums and means *)

Lemma fold_Rplus_from (l : list R) (acc : R) :
  fold_left Rplus l acc = acc + fold_left Rplus l 0.
Proof.
  revert acc. induction l as [|x l IH]; intro acc; simpl.
  - Lra.lra.
  - rewrite (IH (acc + x)), (IH (0 + x)). Lra.lra.
Qed.

Lemma np_sum_cons (x : R) (l : list R) : np_sum (x :: l) = x + np_sum l.
Proof.
  unfold np_sum. simpl. rewrite fold_Rplus_from. Lra.lra.
Qed.

Lemma np_sum_bounds (lo hi : R) (l : list R) :
  Forall (fun x => lo <= x <= hi) l ->
  INR (List.length l) * lo <= np_sum l <= INR (List.length l) * hi.
Proof.
  induction 1 as [|x l Hx _ IH].
  - unfold np_sum. simpl. Lra.lra.
  - rewrite np_sum_cons. change (List.length (x :: l)) with (S (List.length l)).
    rewrite S_INR. Lra.lra.
Qed.

Lemma np_mean_bounds (lo hi : R) (l : list R) :
  l <> [] ->
  Forall (fun x => lo <= x <= hi) l ->
  lo <= np_mean l <= hi.
Proof.
  intros Hne Hall. pose proof (np_sum_bounds lo hi l Hall) as [Hlo Hhi].
  assert (Hn : 0 < INR (List.length l)).
  { apply lt_0_INR. destruct l; [contradiction | simpl; lia]. }
  unfold np_mean. split.
  - apply Rmult_le_reg_r with (r := INR (List.length l)); [exact Hn|].
    unfold Rdiv. rewrite Rmult_assoc, Rinv_l by Lra.lra. Lra.lra.
  - apply Rmult_le_reg_r with (r := INR (List.length l)); [exact Hn|].
    unfold Rdiv. rewrite Rmult_assoc, Rinv_l by Lra.lra. Lra.lra.
Qed.

Lemma np_mean_nonneg (l : list R) :
  Forall (fun x => 0 <= x) l -> 0 <= np_mean l.
Proof.
  intro Hall. destruct l as [|x l].
  - unfold np_mean, np_sum. simpl. unfold Rdiv. Lra.lra.
  - assert (Hsum : 0 <= np_sum (x :: l)).
    { clear -Hall. induction Hall as [|y l' Hy _ IH].
      - unfold np_sum. simpl. Lra.lra.
      - rewrite np_sum_cons. Lra.lra. }
    assert (Hn : 0 < INR (List.length (x :: l)))
      by (apply lt_0_INR; simpl; lia).
    unfold np_mean. apply Rmult_le_pos; [exact Hsum|].
    apply Rlt_le, Rinv_0_lt_compat. exact Hn.
Qed.

Lemma np_std_nonneg (l : list R) : 0 <= np_std l.
Proof. unfold np_std. apply sqrt_pos. Qed.

Lemma mean_abs_nonneg (a : list (list R)) : 0 <= mean_abs a.
Proof.
  unfold mean_abs. apply np_mean_nonneg. apply Forall_forall.
  intros x Hx. apply in_map_iff in Hx. destruct Hx as (y & <- & _).
  apply Rabs_pos.
Qed.

(** *** Sorting *)

Lemma insert_sorted_all (holds : Z -> Prop) (x : Z) (l : list Z) :
  holds x -> Forall holds l -> Forall holds (insert_sorted x l).
Proof.
  intros Hx Hl. induction Hl as [|y l Hy Hl IH]; simpl.
  - constructor; [exact Hx | constructor].
  - destruct (x <=? y)%Z.
    + constructor; [exact Hx|]. constructor; assumption.
    + constructor; assumption.
Qed.

Lemma insert_sorted_length (x : Z) (l : list Z) :
  List.length (insert_sorted x l) = S (List.length l).
Proof.
  induction l as [|y l IH]; [reflexivity|].
  simpl. destruct (x <=? y)%Z; simpl; [reflexivity|].
  rewrite IH. reflexivity.
Qed.

Lemma insert_sorted_sorted (x : Z) (l : list Z) :
  StronglySorted Z.le l -> StronglySorted Z.le (insert_sorted x l).
Proof.
  induction 1 as [|y l Hsorted IH Hy]; simpl.
  - constructor; constructor.
  - destruct (x <=? y)%Z eqn:E.
    + apply Z.leb_le in E. constructor.
      * constructor; assumption.
      * constructor; [exact E|].
        apply (Forall_impl _ (fun z Hz => Z.le_trans _ _ _ E Hz) Hy).
    + apply Z.leb_gt in E. constructor; [exact IH|].
      apply insert_sorted_all; [lia | exact Hy].
Qed.

Lemma np_sort_all (holds : Z -> Prop) (a : list Z) :
  Forall holds a -> Forall holds (np_sort a).
Proof.
  induction 1 as [|x a Hx _ IH]; [constructor|].
  simpl. apply insert_sorted_all; assumption.
Qed.

Lemma np_sort_length (a : list Z) : List.length (np_sort a) = List.length a.
Proof.
  induction a as [|x a IH]; [reflexivity|].
  simpl. rewrite insert_sorted_length, IH. reflexivity.
Qed.

Lemma np_sort_sorted (a : list Z) : StronglySorted Z.le (np_sort a).
Proof.
  induction a as [|x a IH]; [constructor|].
  simpl. apply insert_sorted_sorted. exact IH.
Qed.

Lemma sorted_nth (s : list Z) (i j : nat) :
  StronglySorted Z.le s ->
  (i <= j)%nat -> (j < List.length s)%nat ->
  (nth i s 0 <= nth j s 0)%Z.
Proof.
  intro Hsorted. revert i j.
  induction Hsorted as [|x s Hsorted IH Hx]; intros i j Hij Hj.
  - simpl in Hj. lia.
  - destruct i as [|i], j as [|j]; simpl in *; try lia.
    + rewrite Forall_forall in Hx. apply Hx. apply nth_In. lia.
    + apply IH; lia.
Qed.

Lemma nth_all (holds : Z -> Prop) (s : list Z) (i : nat) :
  holds 0%Z -> Forall holds s -> holds (nth i s 0%Z).
Proof.
  intros H0 Hall. revert i.
  induction Hall as [|x s Hx _ IH]; intro i; destruct i; simpl; auto.
Qed.

(** *** The value at a position of the sorted data *)

(** The value [np.percentile] interpolates at a position given in
    hundredths of an index. *)
Definition at_position (s : list Z) (position : nat) : R :=
let n := List.length s in
let lower := nth (position / 100) s 0%Z in
let upper := nth (Nat.min (position / 100 + 1) (n - 1)) s 0%Z in
IZR lower + (IZR upper - IZR lower) * (INR (position mod 100) / 100).

Lemma np_percentile_at_position (a : list Z) (q : nat) :
  np_percentile a q
  = at_position (np_sort a) ((List.length (np_sort a) - 1) * q).
Proof. reflexivity. Qed.

Lemma weight_range (position : nat) :
  0 <= INR (position mod 100) / 100 < 1.
Proof.
  assert (H : (position mod 100 < 100)%nat) by (apply Nat.mod_upper_bound; lia).
  apply lt_INR in H. pose proof (pos_INR (position mod 100)) as H0.
  replace (INR 100) with 100 in H by (simpl; Lra.lra).
  split.
  - apply Rmult_le_pos; [exact H0 | Lra.lra].
  - apply Rmult_lt_reg_r with (r := 100); [Lra.lra|].
    unfold Rdiv. rewrite Rmult_assoc, Rinv_l by Lra.lra. Lra.lra.
Qed.

Lemma at_position_between (s : list Z) (position : nat) :
  StronglySorted Z.le s ->
  (position <= (List.length s - 1) * 100)%nat ->
  (0 < List.length s)%nat ->
  IZR (nth (position / 100) s 0%Z) <= at_position s position
  /\ at_position s position
     <= IZR (nth (Nat.min (position / 100 + 1) (List.length s - 1)) s 0%Z).
Proof.
  intros Hsorted Hpos Hn. unfold at_position.
  pose proof (weight_range position) as [Hw0 Hw1].
  set (w := INR (position mod 100) / 100) in *.
  assert (Hk : (position / 100 <= List.length s - 1)%nat).
  { apply Nat.Div0.div_le_upper_bound. lia. }
  assert (Hle : (nth (position / 100) s 0
                 <= nth (Nat.min (position / 100 + 1) (List.length s - 1))
                      s 0)%Z)
    by (apply sorted_nth; [exact Hsorted | lia | lia]).
  apply IZR_le in Hle.
  set (lower := IZR (nth (position / 100) s 0%Z)) in *.
  set (upper := IZR (nth (Nat.min (position / 100 + 1) (List.length s - 1))
                       s 0%Z)) in *.
  split; Lra.nra.
Qed.

Lemma at_position_monotone (s : list Z) (p1 p2 : nat) :
  StronglySorted Z.le s ->
  (p1 <= p2)%nat ->
  (p2 <= (List.length s - 1) * 100)%nat ->
  at_position s p1 <= at_position s p2.
Proof.
  intros Hsorted H12 Hp2.
  destruct s as [|x s'] eqn:Es.
  { simpl in Hp2. assert (p2 = 0%nat) by lia. assert (p1 = 0%nat) by lia.
    subst. apply Rle_refl. }
  rewrite <- Es in *.
  assert (Hn : (0 < List.length s)%nat) by (rewrite Es; simpl; lia).
  clear Es x s'.
  assert (Hk2 : (p2 / 100 <= List.length s - 1)%nat)
    by (apply Nat.Div0.div_le_upper_bound; lia).
  assert (Hk : (p1 / 100 <= p2 / 100)%nat)
    by (apply Nat.Div0.div_le_mono; exact H12).
  destruct (Nat.eq_dec (p1 / 100) (p2 / 100)) as [Heq | Hneq].
  - unfold at_position. rewrite Heq.
    assert (Hmod : (p1 mod 100 <= p2 mod 100)%nat).
    { pose proof (Nat.div_mod_eq p1 100) as E1.
      pose proof (Nat.div_mod_eq p2 100) as E2. lia. }
    apply le_INR in Hmod.
    pose proof (weight_range p1) as [Hw0 _].
    assert (Hle : (nth (p2 / 100) s 0
                   <= nth (Nat.min (p2 / 100 + 1) (List.length s - 1)) s 0)%Z)
      by (apply sorted_nth; [exact Hsorted | lia | lia]).
    apply IZR_le in Hle.
    set (lower := IZR (nth (p2 / 100) s 0%Z)) in *.
    set (upper := IZR (nth (Nat.min (p2 / 100 + 1) (List.length s - 1))
                         s 0%Z)) in *.
    assert (Hw : INR (p1 mod 100) / 100 <= INR (p2 mod 100) / 100)
      by (unfold Rdiv; apply Rmult_le_compat_r; Lra.lra).
    Lra.nra.
  - destruct (at_position_between s p1 Hsorted ltac:(lia) Hn) as [_ Hup].
    destruct (at_position_between s p2 Hsorted Hp2 Hn) as [Hlow _].
    assert (Hmid : (nth (Nat.min (p1 / 100 + 1) (List.length s - 1)) s 0
                    <= nth (p2 / 100) s 0)%Z)
      by (apply sorted_nth; [exact Hsorted | lia | lia]).
    apply IZR_le in Hmid. Lra.lra.
Qed.

(** [np.median] is the value at the middle position. *)
Lemma np_median_at_position (a : list Z) :
  np_median a = at_position (np_sort a) ((List.length (np_sort a) - 1) * 50).
Proof.
  unfold np_median, at_position.
  set (s := np_sort a). set (n := List.length s).
  destruct (Nat.even n) eqn:Eparity.
  - apply Nat.even_spec in Eparity. destruct Eparity as (m & Hm).
    destruct m as [|m].
    + replace n with 0%nat by lia. simpl.
      destruct s; [|discriminate]. simpl. unfold Rdiv. Lra.lra.
    + assert (Hpos : ((n - 1) * 50 = (n / 2 - 1) * 100 + 50)%nat).
      { assert (n / 2 = S m)%nat
          by (rewrite Hm, Nat.mul_comm, Nat.div_mul; lia).
        lia. }
      assert (Hdiv : ((n - 1) * 50 / 100 = n / 2 - 1)%nat).
      { rewrite Hpos. rewrite Nat.div_add_l by lia. simpl. lia. }
      assert (Hmod : (((n - 1) * 50) mod 100 = 50)%nat).
      { rewrite Hpos. rewrite Nat.add_comm, Nat.Div0.mod_add. reflexivity. }
      rewrite Hdiv, Hmod.
      assert (Hhalf : (n / 2 = S m)%nat)
        by (rewrite Hm, Nat.mul_comm, Nat.div_mul; lia).
      replace (Nat.min (n / 2 - 1 + 1) (n - 1)) with (n / 2)%nat by lia.
      replace (INR 50) with 50 by (simpl; Lra.lra).
      Lra.lra.
  - assert (Hodd : Nat.odd n = true)
      by (rewrite <- Nat.negb_even, Eparity; reflexivity).
    apply Nat.odd_spec in Hodd. destruct Hodd as (m & Hm).
    assert (Hhalf : (n / 2 = m)%nat).
    { rewrite Hm. rewrite Nat.add_comm, Nat.mul_comm.
      rewrite Nat.div_add by lia. simpl. reflexivity. }
    assert (Hpos : ((n - 1) * 50 = m * 100)%nat) by lia.
    rewrite Hpos, Nat.div_mul, Nat.Div0.mod_mul by lia.
    rewrite Hhalf. simpl INR. unfold Rdiv. Lra.lra.
Qed.

Lemma quartiles_ordered (a : list Z) :
  np_percentile a 25 <= np_median a <= np_percentile a 75.
Proof.
  rewrite !np_percentile_at_position, np_median_at_position.
  pose proof (np_sort_sorted a) as Hsorted.
  split; apply at_position_monotone; try exact Hsorted; lia.
Qed.

Lemma np_percentile_bounds (lo hi : Z) (a : list Z) (q : nat) :
  (lo <= 0 <= hi)%Z ->
  (q <= 100)%nat ->
  Forall (fun x => (lo <= x <= hi)%Z) a ->
  IZR lo <= np_percentile a q <= IZR hi.
Proof.
  intros H0 Hq Hall. rewrite np_percentile_at_position.
  pose proof (np_sort_sorted a) as Hsorted.
  pose proof (np_sort_all _ a Hall) as Hs.
  set (s := np_sort a) in *.
  assert (Hnth : forall i, (lo <= nth i s 0 <= hi)%Z)
    by (intro i; apply (nth_all (fun x => (lo <= x <= hi)%Z)); assumption).
  destruct s as [|x s'] eqn:Es.
  - unfold at_position. simpl. unfold Rdiv.
    destruct H0 as [Hlo Hhi]. apply IZR_le in Hlo, Hhi. Lra.lra.
  - rewrite <- Es in *.
    assert (Hn : (0 < List.length s)%nat) by (rewrite Es; simpl; lia).
    assert (Hpos : ((List.length s - 1) * q <= (List.length s - 1) * 100)%nat)
      by (apply Nat.mul_le_mono_l; exact Hq).
    destruct (at_position_between s _ Hsorted Hpos Hn) as [Hlow Hup].
    pose proof (Hnth ((List.length s - 1) * q / 100)%nat) as [Hl _].
    pose proof (Hnth (Nat.min ((List.length s - 1) * q / 100 + 1)
                        (List.length s - 1))) as [_ Hu].
    apply IZR_le in Hl, Hu. Lra.lra.
Qed.

(** *** The vector of an image *)

(** The pixels of [np.array(pil_img.convert('RGB'))] are [uint8]. *)
Definition in_uint8 (x : Z) : Prop := (0 <= x <= 255)%Z.

Definition uint8_image (img_array : pil_image) : Prop :=
forall row p, In row img_array -> In p row ->
  let '(r, g, b) := p in in_uint8 r /\ in_uint8 g /\ in_uint8 b.

Lemma extract_features_inversion (img_array : pil_image) (features : list R) :
  extract_features img_array = Return features ->
  features = spec_feature_vector img_array
  /\ (2 <= List.length img_array)%nat
  /\ (2 <= List.length (hd [] img_array))%nat.
Proof.
  unfold extract_features, np_gradient.
  destruct (mean_axis2_shape img_array) as [-> ->].
  destruct ((List.length img_array <? 2)%nat
            || (List.length (hd [] img_array) <? 2)%nat) eqn:E;
    cbn [bind]; intro H; [discriminate H|].
  injection H as <-. apply Bool.orb_false_iff in E. destruct E as [E1 E2].
  apply Nat.ltb_ge in E1, E2. repeat split; assumption.
Qed.

Lemma channel_data_uint8 (img_array : pil_image) (channel : nat) :
  uint8_image img_array ->
  Forall in_uint8 (channel_data img_array channel).
Proof.
  intro Himg. apply Forall_forall. intros x Hx.
  unfold channel_data in Hx. apply in_map_iff in Hx.
  destruct Hx as (p & <- & Hp). apply in_concat in Hp.
  destruct Hp as (row & Hrow & Hp). specialize (Himg row p Hrow Hp).
  destruct p as [[r g] b]. destruct Himg as (Hr & Hg & Hb).
  destruct channel as [|[|channel]]; assumption.
Qed.

Lemma gray_uint8 (img_array : pil_image) :
  uint8_image img_array ->
  Forall (fun x => 0 <= x <= 255) (List.concat (mean_axis2 img_array)).
Proof.
  intro Himg. apply Forall_forall. intros x Hx.
  apply in_concat in Hx. destruct Hx as (gray_row & Hrow & Hx).
  unfold mean_axis2 in Hrow. apply in_map_iff in Hrow.
  destruct Hrow as (row & <- & Hrow). apply in_map_iff in Hx.
  destruct Hx as (p & <- & Hp). specialize (Himg row p Hrow Hp).
  destruct p as [[r g] b]. destruct Himg as ((Hr0 & Hr1) & (Hg0 & Hg1)
                                             & (Hb0 & Hb1)).
  apply IZR_le in Hr0, Hr1, Hg0, Hg1, Hb0, Hb1.
  unfold gray_of. Lra.lra.
Qed.

Lemma concat_not_empty {A : Type} (a : list (list A)) :
  (2 <= List.length a)%nat -> (2 <= List.length (hd [] a))%nat ->
  List.concat a <> [].
Proof.
  destruct a as [|[|x row] rest]; simpl; intros Hh Hw; try lia.
  discriminate.
Qed.

Lemma channel_mean_bounds (img_array : pil_image) (channel : nat) :
  (2 <= List.length img_array)%nat ->
  (2 <= List.length (hd [] img_array))%nat ->
  uint8_image img_array ->
  0 <= np_mean (map IZR (channel_data img_array channel)) <= 255.
Proof.
  intros Hh Hw Himg. apply np_mean_bounds.
  - unfold channel_data. intro H. apply map_eq_nil in H.
    apply map_eq_nil in H. exact (concat_not_empty _ Hh Hw H).
  - apply Forall_forall. intros x Hx. apply in_map_iff in Hx.
    destruct Hx as (z & <- & Hz).
    pose proof (channel_data_uint8 img_array channel Himg) as Hall.
    rewrite Forall_forall in Hall. destruct (Hall z Hz) as [H0 H1].
    apply IZR_le in H0, H1. Lra.lra.
Qed.

Lemma channel_median_bounds (img_array : pil_image) (channel : nat) :
  uint8_image img_array ->
  0 <= np_median (channel_data img_array channel) <= 255.
Proof.
  intro Himg. pose proof (quartiles_ordered (channel_data img_array channel))
    as [Hlow Hhigh].
  pose proof (np_percentile_bounds 0 255 _ 25 ltac:(lia) ltac:(lia)
                (channel_data_uint8 img_array channel Himg)) as [H25 _].
  pose proof (np_percentile_bounds 0 255 _ 75 ltac:(lia) ltac:(lia)
                (channel_data_uint8 img_array channel Himg)) as [_ H75].
  Lra.lra.
Qed.

(** X19. On an RGB image of at least 2 by 2 pixels the extraction returns
    19 features, none of them negative; the mean, the median and the two
    quartiles of every channel and the mean grey level are at most 255,
    the largest value of a pixel. *)
Theorem features_are_bounded (img_array : pil_image) :
  (2 <= List.length img_array)%nat ->
  (2 <= List.length (hd [] img_array))%nat ->
  uint8_image img_array ->
  exists features,
    extract_features img_array = Return features
    /\ List.length features = 19%nat
    /\ Forall (fun v => 0 <= v) features
    /\ (forall c, (c < 3)%nat ->
          nth (5 * c) features 0 <= 255
          /\ nth (5 * c + 2) features 0 <= 255
          /\ nth (5 * c + 3) features 0 <= 255
          /\ nth (5 * c + 4) features 0 <= 255)
    /\ nth 15 features 0 <= 255.
Proof.
  intros Hh Hw Himg. exists (spec_feature_vector img_array).
  split; [exact (extract_features_returns img_array Hh Hw)|].
  split; [reflexivity|].
  pose proof (fun c => channel_mean_bounds img_array c Hh Hw Himg) as Hmean.
  pose proof (fun c => channel_median_bounds img_array c Himg) as Hmedian.
  pose proof (fun c q (Hq : (q <= 100)%nat) =>
                np_percentile_bounds 0 255 _ q ltac:(lia) Hq
                  (channel_data_uint8 img_array c Himg)) as Hpercentile.
  assert (Hgray : 0 <= np_mean (List.concat (mean_axis2 img_array)) <= 255).
  { apply np_mean_bounds; [|exact (gray_uint8 img_array Himg)].
    destruct (mean_axis2_shape img_array) as [Hrows Hcols].
    apply concat_not_empty; [rewrite Hrows | rewrite Hcols]; assumption. }
  pose proof (Hpercentile 0%nat 25%nat ltac:(lia)).
  pose proof (Hpercentile 0%nat 75%nat ltac:(lia)).
  pose proof (Hpercentile 1%nat 25%nat ltac:(lia)).
  pose proof (Hpercentile 1%nat 75%nat ltac:(lia)).
  pose proof (Hpercentile 2%nat 25%nat ltac:(lia)).
  pose proof (Hpercentile 2%nat 75%nat ltac:(lia)).
  split; [|split].
  - unfold spec_feature_vector.
    repeat (apply Forall_cons; [first [ apply np_std_nonneg
                                      | apply mean_abs_nonneg
                                      | apply Hmean | apply Hmedian
                                      | apply Hgray | tauto ]|]).
    constructor.
  - intros c Hc. destruct c as [|[|[|c]]]; [| | |lia];
      unfold spec_feature_vector; cbn [Nat.mul Nat.add nth];
      repeat split;
      first [ apply Hmean | apply Hmedian | tauto ].
  - unfold spec_feature_vector. cbn [nth]. apply Hgray.
Qed.

(** X20. In every vector the extraction returns the quartiles of a channel
    are in order: the 25th percentile is at most the median, which is at
    most the 75th percentile. *)
Theorem quartiles_of_a_channel_are_ordered (img_array : pil_image)
  (features : list R) (c : nat) :
  extract_features img_array = Return features ->
  (c < 3)%nat ->
  nth (5 * c + 3) features 0 <= nth (5 * c + 2) features 0
  /\ nth (5 * c + 2) features 0 <= nth (5 * c + 4) features 0.
Proof.
  intros Hrun Hc.
  destruct (extract_features_inversion img_array features Hrun) as (-> & _).
  destruct c as [|[|[|c]]]; [| | |lia];
    unfold spec_feature_vector; cbn [Nat.mul Nat.add nth];
    apply quartiles_ordered.
Qed.

End FeatureProperties.

(** ** The validator in front of the extractor *)

Module Pipeline.

Import Gates Validator Features ValidatorProperties.

Local Open Scope string_scope.

Section WithOpenCV.

Variable COLOR_BGR2GRAY : bgr -> Z.
Variable COLOR_BGR2HSV : bgr -> hsv.
Variable Laplacian_var : list (list Z) -> Q.
Variable calcHist_normalized : list (list hsv) -> list Q.
Variable compareHist_CORREL : list Q -> list Q -> Q.
Variable REFERENCE_HISTOGRAMS : option (list (list Q)).
Variable float_repr : Q -> string.

(** X21. An image that [validate] accepts was opened, is at least 100 by
    100 pixels, and the extractor returns its 19 features: after the
    validator, [predict] cannot fail for the size of the image. *)
Theorem accepted_image_has_features (overrides config : list (string * Q))
  (opened : outcome pil_image) :
  is_valid
    (validate COLOR_BGR2GRAY COLOR_BGR2HSV Laplacian_var calcHist_normalized
       compareHist_CORREL REFERENCE_HISTOGRAMS float_repr
       (init_config overrides) opened config)
  = true ->
  exists pil_img features,
    opened = Return pil_img
    /\ (MIN_WIDTH <= fst (pil_size pil_img) <= MAX_WIDTH)%Z
    /\ (MIN_HEIGHT <= snd (pil_size pil_img) <= MAX_HEIGHT)%Z
    /\ extract_features_from_image opened = Return features
    /\ List.length features = 19%nat.
Proof.
  intro Hvalid. destruct opened as [pil_img | e]; [|discriminate Hvalid].
  destruct (is_empty pil_img) eqn:Hne.
  { exfalso. destruct (load_image_opencv_raises pil_img Hne) as (e & He).
    unfold validate, validate_traced, with_except, validate_try, and_then, call
      in Hvalid.
    rewrite He in Hvalid. discriminate Hvalid. }
  destruct (validate_run COLOR_BGR2GRAY COLOR_BGR2HSV Laplacian_var
              calcHist_normalized compareHist_CORREL REFERENCE_HISTOGRAMS
              float_repr overrides config pil_img Hne)
    as (cv_img & t1 & t2 & t3 & t4 & g1 & g2 & g3 & g4 & _ & _ & _ & _ & _
        & _ & _ & _ & _ & _ & _ & _ & _ & checks_ & Hrun).
  rewrite Hrun in Hvalid. clear Hrun.
  destruct ((fst (pil_size pil_img) <? MIN_WIDTH)%Z
            || (snd (pil_size pil_img) <? MIN_HEIGHT)%Z) eqn:Esmall;
    [discriminate Hvalid|].
  destruct ((fst (pil_size pil_img) >? MAX_WIDTH)%Z
            || (snd (pil_size pil_img) >? MAX_HEIGHT)%Z) eqn:Elarge;
    [discriminate Hvalid|].
  apply Bool.orb_false_iff in Esmall. destruct Esmall as [Ew Eh].
  apply Bool.orb_false_iff in Elarge. destruct Elarge as [Ew' Eh'].
  apply Z.ltb_ge in Ew, Eh. rewrite Z.gtb_ltb in Ew', Eh'.
  apply Z.ltb_ge in Ew', Eh'.
  exists pil_img, (spec_feature_vector pil_img).
  split; [reflexivity|]. split; [split; assumption|].
  split; [split; assumption|]. split; [|reflexivity].
  unfold extract_features_from_image. cbn [bind].
  unfold pil_size, MIN_WIDTH, MIN_HEIGHT in Ew, Eh. cbn [fst snd] in Ew, Eh.
  apply extract_features_returns; lia.
Qed.

End WithOpenCV.

End Pipeline.

(** ** Closed runs of the further properties *)

Module PropertyScenarios.

Import Gates Validator Scenarios Features ModelSafety PredictionScenarios
  RiskScorer Predictor GateProperties ValidatorProperties SafetyProperties
  RiskProperties PredictorProperties Importance Notifications
  FeatureProperties Pipeline.

Local Open Scope string_scope.
Local Open Scope Q_scope.

(** A 100 by 100 patch of one purple tone, and a 2 by 2 white one. *)
Definition purple_100x100 : pil_image := solid 100 100 (120, 80, 160)%Z.

Definition white_patch : pil_image := solid 2 2 white.

Lemma green_patch_whitespace_thresholds :
  is_empty green_patch = false
  /\ exists ratio,
       whitespace_ratio opencv_BGR2GRAY green_patch 220 = Return ratio
       /\ 0 <= ratio <= 1
       /\ lets_through (check_whitespace opencv_BGR2GRAY green_patch 1 220).
Proof.
  split; [reflexivity|].
  destruct (whitespace_gate_thresholds opencv_BGR2GRAY green_patch 1 0 220
              eq_refl)
    as (ratio & Hratio & Hbounds & _ & _ & Hone & _).
  exists ratio. split; [exact Hratio|]. split; [exact Hbounds|].
  apply Hone. apply Qle_refl.
Defined.

Lemma green_patch_stain_thresholds :
  is_empty green_patch = false
  /\ rectangular green_patch
  /\ exists ratio,
       stain_coverage opencv_BGR2HSV green_patch = Return ratio
       /\ 0 <= ratio <= 1
       /\ rejects (check_stain_profile opencv_BGR2HSV green_patch 1.5).
Proof.
  assert (Hrect : rectangular green_patch) by (repeat constructor).
  split; [reflexivity|]. split; [exact Hrect|].
  destruct (stain_gate_thresholds opencv_BGR2HSV green_patch 1.5 2 eq_refl
              Hrect)
    as (ratio & Hratio & Hbounds & _ & _ & _ & Habove & _).
  exists ratio. split; [exact Hratio|]. split; [exact Hbounds|].
  apply Habove. reflexivity.
Defined.

Lemma green_patch_histogram_thresholds :
  is_empty green_patch = false
  /\ exists target,
       compute_histogram opencv_BGR2HSV toy_calcHist green_patch
       = Return target
       /\ lets_through
            (check_histogram_similarity opencv_BGR2HSV toy_calcHist
               toy_compareHist (Some [[1; 0]; [0; 1]]) repr_one_decimal
               green_patch (-1)).
Proof.
  split; [reflexivity|].
  destruct (histogram_gate_best_match opencv_BGR2HSV toy_calcHist
              toy_compareHist repr_one_decimal (Some [[1; 0]; [0; 1]])
              green_patch (-1) 0 eq_refl)
    as (target & Htarget & _ & Hlow & _).
  exists target. split; [exact Htarget|]. apply Hlow. apply Qle_refl.
Defined.

Lemma green_patch_has_no_tissue :
  is_empty green_patch = false
  /\ (array_size green_patch < 100)%Z
  /\ check_color_profile opencv_BGR2HSV green_patch
     = Return (true, Some "No tissue detected (color profile)").
Proof.
  split; [reflexivity|]. split; [reflexivity|].
  apply (color_profile_needs_tissue opencv_BGR2HSV green_patch eq_refl).
  left. reflexivity.
Defined.

Lemma tiny_image_is_not_accepted :
  is_empty purple_patch = false
  /\ is_valid
       (validate opencv_BGR2GRAY opencv_BGR2HSV opencv_Laplacian_var
          toy_calcHist toy_compareHist None repr_one_decimal
          (init_config []) (Return purple_patch) [])
     = false.
Proof.
  split; [reflexivity|].
  destruct (validate_accepts_iff_all_gates_pass opencv_BGR2GRAY
              opencv_BGR2HSV opencv_Laplacian_var toy_calcHist
              toy_compareHist None repr_one_decimal [] [] purple_patch
              eq_refl)
    as (cv_img & t1 & t2 & t3 & t4 & _ & _ & _ & _ & _ & Hiff).
  apply Bool.not_true_is_false. intro E.
  apply Hiff in E. destruct E as ((Hwidth & _) & _).
  apply Hwidth. reflexivity.
Defined.

Lemma purple_100x100_same_by_both_entries :
  is_empty purple_100x100 = false
  /\ validate_pil_image opencv_BGR2GRAY opencv_BGR2HSV opencv_Laplacian_var
       toy_calcHist toy_compareHist None repr_one_decimal
       (init_config []) purple_100x100 []
     = validate opencv_BGR2GRAY opencv_BGR2HSV opencv_Laplacian_var
         toy_calcHist toy_compareHist None repr_one_decimal
         (init_config []) (Return purple_100x100) [].
Proof.
  split; [reflexivity|].
  assert (Hwidth : (MIN_WIDTH <= fst (pil_size purple_100x100))%Z)
    by (vm_compute; discriminate).
  assert (Hheight : (MIN_HEIGHT <= snd (pil_size purple_100x100))%Z)
    by (vm_compute; discriminate).
  destruct (validate_pil_image_agrees_within_bounds opencv_BGR2GRAY
              opencv_BGR2HSV opencv_Laplacian_var toy_calcHist
              toy_compareHist None repr_one_decimal [] [] purple_100x100
              eq_refl Hwidth Hheight)
    as [Hagree _].
  apply Hagree; vm_compute; discriminate.
Defined.

(** The uniform vector under an entropy threshold of 2. *)
Definition loose : option (list (string * Q)) :=
Some [("entropy_thresh", 2)].

Lemma uniform_run :
  exists conf,
    safe_predict opencv_BGR2GRAY opencv_BGR2HSV opencv_Laplacian_var
      toy_calcHist toy_compareHist None repr_one_decimal (fun _ => "1.39")
      purple_patch uniform_model loose
    = Return (Success "HER2_0" conf (calculate_entropy uniform) uniform
                (spec_feature_vector purple_patch)).
Proof.
  apply (low_entropy_gives_success opencv_BGR2GRAY opencv_BGR2HSV
           opencv_Laplacian_var toy_calcHist toy_compareHist None
           repr_one_decimal (fun _ => "1.39")
           purple_patch (map (map COLOR_RGB2BGR) purple_patch)
           uniform_model loose
           (Classifier (fun _ => Return uniform))
           (Scaler 19 (fun features => Return features))
           ["HER2_0"; "HER2_1+"; "HER2_2+"; "HER2_3+"]
           (spec_feature_vector purple_patch)
           (spec_feature_vector purple_patch)
           uniform 0%nat "HER2_0").
  - reflexivity.
  - exists None. vm_compute. reflexivity.
  - exists None. vm_compute. reflexivity.
  - exists None. vm_compute. reflexivity.
  - exists None. reflexivity.
  - reflexivity.
  - reflexivity.
  - reflexivity.
  - apply extract_features_returns; simpl; lia.
  - reflexivity.
  - reflexivity.
  - reflexivity.
  - reflexivity.
  - replace (Q2R (entropy_threshold loose)) with 2%R
      by (vm_compute; Lra.lra).
    assert (Hnonneg : Forall (fun p => 0 <= p) uniform)
      by (unfold uniform; repeat constructor; discriminate).
    pose proof (entropy_upper_bound uniform Hnonneg) as Hbound.
    pose proof exp_minus_1_upper as He.
    replace (INR (List.length uniform)) with 4%R in Hbound
      by (simpl; Lra.lra).
    Lra.lra.
Qed.

Lemma uniform_vector_under_loose_threshold_is_success :
  exists conf,
    safe_predict opencv_BGR2GRAY opencv_BGR2HSV opencv_Laplacian_var
      toy_calcHist toy_compareHist None repr_one_decimal (fun _ => "1.39")
      purple_patch uniform_model loose
    = Return (Success "HER2_0" conf (calculate_entropy uniform) uniform
                (spec_feature_vector purple_patch))
    /\ (calculate_entropy uniform <= Q2R (entropy_threshold loose))%R
    /\ forall p, In p uniform -> p <= conf.
Proof.
  destruct uniform_run as (conf & Hrun).
  destruct (safe_predict_status_is_sound opencv_BGR2GRAY opencv_BGR2HSV
              opencv_Laplacian_var toy_calcHist toy_compareHist None
              repr_one_decimal (fun _ => "1.39")
              purple_patch uniform_model loose _ Hrun)
    as (_ & _ & Hsuccess).
  destruct (Hsuccess eq_refl)
    as (label & conf' & probs & feats & Heq & _ & _ & Hle & Hmax & _).
  injection Heq as _ Hconf _ Hprobs _.
  exists conf. split; [exact Hrun|].
  rewrite Hconf, Hprobs. split; [exact Hle | exact Hmax].
Defined.

Lemma white_patch_rejected_whatever_the_model :
  exists why,
    safe_predict opencv_BGR2GRAY opencv_BGR2HSV opencv_Laplacian_var
      toy_calcHist toy_compareHist None repr_one_decimal (fun _ => "1.39")
      white_patch uniform_model None
    = Return (Rejected why)
    /\ safe_predict opencv_BGR2GRAY opencv_BGR2HSV opencv_Laplacian_var
         toy_calcHist toy_compareHist None repr_one_decimal
         (fun _ => "1.39") white_patch (ModelDict None None None) None
       = Return (Rejected why).
Proof.
  assert (Hrun : exists why,
             safe_predict opencv_BGR2GRAY opencv_BGR2HSV opencv_Laplacian_var
               toy_calcHist toy_compareHist None repr_one_decimal
               (fun _ => "1.39") white_patch uniform_model None
             = Return (Rejected why))
    by (eexists; vm_compute; reflexivity).
  destruct Hrun as (why & Hrun).
  exists why. split; [exact Hrun|].
  exact (proj2 (proj2 (rejection_is_decided_by_the_gates opencv_BGR2GRAY
                         opencv_BGR2HSV opencv_Laplacian_var toy_calcHist
                         toy_compareHist None repr_one_decimal
                         (fun _ => "1.39") white_patch uniform_model None
                         why))
           (ModelDict None None None) Hrun).
Defined.

Lemma uniform_vector_is_never_unknown_at_2 :
  (1.5 <= entropy_threshold loose)
  /\ exists result,
       safe_predict opencv_BGR2GRAY opencv_BGR2HSV opencv_Laplacian_var
         toy_calcHist toy_compareHist None repr_one_decimal
         (fun _ => "1.39") purple_patch uniform_model loose
       = Return result
       /\ status_of result <> "Unknown".
Proof.
  assert (Hthreshold : 1.5 <= entropy_threshold loose)
    by (vm_compute; discriminate).
  split; [exact Hthreshold|].
  destruct uniform_run as (conf & Hrun).
  eexists. split; [exact Hrun|].
  apply (unknown_is_out_of_reach opencv_BGR2GRAY opencv_BGR2HSV
           opencv_Laplacian_var toy_calcHist toy_compareHist None
           repr_one_decimal (fun _ => "1.39")
           purple_patch uniform_model loose _).
  - intros model scaled probs Hmodel Hprobs.
    injection Hmodel as <-. injection Hprobs as <-.
    split; [simpl; lia|].
    unfold uniform. repeat constructor; discriminate.
  - exact Hthreshold.
  - exact Hrun.
Defined.

Lemma her2_2_score_in_band :
  exists base score,
    dict_get BASE_RISK_SCORES "HER2_2+" = Some base
    /\ _calculate_risk_score "HER2_2+" 0.7 [0.1; 0.1; 0.7; 0.1]
       = Return score
    /\ inject_Z base - 10 <= score
    /\ score <= inject_Z base + 20.
Proof.
  destruct (risk_score_band HER2_2 0.7 0.1 0.1 0.7 0.1)
    as (base & score & Hbase & Hrun & Hlow & Hhigh & _).
  - split; discriminate.
  - discriminate.
  - discriminate.
  - discriminate.
  - discriminate.
  - reflexivity.
  - exists base, score. repeat split; assumption.
Defined.

(** A predictor that has loaded the uniform model. *)
Definition loaded : predictor :=
PredictorState (Some uniform_model) (md_model uniform_model)
  (md_scaler uniform_model) (md_class_names uniform_model).

Lemma uniform_prediction :
  exists result, predict_loaded loaded (Return purple_patch) = Return result.
Proof.
  unfold predict_loaded, extract_features_from_image. cbn [bind].
  rewrite extract_features_returns by (simpl; lia).
  eexists. reflexivity.
Qed.

(** The first call of a fresh predictor on the uniform model. *)
Lemma uniform_call :
  exists score,
    predict init (Pickled uniform_model) (Return purple_patch)
    = (Return (PredictionResult "HER2_0" 0.25
                 [ ("HER2_0", 0.25); ("HER2_1+", 0.25);
                   ("HER2_2+", 0.25); ("HER2_3+", 0.25) ]
                 "low" score (_calculate_entropy uniform) "v2.4.1"),
       loaded, [PathProbe; JoblibLoad]).
Proof.
  unfold predict, _load_model, predict_loaded, extract_features_from_image.
  cbn [init _model_data uniform_model md_model md_scaler md_class_names bind
         _ensemble _scaler _class_names].
  rewrite extract_features_returns by (simpl; lia).
  eexists. reflexivity.
Qed.

Lemma uniform_prediction_is_consistent :
  exists result self' p0 p1 p2 p3 idx,
    predict init (Pickled uniform_model) (Return purple_patch)
    = (Return result, self', [PathProbe; JoblibLoad])
    /\ probabilities result
       = [ ("HER2_0", p0); ("HER2_1+", p1); ("HER2_2+", p2); ("HER2_3+", p3) ]
    /\ np_argmax [p0; p1; p2; p3] = Return idx
    /\ nth_error (map snd HER2_CLASSES) idx = Some (her2_status result)
    /\ nth_error [p0; p1; p2; p3] idx = Some (Predictor.confidence result)
    /\ 0 <= risk_score result <= 100.
Proof.
  destruct uniform_call as (score & Hcall).
  destruct (predict_result_is_consistent _ _ _ _ _ _ Hcall)
    as (scaler_ & ensemble & features & scaled & p0 & p1 & p2 & p3 & idx
        & _ & _ & _ & _ & _ & Hprobs & Hidx & _ & Hname & Hconf & _ & _ & _
        & Hscore & _).
  eexists _, _, p0, p1, p2, p3, idx.
  split; [exact Hcall|]. split; [exact Hprobs|]. split; [exact Hidx|].
  split; [exact Hname|]. split; [exact Hconf | exact Hscore].
Defined.

Lemma empty_artifact_blocks_a_later_good_one :
  exists first self',
    predict init (Pickled (ModelDict None None None)) (Return purple_patch)
    = (Raise first, self', [PathProbe; JoblibLoad])
    /\ Forall (fun call_result =>
                 snd call_result = []
                 /\ exists message,
                      fst call_result = Raise (Exn "RuntimeError" message))
         (fst (predict_each self'
                 [(Pickled uniform_model, Return purple_patch)])).
Proof.
  destruct (incomplete_artifact_is_kept (ModelDict None None None)
              (Return purple_patch)
              [(Pickled uniform_model, Return purple_patch)])
    as (key & self' & Hfirst & _ & _ & Hlater); [left; reflexivity|].
  eexists _, self'. split; [exact Hfirst | exact Hlater].
Defined.

Lemma constant_classifier_importances :
  exists importances,
    per_feature_importance uniform_model [1%R; 2%R] 0 0.1%R
    = Return importances
    /\ List.length importances = 2%nat
    /\ Forall (fun imp => 0 <= imp <= 1) importances.
Proof.
  assert (Hrun : exists importances,
             per_feature_importance uniform_model [1%R; 2%R] 0 0.1%R
             = Return importances)
    by (eexists; reflexivity).
  destruct Hrun as (importances & Hrun).
  destruct (importances_are_normalised uniform_model [1%R; 2%R] 0 0.1%R
              importances Hrun)
    as (Hlen & _ & Hrange & _).
  exists importances. split; [exact Hrun|]. split; assumption.
Defined.

Lemma uniform_prediction_raises_no_alert :
  exists result,
    predict_loaded loaded (Return purple_patch) = Return result
    /\ (her2_status result = "HER2_3+"
        \/ her2_status result = "HER2_2+"
        \/ notification_for (risk_level result)
           = (LEVEL_SUCCESS, "HER2 prediction completed")).
Proof.
  destruct uniform_prediction as (result & Hrun).
  exists result. split; [exact Hrun|].
  destruct (notification_follows_class loaded (Return purple_patch) result
              Hrun)
    as [[Hclass _] | [[Hclass _] | [_ Hnote]]].
  - left. exact Hclass.
  - right. left. exact Hclass.
  - right. right. exact Hnote.
Defined.

Lemma purple_patch_is_uint8 : uint8_image purple_patch.
Proof.
  intros row p Hrow Hp. unfold purple_patch in Hrow. simpl in Hrow.
  destruct Hrow as [<- | [<- | []]]; simpl in Hp;
    destruct Hp as [<- | [<- | []]]; unfold in_uint8; lia.
Qed.

Lemma purple_patch_features_are_bounded :
  exists features,
    extract_features purple_patch = Return features
    /\ List.length features = 19%nat
    /\ Forall (fun v => (0 <= v)%R) features
    /\ (nth 15 features 0 <= 255)%R.
Proof.
  destruct (features_are_bounded purple_patch)
    as (features & Hrun & Hlen & Hnonneg & _ & Hgray).
  - simpl. lia.
  - simpl. lia.
  - exact purple_patch_is_uint8.
  - exists features. repeat split; assumption.
Defined.

Lemma purple_patch_red_quartiles_are_ordered :
  exists features,
    extract_features purple_patch = Return features
    /\ (nth 3 features 0 <= nth 2 features 0)%R
    /\ (nth 2 features 0 <= nth 4 features 0)%R.
Proof.
  assert (Hrun : extract_features purple_patch
                 = Return (spec_feature_vector purple_patch))
    by (apply extract_features_returns; simpl; lia).
  exists (spec_feature_vector purple_patch). split; [exact Hrun|].
  apply (quartiles_of_a_channel_are_ordered purple_patch
           (spec_feature_vector purple_patch) 0 Hrun).
  lia.
Defined.

(** The flat patch passes the blur gate only at a threshold of 0. *)
Definition lenient : list (string * Q) := [("blur_thresh", 0)].

Lemma purple_100x100_is_accepted_and_has_features :
  exists features,
    is_valid
      (validate opencv_BGR2GRAY opencv_BGR2HSV opencv_Laplacian_var
         toy_calcHist toy_compareHist None repr_one_decimal
         (init_config []) (Return purple_100x100) lenient)
    = true
    /\ extract_features_from_image (Return purple_100x100) = Return features
    /\ List.length features = 19%nat.
Proof.
  assert (Hvalid : is_valid
                     (validate opencv_BGR2GRAY opencv_BGR2HSV
                        opencv_Laplacian_var toy_calcHist toy_compareHist
                        None repr_one_decimal (init_config [])
                        (Return purple_100x100) lenient)
                   = true)
    by (vm_compute; reflexivity).
  destruct (accepted_image_has_features opencv_BGR2GRAY opencv_BGR2HSV
              opencv_Laplacian_var toy_calcHist toy_compareHist None
              repr_one_decimal [] lenient (Return purple_100x100) Hvalid)
    as (pil_img & features & _ & _ & _ & Hrun & Hlen).
  exists features.
  split; [exact Hvalid|]. split; [exact Hrun | exact Hlen].
Defined.

Lemma uniform_prediction_entropy_range :
  exists result self',
    predict init (Pickled uniform_model) (Return purple_patch)
    = (Return result, self', [PathProbe; JoblibLoad])
    /\ entropy result = _calculate_entropy (map snd (probabilities result))
    /\ (- 5e-10 <= entropy result < 3 / 2)%R.
Proof.
  destruct uniform_call as (score & Hcall).
  destruct (reported_entropy_range _ _ _ _ _ _ Hcall)
    as (Hentropy & _ & Hrange).
  - intros name p Hin. cbn [probabilities] in Hin. simpl in Hin.
    destruct Hin as [Hin | [Hin | [Hin | [Hin | []]]]];
      injection Hin as _ <-; split; discriminate.
  - eexists _, _. split; [exact Hcall|]. split; [exact Hentropy|].
    exact Hrange.
Defined.


End PropertyScenarios.
